(** * PMX servo protocol driver: a shallow embedding of PMXArduinoLib

    The development follows the three translation units of the library:

    - [DataConv]      (DataConvert.cpp): scalar <-> byte-array codecs;
    - [PmxBase]       (PmxBaseClass.cpp): frame validation, register access
                      and motion commands over an abstract transport;
    - [PmxHardSerial] (PmxHardSerialClass.cpp): the HardwareSerial transport
                      with its busy flag.

    Conventions.  A C++ [byte] is a [Z] in [0, 256); arrays are [list Z],
    read with [!!!] and written with [<[i:=v]>]; integer conversions are
    written out ([to_byte], [to_int16], ...).  [long] is 32 bits wide and the
    byte order is little-endian, as on the Arduino targets of the library. *)

From Stdlib Require Import ZArith Lia Bool String.
From stdpp Require Import base list.

Local Open Scope Z_scope.

(** ** Integer conversions *)

Definition to_byte (z : Z) : Z := z mod 256.
Definition to_uint16 (z : Z) : Z := z mod 65536.
Definition to_int16 (z : Z) : Z := (z + 32768) mod 65536 - 32768.
Definition to_uint32 (z : Z) : Z := z mod 4294967296.
Definition to_int32 (z : Z) : Z := (z + 2147483648) mod 4294967296 - 2147483648.

(** Byte [i] of the object representation of an integer (two's complement,
    little-endian). *)
Definition byte_of (z : Z) (i : Z) : Z := Z.land (Z.shiftr z (8 * i)) 255.

(** [for (int i = 0; i < n; i++) body(i)] over a state [A]. *)
Fixpoint for_loop_from {A : Type} (i : Z) (n : nat) (body : Z -> A -> A) (a : A) : A :=
  match n with
  | O => a
  | S n' => for_loop_from (i + 1) n' body (body i a)
  end.

Definition for_loop {A : Type} (n : Z) (body : Z -> A -> A) (a : A) : A :=
  for_loop_from 0 (Z.to_nat n) body a.

(** [memcpy(dst, src, n)] writes [n] cells from the start of [dst] on,
    whatever the size of the array that [dst] names.  A copy longer than the
    array runs past its end: the result then has [n] cells, those beyond the
    array's length being the memory that follows it.  The calls in the
    library copy from an array of at least [n] cells; a cell beyond the end
    of [src] would read as 0 here. *)
Definition memcpy (dst src : list Z) (n : Z) : list Z :=
  ((fun i : nat => src !!! i) <$> seq 0 (Z.to_nat n)) ++ drop (Z.to_nat n) dst.

(** [readBytes(&buf[offset], n)]: the bytes received are stored from
    [offset] on.  Like [memcpy], the store is not bounded by the size of the
    array. *)
Definition stored_at (offset : nat) (got buf : list Z) : list Z :=
  take offset buf ++ got ++ drop (offset + length got) buf.

(** ** Constants of namespace PMX (PmxBaseClass.h) *)

Module PMX.

Definition ErrorByteData : Z := 0xFF.
Definition ErrorUint16Data : Z := 0x7FFF.
Definition ErrorUint32Data : Z := 0x7FFFFFFF.

Module ControlMode.
Definition Position : Z := 0x01.
End ControlMode.

Module SendCmd.
Definition MemREAD : Z := 0xa0.
Definition MemWRITE : Z := 0xa1.
Definition LOAD : Z := 0xa2.
Definition SAVE : Z := 0xa3.
Definition MotorREAD : Z := 0xa4.
Definition MotorWRITE : Z := 0xa5.
Definition SystemREAD : Z := 0xbb.
Definition SystemWRITE : Z := 0xbc.
Definition ReBoot : Z := 0xbd.
Definition FactoryReset : Z := 0xbe.
End SendCmd.

Module RamAddrList.
Definition PositionKp : Z := 0.
Definition CwPositionLimit : Z := 96.
Definition PresetPosAddr : Z := 118.
End RamAddrList.

Module BuffPter.
Definition Header : Z := 0.
Definition Header1 : Z := 1.
Definition ID : Z := 2.
Definition Length : Z := 3.
Definition CMD : Z := 4.
Definition Option : Z := 5.
Definition Status : Z := 5.
Definition Data : Z := 6.
End BuffPter.

Module ReceiveDataOption.
Definition NoReturn : Z := 0x00.
Definition Position : Z := 0x01.
Definition Speed : Z := 0x02.
Definition Current : Z := 0x04.
Definition Torque : Z := 0x08.
Definition Pwm : Z := 0x10.
Definition MotorTemp : Z := 0x20.
Definition CpuTemp : Z := 0x40.
Definition Voltage : Z := 0x80.
Definition Full : Z := 0xFF.
End ReceiveDataOption.

Module ComError.
Definition OK : Z := 0.
Definition TimeOut : Z := 0xFF00.
Definition CrcError : Z := 0xFE00.
Definition FormatError : Z := 0xFD00.
Definition SendError : Z := 0xFC00.
Definition ReceiveError : Z := 0xFB00.
Definition MotorREADConvertError : Z := 0xFA00.
Definition NG : Z := 0xFA00.
Definition ErrorMask : Z := 0xFF00.
End ComError.

Module MinimumLength.
Definition Send : Z := 8.
Definition Receive : Z := 8.
End MinimumLength.

Module TorqueSwitchType.
Definition Control : Z := 0x00.
Definition TorqueOn : Z := 0x01.
Definition Free : Z := 0x02.
Definition Brake : Z := 0x04.
Definition Hold : Z := 0x08.
Definition Mask : Z := 0x0F.
Definition Error : Z := 0xFF.
End TorqueSwitchType.

End PMX.

(** ** DataConvert.cpp

    Every codec goes through a union of a scalar with a byte array; on a
    little-endian target [byte[i]] is byte [i] of the scalar.  The members
    [Int32Byte.int32] and [Uint32Byte.uint32] are both [unsigned long]. *)

Module DataConv.

Definition bytesToInt16 (byteDatas : list Z) : Z :=
    let b0 := byteDatas !!! 0%nat in
    let b1 := byteDatas !!! 1%nat in
    to_int16 (Z.lor b0 (Z.shiftl b1 8)).

Definition bytesToUint16 (byteDatas : list Z) : Z :=
    let b0 := byteDatas !!! 0%nat in
    let b1 := byteDatas !!! 1%nat in
    to_uint16 (Z.lor b0 (Z.shiftl b1 8)).

Definition bytesToUlong (byteDatas : list Z) : Z :=
    let b0 := byteDatas !!! 0%nat in
    let b1 := byteDatas !!! 1%nat in
    let b2 := byteDatas !!! 2%nat in
    let b3 := byteDatas !!! 3%nat in
    Z.lor b0 (Z.lor (Z.shiftl b1 8) (Z.lor (Z.shiftl b2 16) (Z.shiftl b3 24))).

  (** [return lbyte.int32;] converts the [unsigned long] member to [long]. *)
Definition bytesToInt32 (byteDatas : list Z) : Z :=
    to_int32 (to_uint32 (bytesToUlong byteDatas)).

Definition bytesToUint32 (byteDatas : list Z) : Z :=
    to_uint32 (bytesToUlong byteDatas).

Definition int16ToBytes (shortData : Z) (byteDatas : list Z) : list Z :=
    let sbyte := to_int16 shortData in
    <[1%nat := byte_of sbyte 1]> (<[0%nat := byte_of sbyte 0]> byteDatas).

Definition uint16ToBytes (wordData : Z) (byteDatas : list Z) : list Z :=
    let wbyte := to_uint16 wordData in
    <[1%nat := byte_of wbyte 1]> (<[0%nat := byte_of wbyte 0]> byteDatas).

  (** [lbyte.int32 = longData;] converts the [long] to the [unsigned long]
      member. *)
Definition int32ToBytes (longData : Z) (byteDatas : list Z) : list Z :=
    let lbyte := to_uint32 (to_int32 longData) in
    <[3%nat := byte_of lbyte 3]> (<[2%nat := byte_of lbyte 2]>
      (<[1%nat := byte_of lbyte 1]> (<[0%nat := byte_of lbyte 0]> byteDatas))).

Definition uint32ToBytes (dwordData : Z) (byteDatas : list Z) : list Z :=
    let dbyte := to_uint32 dwordData in
    <[3%nat := byte_of dbyte 3]> (<[2%nat := byte_of dbyte 2]>
      (<[1%nat := byte_of dbyte 1]> (<[0%nat := byte_of dbyte 0]> byteDatas))).

End DataConv.

(** ** PmxBase::__byteCounter *)

Fixpoint byteCounter_loop (n : nat) (val cnt : Z) : Z :=
  match n with
  | O => cnt
  | S n' =>
      let check := Z.land val 0x01 in
      let cnt := if check =? 1 then cnt + 1 else cnt in
      let val := to_byte (Z.shiftr val 1) in
      byteCounter_loop n' val cnt
  end.

Definition __byteCounter (val : Z) : Z :=
  let cnt := byteCounter_loop 8 val 0 in
  cnt * 2.

(** The number of set bits among bits [0 .. n-1] of [v]. *)
Fixpoint popcount (n : nat) (v : Z) : Z :=
  match n with
  | O => 0
  | S k => popcount k v + Z.b2z (Z.testbit v (Z.of_nat k))
  end.

(** ** Arrays

    C arrays are lists indexed by [int]; a local array declared without
    initializer holds an indeterminate byte in every cell. *)

Definition load (buf : list Z) (i : Z) : Z := buf !!! Z.to_nat i.
Definition store (buf : list Z) (i : Z) (v : Z) : list Z := <[Z.to_nat i := v]> buf.
Definition alloca (indeterminate : Z) (n : Z) : list Z := repeat indeterminate (Z.to_nat n).

(** ** Effects of PmxBase

    The base class talks to four collaborators: the diagnostic console
    ([Serial.println]), the frame logger ([logOutputPrint]), the checksum
    service ([PmxCrc16]) and the transport (the virtual [synchronize]
    family).  Every call is recorded in a trace, in program order. *)

Inductive Event : Type :=
| EvPrintln (s : string)
| EvLogOutput (outputBytes : list Z) (outputLength : Z)
| EvSetCrc16 (buf : list Z)
| EvCheckCrc16 (buf : list Z)
| EvSynchronize (txBuf : list Z) (txLen rxLen : Z)
| EvSynchronizeVariableRead (txBuf : list Z) (txLen : Z).

Definition is_transport_event (e : Event) : bool :=
  match e with
  | EvSynchronize _ _ _ | EvSynchronizeVariableRead _ _ => true
  | _ => false
  end.

Definition is_crc_check_event (e : Event) : bool :=
  match e with
  | EvCheckCrc16 _ => true
  | _ => false
  end.

(** The virtual transport methods of PmxBase.  Out-parameters are passed in
    and returned: [synchronize txBuf txLen rxBuf rxLen] yields the flag and
    the new [rxBuf]; [synchronizeVariableRead txBuf txLen rxBuf rxLen] yields
    the flag, the new [rxBuf] and the new [*rxLen]. *)
Class Transport (T : Type) : Type := {
  synchronize : list Z -> Z -> list Z -> Z -> T -> (bool * list Z) * T;
  synchronizeVariableRead : list Z -> Z -> list Z -> Z -> T -> (bool * list Z * Z) * T
}.

(** The checksum service PmxCrc16 (PmxCRC.h is not part of the sources):
    [setCrc16] fills in the trailing checksum of a frame in place,
    [checkCrc16] verifies it. *)
Record PmxCrc16 : Type := {
  setCrc16 : list Z -> list Z;
  checkCrc16 : list Z -> bool
}.

Record World (T : Type) : Type := mkWorld {
  transport : T;
  trace : list Event
}.
Arguments mkWorld {T} _ _.
Arguments transport {T} _.
Arguments trace {T} _.

Definition M (T A : Type) : Type := World T -> A * World T.

Definition ret {T A : Type} (a : A) : M T A := fun w => (a, w).

Definition bind {T A B : Type} (c : M T A) (k : A -> M T B) : M T B :=
  fun w => let '(a, w') := c w in k a w'.

Declare Scope pmx_scope.
Delimit Scope pmx_scope with pmx.
Notation "'let*' x ':=' c 'in' k" := (bind c (fun x => k))
  (at level 10, x name, c at level 100, k at level 200) : pmx_scope.
Notation "'let*' ' pat ':=' c 'in' k" := (bind c (fun x => match x with pat => k end))
  (at level 10, pat pattern, c at level 100, k at level 200) : pmx_scope.

(** The world after one more recorded event. *)
Definition after {T : Type} (w : World T) (e : Event) : World T :=
  mkWorld (transport w) (trace w ++ [e]).

Definition tell {T : Type} (e : Event) : M T unit :=
  fun w => (tt, after w e).

Definition run_transport {T A : Type} (e : Event) (op : T -> A * T) : M T A :=
  fun w => let '(a, t') := op (transport w) in
           (a, mkWorld t' (trace w ++ [e])).

Section PmxBase.

Context {T : Type} `{Transport T}.
Variable crc : PmxCrc16.
(** The content of uninitialised automatic storage. *)
Variable indeterminate : Z.

Local Open Scope pmx_scope.

Definition println (s : string) : M T unit := tell (EvPrintln s).

Definition logOutputPrint (outputBytes : list Z) (outputLength : Z) : M T unit :=
  tell (EvLogOutput outputBytes outputLength).

Definition PmxCrc16_setCrc16 (buf : list Z) : M T (list Z) :=
  let* _ := tell (EvSetCrc16 buf) in ret (setCrc16 crc buf).

Definition PmxCrc16_checkCrc16 (buf : list Z) : M T bool :=
  let* _ := tell (EvCheckCrc16 buf) in ret (checkCrc16 crc buf).

(** [this->synchronize(txbuf, txSize, rxbuf, rxSize)]: the [int] sizes are
    converted to the [byte] parameters. *)
Definition this_synchronize (txBuf : list Z) (txLen : Z) (rxBuf : list Z) (rxLen : Z)
  : M T (bool * list Z) :=
  run_transport (EvSynchronize txBuf (to_byte txLen) (to_byte rxLen))
    (synchronize txBuf (to_byte txLen) rxBuf (to_byte rxLen)).

Definition this_synchronizeVariableRead (txBuf : list Z) (txLen : Z) (rxBuf : list Z) (rxLen : Z)
  : M T (bool * list Z * Z) :=
  run_transport (EvSynchronizeVariableRead txBuf (to_byte txLen))
    (synchronizeVariableRead txBuf (to_byte txLen) rxBuf rxLen).

(** *** PmxBase::checkRecv *)

Definition checkRecv (rxBuff : list Z) (cmd header : Z) : M T Z :=
  if negb (load rxBuff 0 =? header) || negb (load rxBuff 1 =? header) then
    let* _ := println "HeaderError" in
    ret PMX.ComError.ReceiveError
  else if negb (load rxBuff PMX.BuffPter.CMD =? Z.land cmd 0x7f) then
    let* _ := println "cmdError" in
    ret PMX.ComError.ReceiveError
  else
    let* ok := PmxCrc16_checkCrc16 rxBuff in
    if eqb false ok then
      ret PMX.ComError.CrcError
    else
      ret PMX.ComError.OK.

(** The default argument [header = 0xfe]. *)
Definition default_header : Z := 0xfe.

(** *** PmxBase::MemREAD *)

Definition MemREAD (id addr readDataSize : Z) (rxData : list Z) : M T (Z * list Z) :=
  let PUT_MAX_DATA_LENGTH := 244 in
  if (readDataSize =? 0) || (readDataSize >=? PUT_MAX_DATA_LENGTH) then
    ret (PMX.ComError.FormatError, rxData)
  else
    let txSize := 11 in
    let rxSize := 8 + readDataSize in
    let txbuf := alloca indeterminate txSize in
    let rxbuf := alloca indeterminate rxSize in
    let txbuf := store txbuf 0 (to_byte 0xFE) in
    let txbuf := store txbuf 1 (to_byte 0xFE) in
    let txbuf := store txbuf 2 (to_byte id) in
    let txbuf := store txbuf 3 (to_byte txSize) in
    let txbuf := store txbuf 4 PMX.SendCmd.MemREAD in
    let txbuf := store txbuf 5 (to_byte 0x00) in
    let txbuf := store txbuf 6 (to_byte (Z.land addr 0x00ff)) in
    let txbuf := store txbuf 7 (to_byte (Z.shiftr (Z.land addr 0xff00) 8)) in
    let txbuf := store txbuf 8 (to_byte readDataSize) in
    let* txbuf := PmxCrc16_setCrc16 txbuf in
    let* '(rxFlag, rxbuf) := this_synchronize txbuf txSize rxbuf rxSize in
    let* _ := logOutputPrint txbuf txSize in
    if eqb rxFlag false then
      let rxData := for_loop readDataSize (fun i d => store d i 0xFF) rxData in
      ret (PMX.ComError.TimeOut, rxData)
    else
      let* _ := logOutputPrint rxbuf rxSize in
      let* errorFlag := checkRecv rxbuf PMX.SendCmd.MemREAD default_header in
      if negb (errorFlag =? PMX.ComError.OK) then
        ret (errorFlag, rxData)
      else
        let status := load rxbuf PMX.BuffPter.Status in
        let rxData :=
          for_loop readDataSize
            (fun i d => store d i (load rxbuf (PMX.BuffPter.Data + i))) rxData in
        ret (status, rxData).

(** *** Typed register reads

    Each wrapper returns the composite status and the final value of its
    output parameter. *)

Definition MemREADToByte (id addr : Z) (byteData : Z) : M T (Z * Z) :=
  let* '(status, cell) := MemREAD id addr 1 [byteData] in
  let byteData := load cell 0 in
  let byteData :=
    if negb (Z.land status PMX.ComError.ErrorMask =? 0x0000)
    then PMX.ErrorByteData else byteData in
  ret (status, byteData).

Definition MemREADToInt16 (id addr : Z) : M T (Z * Z) :=
  let reByte := alloca indeterminate 2 in
  let* '(status, reByte) := MemREAD id addr 2 reByte in
  let int16Data := DataConv.bytesToInt16 reByte in
  let int16Data :=
    if negb (Z.land status PMX.ComError.ErrorMask =? 0x0000)
    then to_int16 PMX.ErrorUint16Data else int16Data in
  ret (status, int16Data).

Definition MemREADToUint16 (id addr : Z) : M T (Z * Z) :=
  let reByte := alloca indeterminate 2 in
  let* '(status, reByte) := MemREAD id addr 2 reByte in
  let uint16Data := to_uint16 (DataConv.bytesToInt16 reByte) in
  let uint16Data :=
    if negb (Z.land status PMX.ComError.ErrorMask =? 0x0000)
    then to_uint16 (to_int16 PMX.ErrorUint16Data) else uint16Data in
  ret (status, uint16Data).

Definition MemREADToInt32 (id addr : Z) : M T (Z * Z) :=
  let reByte := alloca indeterminate 4 in
  let* '(status, reByte) := MemREAD id addr 4 reByte in
  let int32Data := DataConv.bytesToInt32 reByte in
  let int32Data :=
    if negb (Z.land status PMX.ComError.ErrorMask =? 0x0000)
    then to_int32 (to_int16 PMX.ErrorUint32Data) else int32Data in
  ret (status, int32Data).

Definition MemREADToUint32 (id addr : Z) : M T (Z * Z) :=
  let reByte := alloca indeterminate 4 in
  let* '(status, reByte) := MemREAD id addr 4 reByte in
  let uint32Data := to_uint32 (DataConv.bytesToInt32 reByte) in
  let uint32Data :=
    if negb (Z.land status PMX.ComError.ErrorMask =? 0x0000)
    then to_uint32 (to_int16 PMX.ErrorUint32Data) else uint32Data in
  ret (status, uint32Data).

(** *** PmxBase::MemWRITE *)

Definition MemWRITE (id addr : Z) (txDataArray : list Z) (txDataSize : Z) (writeOpt : Z)
  : M T Z :=
  let PUT_MAX_DATA_LENGTH := 245 in
  if (txDataSize =? 0) || (txDataSize >=? PUT_MAX_DATA_LENGTH) then
    ret PMX.ComError.FormatError
  else
    let txSize := PMX.MinimumLength.Send + 2 + txDataSize in
    let rxSize := PMX.MinimumLength.Receive in
    let txbuf := alloca indeterminate txSize in
    let rxbuf := alloca indeterminate rxSize in
    let txbuf := store txbuf 0 (to_byte 0xFE) in
    let txbuf := store txbuf 1 (to_byte 0xFE) in
    let txbuf := store txbuf 2 (to_byte id) in
    let txbuf := store txbuf 3 (to_byte txSize) in
    let txbuf := store txbuf 4 PMX.SendCmd.MemWRITE in
    let txbuf := store txbuf 5 (to_byte writeOpt) in
    let txbuf := store txbuf 6 (to_byte (Z.land addr 0x00ff)) in
    let txbuf := store txbuf 7 (to_byte (Z.shiftr (Z.land addr 0xff00) 8)) in
    let txbuf :=
      for_loop txDataSize
        (fun i b => store b (8 + i) (to_byte (load txDataArray i))) txbuf in
    let* txbuf := PmxCrc16_setCrc16 txbuf in
    let* '(rxFlag, rxbuf) := this_synchronize txbuf txSize rxbuf rxSize in
    let* _ := logOutputPrint txbuf txSize in
    if eqb rxFlag false then
      ret PMX.ComError.TimeOut
    else
      let* _ := logOutputPrint rxbuf rxSize in
      let* errorFlag := checkRecv rxbuf PMX.SendCmd.MemWRITE default_header in
      if negb (errorFlag =? PMX.ComError.OK) then
        ret errorFlag
      else
        let status := load rxbuf PMX.BuffPter.Status in
        ret status.

End PmxBase.

(** *** PmxBase::__convReceiveMotorData

    The function is eight copies of one block,
    [if ((receiveMode & opt) == opt) { motorData[slot] = (long)decode(&receiveBytes[arrayCount]); arrayCount += 2; }],
    which [conv_field] transcribes; the state is [(motorData, arrayCount)]. *)

Definition conv_field (receiveMode opt slot : Z) (decode : list Z -> Z)
    (receiveBytes : list Z) (st : list Z * Z) : list Z * Z :=
  let '(motorData, arrayCount) := st in
  if Z.land receiveMode opt =? opt then
    let motorData :=
      store motorData slot (to_int32 (decode (drop (Z.to_nat arrayCount) receiveBytes))) in
    (motorData, arrayCount + 2)
  else
    (motorData, arrayCount).

Definition __convReceiveMotorData (receiveMode : Z) (receiveBytes : list Z)
    (receiveBytesSize : Z) (motorData : list Z) (controlMode : Z) : bool * list Z :=
  let motorData := for_loop 8 (fun i d => store d i (to_int32 PMX.ErrorUint32Data)) motorData in
  if negb (receiveBytesSize =? __byteCounter receiveMode) then
    (false, motorData)
  else
    let st := (motorData, 0) in
    let st :=
      conv_field receiveMode PMX.ReceiveDataOption.Position 0
        (if Z.land controlMode PMX.ControlMode.Position =? PMX.ControlMode.Position
         then DataConv.bytesToInt16 else DataConv.bytesToUint16)
        receiveBytes st in
    let st := conv_field receiveMode PMX.ReceiveDataOption.Speed 1 DataConv.bytesToInt16 receiveBytes st in
    let st := conv_field receiveMode PMX.ReceiveDataOption.Current 2 DataConv.bytesToInt16 receiveBytes st in
    let st := conv_field receiveMode PMX.ReceiveDataOption.Torque 3 DataConv.bytesToInt16 receiveBytes st in
    let st := conv_field receiveMode PMX.ReceiveDataOption.Pwm 4 DataConv.bytesToInt16 receiveBytes st in
    let st := conv_field receiveMode PMX.ReceiveDataOption.MotorTemp 5 DataConv.bytesToInt16 receiveBytes st in
    let st := conv_field receiveMode PMX.ReceiveDataOption.CpuTemp 6 DataConv.bytesToInt16 receiveBytes st in
    let st := conv_field receiveMode PMX.ReceiveDataOption.Voltage 7 DataConv.bytesToUint16 receiveBytes st in
    (true, fst st).

Section PmxBaseMotion.

Context {T : Type} `{Transport T}.
Variable crc : PmxCrc16.
Variable indeterminate : Z.

Local Open Scope pmx_scope.

(** *** PmxBase::MotorREAD

    [torqueSw] is [None] for a null pointer.  The result is the composite
    status, the sample and the torque-switch cell. *)

Definition MotorREAD (id receiveMode : Z) (readMotorData : list Z) (controlMode : Z)
    (torqueSw : option Z) : M T (Z * list Z * option Z) :=
  let readDataSize := __byteCounter receiveMode in
  let txSize := PMX.MinimumLength.Send in
  let rxSize := PMX.MinimumLength.Receive + 1 + readDataSize in
  let txbuf := alloca indeterminate txSize in
  let rxbuf := alloca indeterminate rxSize in
  let readMotorData :=
    for_loop 8 (fun i d => store d i (to_int32 PMX.ErrorUint32Data)) readMotorData in
  let torqueSw :=
    match torqueSw with
    | Some _ => Some PMX.TorqueSwitchType.Error
    | None => None
    end in
  let txbuf := store txbuf 0 (to_byte 0xFE) in
  let txbuf := store txbuf 1 (to_byte 0xFE) in
  let txbuf := store txbuf 2 (to_byte id) in
  let txbuf := store txbuf 3 (to_byte txSize) in
  let txbuf := store txbuf 4 PMX.SendCmd.MotorREAD in
  let txbuf := store txbuf 5 (to_byte 0x00) in
  let* txbuf := PmxCrc16_setCrc16 crc txbuf in
  let rxNowSize := indeterminate in
  let* '(rxFlag, rxbuf, rxNowSize) :=
    this_synchronizeVariableRead txbuf txSize rxbuf rxNowSize in
  let* _ := logOutputPrint txbuf txSize in
  if eqb rxFlag false then
    ret (PMX.ComError.TimeOut, readMotorData, torqueSw)
  else
    let* _ := logOutputPrint rxbuf rxNowSize in
    let* errorFlag := checkRecv crc rxbuf PMX.SendCmd.MotorREAD default_header in
    if negb (errorFlag =? PMX.ComError.OK) then
      ret (errorFlag, readMotorData, torqueSw)
    else
      let torqueSw :=
        match torqueSw with
        | Some sw =>
            if rxNowSize >=? PMX.MinimumLength.Receive
            then Some (load rxbuf PMX.BuffPter.Data) else Some sw
        | None => None
        end in
      let status := load rxbuf PMX.BuffPter.Status in
      if negb (rxNowSize =? rxSize) then
        let status := to_uint16 (status + PMX.ComError.MotorREADConvertError) in
        ret (status, readMotorData, torqueSw)
      else
        let rxMotorData := alloca indeterminate readDataSize in
        let rxMotorData :=
          for_loop readDataSize
            (fun i b => store b i (load rxbuf (PMX.BuffPter.Data + 1 + i))) rxMotorData in
        let '(flag, readMotorData) :=
          __convReceiveMotorData receiveMode rxMotorData (to_byte readDataSize)
            readMotorData controlMode in
        if eqb flag false then
          let status := to_uint16 (status + PMX.ComError.MotorREADConvertError) in
          ret (status, readMotorData, torqueSw)
        else
          ret (status, readMotorData, torqueSw).

(** *** PmxBase::MotorWRITE, torque-switch form

    [MotorWRITE(id, toruqeOnSw, receiveMode, receiveData, controlMode)].
    [receiveData] is [None] for a null pointer; the source dereferences it
    unguarded when decoding, which the model renders by decoding into an
    empty array and keeping [None]. *)

Definition MotorWRITE (id toruqeOnSw receiveMode : Z) (receiveData : option (list Z))
    (controlMode : Z) : M T (Z * option (list Z)) :=
  let receiveData :=
    match receiveData with
    | Some d => Some (for_loop 8 (fun i d => store d i (to_int32 PMX.ErrorUint32Data)) d)
    | None => None
    end in
  if negb ((toruqeOnSw =? PMX.TorqueSwitchType.TorqueOn) ||
           (toruqeOnSw =? PMX.TorqueSwitchType.Free) ||
           (toruqeOnSw =? PMX.TorqueSwitchType.Brake) ||
           (toruqeOnSw =? PMX.TorqueSwitchType.Hold)) then
    ret (PMX.ComError.FormatError, receiveData)
  else
    let readDataSize := __byteCounter receiveMode in
    let txSize := PMX.MinimumLength.Send in
    let rxSize := PMX.MinimumLength.Receive + 1 + readDataSize in
    let txbuf := alloca indeterminate txSize in
    let rxbuf := alloca indeterminate 26 in
    let txbuf := store txbuf 0 (to_byte 0xFE) in
    let txbuf := store txbuf 1 (to_byte 0xFE) in
    let txbuf := store txbuf 2 (to_byte id) in
    let txbuf := store txbuf 3 (to_byte txSize) in
    let txbuf := store txbuf 4 PMX.SendCmd.MotorWRITE in
    let txbuf := store txbuf 5 (to_byte toruqeOnSw) in
    let* txbuf := PmxCrc16_setCrc16 crc txbuf in
    let rxNowSize := indeterminate in
    let* '(rxFlag, rxbuf, rxNowSize) :=
      this_synchronizeVariableRead txbuf txSize rxbuf rxNowSize in
    let* _ := logOutputPrint txbuf txSize in
    if eqb rxFlag false then
      ret (PMX.ComError.TimeOut, receiveData)
    else
      let* errorFlag := checkRecv crc rxbuf PMX.SendCmd.MotorWRITE default_header in
      if negb (errorFlag =? PMX.ComError.OK) then
        ret (errorFlag, receiveData)
      else
        let* _ := logOutputPrint rxbuf rxNowSize in
        let status := load rxbuf PMX.BuffPter.Status in
        if receiveMode =? PMX.ReceiveDataOption.NoReturn then
          ret (status, receiveData)
        else if negb (rxNowSize =? rxSize) then
          let status := to_uint16 (status + PMX.ComError.ReceiveError) in
          ret (status, receiveData)
        else
          let rxMotorData := alloca indeterminate readDataSize in
          let rxMotorData :=
            for_loop readDataSize
              (fun i b => store b i (load rxbuf (PMX.BuffPter.Data + 1 + i))) rxMotorData in
          let '(flag, decoded) :=
            __convReceiveMotorData receiveMode rxMotorData (to_byte readDataSize)
              (default [] receiveData) controlMode in
          let receiveData :=
            match receiveData with
            | Some _ => Some decoded
            | None => None
            end in
          if eqb flag false then
            let status := to_uint16 (status + PMX.ComError.MotorREADConvertError) in
            ret (status, receiveData)
          else
            ret (status, receiveData).

(** [MotorWRITE(id, toruqeOnSw)] forwards with [NoReturn] and a scratch
    array. *)
Definition MotorWRITE_switch (id toruqeOnSw : Z) : M T Z :=
  let reDummyReMode := PMX.ReceiveDataOption.NoReturn in
  let dummyDatas := alloca indeterminate 8 in
  let* '(status, _) := MotorWRITE id toruqeOnSw reDummyReMode (Some dummyDatas) 0x01 in
  ret status.

(** *** PmxBase::MotorWRITE, target-value form

    [MotorWRITE(id, writeDatas, writeDataCount, receiveMode, receiveData, controlMode)]. *)

Definition MotorWRITE_target (id : Z) (writeDatas : list Z) (writeDataCount : Z)
    (receiveMode : Z) (receiveData : option (list Z)) (controlMode : Z)
  : M T (Z * option (list Z)) :=
  let receiveData :=
    match receiveData with
    | Some d => Some (for_loop 8 (fun i d => store d i (to_int32 PMX.ErrorUint32Data)) d)
    | None => None
    end in
  let readDataSize := __byteCounter receiveMode in
  let txSize := PMX.MinimumLength.Send + (writeDataCount * 2) in
  let rxSize := PMX.MinimumLength.Receive + 1 + readDataSize in
  let txbuf := alloca indeterminate txSize in
  let rxbuf := alloca indeterminate 26 in
  let txbuf := store txbuf 0 (to_byte 0xFE) in
  let txbuf := store txbuf 1 (to_byte 0xFE) in
  let txbuf := store txbuf 2 (to_byte id) in
  let txbuf := store txbuf 3 (to_byte txSize) in
  let txbuf := store txbuf 4 PMX.SendCmd.MotorWRITE in
  let txbuf := store txbuf 5 (to_byte 0x00) in
  let txbuf :=
    for_loop writeDataCount
      (fun i b =>
         let wordBuff := alloca indeterminate 2 in
         let wordBuff :=
           if load writeDatas i <? 0
           then DataConv.int16ToBytes (to_int16 (load writeDatas i)) wordBuff
           else DataConv.uint16ToBytes (to_int16 (load writeDatas i)) wordBuff in
         let b := store b (PMX.BuffPter.Data + (i * 2)) (load wordBuff 0) in
         store b (PMX.BuffPter.Data + (i * 2) + 1) (load wordBuff 1))
      txbuf in
  let* txbuf := PmxCrc16_setCrc16 crc txbuf in
  let rxNowSize := indeterminate in
  let* '(rxFlag, rxbuf, rxNowSize) :=
    this_synchronizeVariableRead txbuf txSize rxbuf rxNowSize in
  let* _ := logOutputPrint txbuf txSize in
  if eqb rxFlag false then
    ret (PMX.ComError.TimeOut, receiveData)
  else
    let* errorFlag := checkRecv crc rxbuf PMX.SendCmd.MotorWRITE default_header in
    if negb (errorFlag =? PMX.ComError.OK) then
      ret (errorFlag, receiveData)
    else
      let* _ := logOutputPrint rxbuf rxNowSize in
      let status := load rxbuf PMX.BuffPter.Status in
      if receiveMode =? PMX.ReceiveDataOption.NoReturn then
        ret (status, receiveData)
      else if negb (rxNowSize =? rxSize) then
        let status := to_uint16 (status + PMX.ComError.MotorREADConvertError) in
        ret (status, receiveData)
      else
        let rxMotorData := alloca indeterminate readDataSize in
        let rxMotorData :=
          for_loop readDataSize
            (fun i b => store b i (load rxbuf (PMX.BuffPter.Data + 1 + i))) rxMotorData in
        let '(flag, decoded) :=
          __convReceiveMotorData receiveMode rxMotorData (to_byte readDataSize)
            (default [] receiveData) controlMode in
        let receiveData :=
          match receiveData with
          | Some _ => Some decoded
          | None => None
          end in
        if eqb flag false then
          let status := to_uint16 (status + PMX.ComError.MotorREADConvertError) in
          ret (status, receiveData)
        else
          ret (status, receiveData).

End PmxBaseMotion.

(** ** PmxBaseClass.cpp, the remaining commands *)

(** [f(..., &(arr[offset]))]: an array function applied to the tail of [arr]
    that starts at [offset]. *)
Definition at_offset (offset : Z) (f : list Z -> list Z) (arr : list Z) : list Z :=
  take (Z.to_nat offset) arr ++ f (drop (Z.to_nat offset) arr).

Section PmxBaseCommands.

Context {T : Type} `{Transport T}.
Variable crc : PmxCrc16.
Variable indeterminate : Z.

Local Open Scope pmx_scope.

(** *** Typed register writes *)

Definition MemWRITEToByte (id addr byteData writeOpt : Z) : M T Z :=
  let* status := MemWRITE crc indeterminate id addr [byteData] 1 writeOpt in
  ret status.

Definition MemWRITEToInt16 (id addr int16Data writeOpt : Z) : M T Z :=
  let txDataArray := alloca indeterminate 2 in
  let txDataArray := DataConv.int16ToBytes int16Data txDataArray in
  let* status := MemWRITE crc indeterminate id addr txDataArray 2 writeOpt in
  ret status.

Definition MemWRITEToUint16 (id addr uint16Data writeOpt : Z) : M T Z :=
  let txDataArray := alloca indeterminate 2 in
  let txDataArray := DataConv.uint16ToBytes uint16Data txDataArray in
  let* status := MemWRITE crc indeterminate id addr txDataArray 2 writeOpt in
  ret status.

Definition MemWRITEToInt32 (id addr int32Data writeOpt : Z) : M T Z :=
  let txDataArray := alloca indeterminate 4 in
  let txDataArray := DataConv.int32ToBytes int32Data txDataArray in
  let* status := MemWRITE crc indeterminate id addr txDataArray 4 writeOpt in
  ret status.

Definition MemWRITEToUint32 (id addr uint32Data writeOpt : Z) : M T Z :=
  let txDataArray := alloca indeterminate 4 in
  let txDataArray := DataConv.uint32ToBytes uint32Data txDataArray in
  let* status := MemWRITE crc indeterminate id addr txDataArray 4 writeOpt in
  ret status.

(** *** PmxBase::LOAD and PmxBase::SAVE *)

Definition LOAD (id : Z) : M T Z :=
  let txSize := PMX.MinimumLength.Send in
  let rxSize := PMX.MinimumLength.Receive in
  let txbuf := alloca indeterminate txSize in
  let rxbuf := alloca indeterminate rxSize in
  let txbuf := store txbuf 0 (to_byte 0xFE) in
  let txbuf := store txbuf 1 (to_byte 0xFE) in
  let txbuf := store txbuf 2 (to_byte id) in
  let txbuf := store txbuf 3 (to_byte txSize) in
  let txbuf := store txbuf 4 PMX.SendCmd.LOAD in
  let txbuf := store txbuf 5 (to_byte 0x00) in
  let* txbuf := PmxCrc16_setCrc16 crc txbuf in
  let* '(rxFlag, rxbuf) := this_synchronize txbuf txSize rxbuf rxSize in
  let* _ := logOutputPrint txbuf txSize in
  if eqb rxFlag false then
    let* _ := println "timeout" in
    ret PMX.ComError.TimeOut
  else
    let* _ := logOutputPrint rxbuf rxSize in
    let* errorFlag := checkRecv crc rxbuf PMX.SendCmd.LOAD default_header in
    if negb (errorFlag =? PMX.ComError.OK) then
      ret errorFlag
    else
      let status := load rxbuf PMX.BuffPter.Status in
      ret status.

Definition SAVE (id : Z) : M T Z :=
  let txSize := PMX.MinimumLength.Send in
  let rxSize := PMX.MinimumLength.Receive in
  let txbuf := alloca indeterminate txSize in
  let rxbuf := alloca indeterminate rxSize in
  let txbuf := store txbuf 0 (to_byte 0xFE) in
  let txbuf := store txbuf 1 (to_byte 0xFE) in
  let txbuf := store txbuf 2 (to_byte id) in
  let txbuf := store txbuf 3 (to_byte txSize) in
  let txbuf := store txbuf 4 PMX.SendCmd.SAVE in
  let txbuf := store txbuf 5 (to_byte 0x00) in
  let* txbuf := PmxCrc16_setCrc16 crc txbuf in
  let* '(rxFlag, rxbuf) := this_synchronize txbuf txSize rxbuf rxSize in
  let* _ := logOutputPrint txbuf txSize in
  if eqb rxFlag false then
    let* _ := println "timeout" in
    ret PMX.ComError.TimeOut
  else
    let* _ := logOutputPrint rxbuf rxSize in
    let* errorFlag := checkRecv crc rxbuf PMX.SendCmd.SAVE default_header in
    if negb (errorFlag =? PMX.ComError.OK) then
      ret errorFlag
    else
      let status := load rxbuf PMX.BuffPter.Status in
      ret status.

(** *** The target-value entry points of MotorWRITE *)

(** [MotorWRITE(id, writeDatas, writeDataCount)]. *)
Definition MotorWRITE_target_noreturn (id : Z) (writeDatas : list Z) (writeDataCount : Z)
  : M T Z :=
  let reDummyMode := PMX.ReceiveDataOption.NoReturn in
  let dummyDatas := alloca indeterminate 8 in
  let* '(status, _) :=
    MotorWRITE_target crc indeterminate id writeDatas writeDataCount reDummyMode
      (Some dummyDatas) 0x01 in
  ret status.

Definition MotorWRITESingle (id targetVal : Z) : M T Z :=
  let sendData := [targetVal] in
  MotorWRITE_target_noreturn id sendData 1.

Definition MotorWRITEDouble (id targetVal1 targetVal2 : Z) : M T Z :=
  let sendData := [targetVal1; targetVal2] in
  MotorWRITE_target_noreturn id sendData 2.

Definition MotorWRITETriple (id targetVal1 targetVal2 targetVal3 : Z) : M T Z :=
  let sendData := [targetVal1; targetVal2; targetVal3] in
  MotorWRITE_target_noreturn id sendData 3.

(** [setPosition(id, pos)]: [pos] is a [short], widened to [long]. *)
Definition setPosition (id pos : Z) : M T Z :=
  MotorWRITESingle id (to_int32 (to_int16 pos)).

Definition setMotorTorqueOn (id : Z) : M T Z :=
  MotorWRITE_switch crc indeterminate id PMX.TorqueSwitchType.TorqueOn.

Definition setMotorFree (id : Z) : M T Z :=
  MotorWRITE_switch crc indeterminate id PMX.TorqueSwitchType.Free.

Definition setMotorBrake (id : Z) : M T Z :=
  MotorWRITE_switch crc indeterminate id PMX.TorqueSwitchType.Brake.

Definition setMotorHold (id : Z) : M T Z :=
  MotorWRITE_switch crc indeterminate id PMX.TorqueSwitchType.Hold.

(** *** PmxBase::SystemREAD and its readers *)

Definition SystemREAD (id : Z) (rxData : list Z) : M T (Z * list Z) :=
  let readDataSize := 13 in
  let txSize := PMX.MinimumLength.Send in
  let rxSize := PMX.MinimumLength.Receive + readDataSize in
  let txbuf := alloca indeterminate txSize in
  let rxbuf := alloca indeterminate rxSize in
  let txbuf := store txbuf 0 (to_byte 0xFE) in
  let txbuf := store txbuf 1 (to_byte 0xFE) in
  let txbuf := store txbuf 2 (to_byte id) in
  let txbuf := store txbuf 3 (to_byte txSize) in
  let txbuf := store txbuf 4 PMX.SendCmd.SystemREAD in
  let txbuf := store txbuf 5 (to_byte 0x00) in
  let* txbuf := PmxCrc16_setCrc16 crc txbuf in
  let* '(rxFlag, rxbuf) := this_synchronize txbuf txSize rxbuf rxSize in
  let* _ := logOutputPrint txbuf txSize in
  if eqb rxFlag false then
    ret (PMX.ComError.TimeOut, rxData)
  else
    let* _ := logOutputPrint rxbuf rxSize in
    let* errorFlag := checkRecv crc rxbuf PMX.SendCmd.SystemREAD default_header in
    if negb (errorFlag =? PMX.ComError.OK) then
      ret (errorFlag, rxData)
    else
      let status := load rxbuf PMX.BuffPter.Status in
      let rxData :=
        for_loop readDataSize
          (fun i d => store d i (load rxbuf (PMX.BuffPter.Data + i))) rxData in
      ret (status, rxData).

(** [getSerialNumber(id, byte serialByteNum[4])]. *)
Definition getSerialNumber_bytes (id : Z) (serialByteNum : list Z) : M T (Z * list Z) :=
  let sysData := alloca indeterminate 13 in
  let* '(status, sysData) := SystemREAD id sysData in
  if negb (Z.land status PMX.ComError.ErrorMask =? PMX.ComError.OK) then
    let serialByteNum := DataConv.uint32ToBytes PMX.ErrorUint32Data serialByteNum in
    ret (status, serialByteNum)
  else
    let serialByteNum :=
      for_loop 4 (fun i d => store d i (load sysData i)) serialByteNum in
    ret (status, serialByteNum).

(** [getSerialNumber(id, unsigned long *serialLongNum)]. *)
Definition getSerialNumber (id : Z) : M T (Z * Z) :=
  let serialNumByte := alloca indeterminate 4 in
  let* '(status, serialNumByte) := getSerialNumber_bytes id serialNumByte in
  let serialLongNum := DataConv.bytesToUint32 serialNumByte in
  ret (status, serialLongNum).

(** [getModelNum(id, unsigned short *modelNum, unsigned short *seriesNum)];
    the result is the status, the model number and the series number. *)
Definition getModelNum (id : Z) : M T (Z * Z * Z) :=
  let sysData := alloca indeterminate 13 in
  let* '(status, sysData) := SystemREAD id sysData in
  if negb (Z.land status PMX.ComError.ErrorMask =? PMX.ComError.OK) then
    let modelNum := PMX.ErrorUint16Data in
    let seriesNum := PMX.ErrorUint16Data in
    ret (status, modelNum, seriesNum)
  else
    let modelData := alloca indeterminate 2 in
    let modelData := store modelData 0 (load sysData 4) in
    let modelData := store modelData 1 (load sysData 5) in
    let modelNum := DataConv.bytesToUint16 modelData in
    let seriesData := alloca indeterminate 2 in
    let seriesData := store seriesData 0 (load sysData 6) in
    let seriesData := store seriesData 1 (load sysData 7) in
    let seriesNum := DataConv.bytesToUint16 seriesData in
    ret (status, modelNum, seriesNum).

Definition getVersion (id : Z) (verData : list Z) : M T (Z * list Z) :=
  let sysData := alloca indeterminate 13 in
  let* '(status, sysData) := SystemREAD id sysData in
  if negb (Z.land status PMX.ComError.ErrorMask =? PMX.ComError.OK) then
    let verData := for_loop 4 (fun i d => store d i PMX.ErrorByteData) verData in
    ret (status, verData)
  else
    let verData := for_loop 4 (fun i d => store d i (load sysData (i + 8))) verData in
    ret (status, verData).

Definition getResponseTime (id : Z) : M T (Z * Z) :=
  let sysData := alloca indeterminate 13 in
  let* '(status, sysData) := SystemREAD id sysData in
  if negb (Z.land status PMX.ComError.ErrorMask =? PMX.ComError.OK) then
    let respTime := PMX.ErrorByteData in
    ret (status, respTime)
  else
    let respTime := load sysData 12 in
    ret (status, respTime).

(** *** PmxBase::SystemWRITE and its setters *)

(** [SystemWRITE(id, byte serialNum[4], option, newId, newBaudrateVal,
    newParityVal, newResponseTime)]. *)
Definition SystemWRITE (id : Z) (serialNum : list Z)
    (option newId newBaudrateVal newParityVal newResponseTime : Z) : M T Z :=
  let txSize := PMX.MinimumLength.Send + 4 + 4 in
  let rxSize := PMX.MinimumLength.Receive in
  let txbuf := alloca indeterminate txSize in
  let rxbuf := alloca indeterminate rxSize in
  let txbuf := store txbuf 0 (to_byte 0xFE) in
  let txbuf := store txbuf 1 (to_byte 0xFE) in
  let txbuf := store txbuf 2 (to_byte id) in
  let txbuf := store txbuf 3 (to_byte txSize) in
  let txbuf := store txbuf 4 PMX.SendCmd.SystemWRITE in
  let txbuf := store txbuf 5 (to_byte option) in
  let txbuf := store txbuf 6 (to_byte (load serialNum 0)) in
  let txbuf := store txbuf 7 (to_byte (load serialNum 1)) in
  let txbuf := store txbuf 8 (to_byte (load serialNum 2)) in
  let txbuf := store txbuf 9 (to_byte (load serialNum 3)) in
  let txbuf := store txbuf 10 (to_byte newId) in
  let txbuf := store txbuf 11 (to_byte newBaudrateVal) in
  let txbuf := store txbuf 12 (to_byte newParityVal) in
  let txbuf := store txbuf 13 (to_byte newResponseTime) in
  let* txbuf := PmxCrc16_setCrc16 crc txbuf in
  let* '(rxFlag, rxbuf) := this_synchronize txbuf txSize rxbuf rxSize in
  let* _ := logOutputPrint txbuf txSize in
  if eqb rxFlag false then
    ret PMX.ComError.TimeOut
  else
    let* _ := logOutputPrint rxbuf rxSize in
    let* errorFlag := checkRecv crc rxbuf PMX.SendCmd.SystemWRITE default_header in
    if negb (errorFlag =? PMX.ComError.OK) then
      ret errorFlag
    else
      let status := load rxbuf PMX.BuffPter.Status in
      ret status.

(** [SystemWRITE(id, unsigned long serialNum, option, ...)]. *)
Definition SystemWRITE_serial (id serialNum
    option newId newBaudrateVal newParityVal newResponseTime : Z) : M T Z :=
  let serialByteNum := alloca indeterminate 4 in
  let serialByteNum := DataConv.uint32ToBytes serialNum serialByteNum in
  SystemWRITE id serialByteNum option newId newBaudrateVal newParityVal newResponseTime.

(** [SystemWRITE(id, option, ...)]: the serial number is read first. *)
Definition SystemWRITE_auto (id
    option newId newBaudrateVal newParityVal newResponseTime : Z) : M T Z :=
  let serialByteNum := alloca indeterminate 4 in
  let* '(serialNumGetSt, serialByteNum) := getSerialNumber_bytes id serialByteNum in
  if negb (Z.land serialNumGetSt PMX.ComError.ErrorMask =? PMX.ComError.OK) then
    ret serialNumGetSt
  else
    SystemWRITE id serialByteNum option newId newBaudrateVal newParityVal newResponseTime.

Definition setId (id newId : Z) : M T Z :=
  if (newId <? 0) || (newId >? 239) then
    ret PMX.ComError.FormatError
  else
    SystemWRITE_auto id 0x01 newId 0 0 0.

Definition setBaudrate (id newBaudRate : Z) : M T Z :=
  if (newBaudRate <? 0) || (newBaudRate >? 0x07) then
    ret PMX.ComError.FormatError
  else
    SystemWRITE_auto id 0x02 0 newBaudRate 0 0.

Definition setParity (id newParityNum : Z) : M T Z :=
  if (newParityNum <? 0) || (newParityNum >? 0x02) then
    ret PMX.ComError.FormatError
  else
    SystemWRITE_auto id 0x04 0 0 newParityNum 0.

Definition setResponseTime (id respTime : Z) : M T Z :=
  if respTime <? 1 then
    ret PMX.ComError.FormatError
  else
    SystemWRITE_auto id 0x08 0 0 0 respTime.

(** *** PmxBase::ReBoot and PmxBase::FactoryReset *)

Definition ReBoot (id resetTime : Z) : M T Z :=
  let txSize := 10 in
  let rxSize := 8 in
  let txbuf := alloca indeterminate txSize in
  let rxbuf := alloca indeterminate rxSize in
  let txbuf := store txbuf 0 (to_byte 0xFE) in
  let txbuf := store txbuf 1 (to_byte 0xFE) in
  let txbuf := store txbuf 2 (to_byte id) in
  let txbuf := store txbuf 3 (to_byte txSize) in
  let txbuf := store txbuf 4 PMX.SendCmd.ReBoot in
  let txbuf := store txbuf 5 (to_byte 0x00) in
  let txbuf := store txbuf 6 (to_byte (Z.land resetTime 0x00ff)) in
  let txbuf := store txbuf 7 (to_byte (Z.shiftr (Z.land resetTime 0xff00) 8)) in
  let* txbuf := PmxCrc16_setCrc16 crc txbuf in
  let* '(rxFlag, rxbuf) := this_synchronize txbuf txSize rxbuf rxSize in
  let* _ := logOutputPrint txbuf txSize in
  if eqb rxFlag false then
    ret PMX.ComError.TimeOut
  else
    let* _ := logOutputPrint rxbuf rxSize in
    let* errorFlag := checkRecv crc rxbuf PMX.SendCmd.ReBoot default_header in
    if negb (errorFlag =? PMX.ComError.OK) then
      ret errorFlag
    else
      let status := load rxbuf PMX.BuffPter.Status in
      ret status.

Definition FactoryReset (id : Z) (serialNum : list Z) : M T Z :=
  let txSize := 12 in
  let rxSize := 8 in
  let txbuf := alloca indeterminate txSize in
  let rxbuf := alloca indeterminate rxSize in
  let txbuf := store txbuf 0 (to_byte 0xFE) in
  let txbuf := store txbuf 1 (to_byte 0xFE) in
  let txbuf := store txbuf 2 (to_byte id) in
  let txbuf := store txbuf 3 (to_byte txSize) in
  let txbuf := store txbuf 4 PMX.SendCmd.FactoryReset in
  let txbuf := store txbuf 5 (to_byte 0x00) in
  let txbuf := store txbuf 6 (to_byte (load serialNum 0)) in
  let txbuf := store txbuf 7 (to_byte (load serialNum 1)) in
  let txbuf := store txbuf 8 (to_byte (load serialNum 2)) in
  let txbuf := store txbuf 9 (to_byte (load serialNum 3)) in
  let* txbuf := PmxCrc16_setCrc16 crc txbuf in
  let* '(rxFlag, rxbuf) := this_synchronize txbuf txSize rxbuf rxSize in
  let* _ := logOutputPrint txbuf txSize in
  if eqb rxFlag false then
    ret PMX.ComError.TimeOut
  else
    let* _ := logOutputPrint rxbuf rxSize in
    let* errorFlag := checkRecv crc rxbuf PMX.SendCmd.FactoryReset default_header in
    if negb (errorFlag =? PMX.ComError.OK) then
      ret errorFlag
    else
      let status := load rxbuf PMX.BuffPter.Status in
      ret status.

(** *** Multi-field setters *)

Definition setPositionLimit (id cwPos ccwPos limPower writeOpt : Z) : M T Z :=
  let txDataArray := alloca indeterminate 6 in
  let txDataArray := DataConv.int16ToBytes cwPos txDataArray in
  let txDataArray := at_offset 2 (DataConv.int16ToBytes ccwPos) txDataArray in
  let txDataArray := at_offset 4 (DataConv.uint16ToBytes limPower) txDataArray in
  MemWRITE crc indeterminate id PMX.RamAddrList.CwPositionLimit txDataArray 6 writeOpt.

Definition setPositionGain (id kpdata kidata kddata writeOpt : Z) : M T Z :=
  let txDataArray := alloca indeterminate 12 in
  let pidData := alloca indeterminate 4 in
  let pidData := DataConv.uint32ToBytes kpdata pidData in
  let txDataArray := for_loop 4 (fun i a => store a i (load pidData i)) txDataArray in
  let pidData := DataConv.uint32ToBytes kidata pidData in
  let txDataArray := for_loop 4 (fun i a => store a (i + 4) (load pidData i)) txDataArray in
  let pidData := DataConv.uint32ToBytes kddata pidData in
  let txDataArray := for_loop 4 (fun i a => store a (i + 8) (load pidData i)) txDataArray in
  let* status :=
    MemWRITE crc indeterminate id PMX.RamAddrList.PositionKp txDataArray 12 writeOpt in
  ret status.

Definition setAllPresetNum (id presetNum writeOpt : Z) : M T Z :=
  let txDataArray := alloca indeterminate 4 in
  let txDataArray := for_loop 4 (fun i a => store a i presetNum) txDataArray in
  let* status :=
    MemWRITE crc indeterminate id PMX.RamAddrList.PresetPosAddr txDataArray 4 writeOpt in
  ret status.

End PmxBaseCommands.

(** ** PmxHardSerialClass.cpp

    Arduino's HardwareSerial and the enable pin are external; the transport
    is written against their interface.  [readBytes n] yields the bytes that
    arrived before the timeout, at most [n] of them. *)

Class HardwareSerial (P : Type) : Type := {
  flush : P -> P;
  write : list Z -> Z -> P -> P;
  available : P -> Z;
  read : P -> P;
  readBytes : Z -> P -> list Z * P;
  digitalWrite : Z -> bool -> P -> P
}.

Module PmxHardSerial.

Record t (P : Type) : Type := mk {
  pmxSerial : option P;
  g_enPin : Z;
  sendBuff : list Z;
  receiveBuff : list Z;
  _isSynchronize : bool
}.
Arguments mk {P} _ _ _ _ _.
Arguments pmxSerial {P} _.
Arguments g_enPin {P} _.
Arguments sendBuff {P} _.
Arguments receiveBuff {P} _.
Arguments _isSynchronize {P} _.

Section Methods.

Context {P : Type} `{HardwareSerial P}.

Definition set_isSynchronize (b : bool) (self : t P) : t P :=
  mk (pmxSerial self) (g_enPin self) (sendBuff self) (receiveBuff self) b.

Definition set_sendBuff (buf : list Z) (self : t P) : t P :=
  mk (pmxSerial self) (g_enPin self) buf (receiveBuff self) (_isSynchronize self).

Definition set_receiveBuff (buf : list Z) (self : t P) : t P :=
  mk (pmxSerial self) (g_enPin self) (sendBuff self) buf (_isSynchronize self).

(** [pmxSerial->op(...)] for an operation without result. *)
Definition on_port (op : P -> P) (self : t P) : t P :=
  match pmxSerial self with
  | Some port =>
      mk (Some (op port)) (g_enPin self) (sendBuff self) (receiveBuff self)
        (_isSynchronize self)
  | None => self
  end.

(** [pmxSerial->readBytes(&receiveBuff[offset], length)]: the bytes read are
    stored from [offset] on, their count is returned. *)
Definition port_readBytes (offset length : Z) (self : t P) : Z * t P :=
  match pmxSerial self with
  | Some port =>
      let '(got, port) := readBytes length port in
      (Z.of_nat (List.length got),
       mk (Some port) (g_enPin self) (sendBuff self)
         (stored_at (Z.to_nat offset) got (receiveBuff self))
         (_isSynchronize self))
  | None => (0, self)
  end.

Definition isSynchronize (self : t P) : bool := _isSynchronize self.

Definition enHigh (self : t P) : t P := on_port (digitalWrite (g_enPin self) true) self.
Definition enLow (self : t P) : t P := on_port (digitalWrite (g_enPin self) false) self.

(** [while (pmxSerial->available() > 0) pmxSerial->read();] with an
    iteration budget. *)
Fixpoint drain (budget : nat) (port : P) : P :=
  match budget with
  | O => port
  | S budget' => if available port >? 0 then drain budget' (read port) else port
  end.

(** The receive FIFO only shrinks while it is emptied, so [available()]
    iterations suffice. *)
Definition drain_all (port : P) : P := drain (Z.to_nat (available port)) port.

(** *** Statements

    A method body is run statement by statement.  Running it on an object
    yields the value returned, the object as the body leaves it, and the
    trail: the object after each statement that changed it, in order.  The
    trail holds the states in which a call from another thread of control
    finds the object while the body runs. *)
Definition Stm (A : Type) : Type := t P -> A * t P * list (t P).

Definition done {A : Type} (a : A) : Stm A := fun self => (a, self, []).

Definition andThen {A B : Type} (c : Stm A) (k : A -> Stm B) : Stm B :=
  fun self =>
    let '(a, self1, trail1) := c self in
    let '(b, self2, trail2) := k a self1 in
    (b, self2, trail1 ++ trail2).

(** One statement that changes the object. *)
Definition stmt (f : t P -> t P) : Stm unit :=
  fun self => (tt, f self, [f self]).

(** One statement that changes the object and yields a value. *)
Definition stmt_of {A : Type} (f : t P -> A * t P) : Stm A :=
  fun self => let '(a, self') := f self in (a, self', [self']).

(** Reading a member of the object. *)
Definition member {A : Type} (f : t P -> A) : Stm A :=
  fun self => (f self, self, []).


Declare Scope stm_scope.
Notation "'let*' x ':=' c 'in' k" := (andThen c (fun x => k))
  (at level 10, x name, c at level 100, k at level 200, only parsing) : stm_scope.
Local Open Scope stm_scope.

Definition __synchronizeWrite_body (txBuf : list Z) (txLen : Z) : Stm unit :=
  let* _ := stmt (fun self => set_sendBuff (memcpy (sendBuff self) txBuf txLen) self) in
  let* _ := stmt (on_port flush) in
  let* _ := stmt enHigh in
  let* _ := stmt (fun self => on_port (write (sendBuff self) txLen) self) in
  let* _ := stmt (on_port flush) in
  let* _ := stmt (on_port drain_all) in
  stmt enLow.

Definition __synchronizeWrite (txBuf : list Z) (txLen : Z) (self : t P) : t P :=
  snd (fst (__synchronizeWrite_body txBuf txLen self)).

Definition synchronize_body (txBuf : list Z) (txLen : Z) (rxBuf : list Z) (rxLen : Z)
  : Stm (bool * list Z) :=
  let* port := member pmxSerial in
  match port with
  | None => done (false, rxBuf)
  | Some _ =>
      let* busy := member _isSynchronize in
      if eqb busy true then
        done (false, rxBuf)
      else
        let* _ := stmt (set_isSynchronize true) in
        let* _ := __synchronizeWrite_body txBuf txLen in
        let* _ :=
          stmt (fun self =>
                  set_receiveBuff
                    (for_loop rxLen (fun i b => store b i 0xFF) (receiveBuff self)) self) in
        let* rxSize := stmt_of (port_readBytes 0 rxLen) in
        let* received := member receiveBuff in
        let rxBuf := memcpy rxBuf received rxLen in
        let* _ := stmt (set_isSynchronize false) in
        if negb (rxSize =? rxLen) then
          done (false, rxBuf)
        else
          done (true, rxBuf)
  end.

Definition synchronize (txBuf : list Z) (txLen : Z) (rxBuf : list Z) (rxLen : Z)
    (self : t P) : (bool * list Z) * t P :=
  fst (synchronize_body txBuf txLen rxBuf rxLen self).

Definition synchronizeVariableRead_body (txBuf : list Z) (txLen : Z) (rxBuf : list Z)
    (rxLen : Z) : Stm (bool * list Z * Z) :=
  let* port := member pmxSerial in
  match port with
  | None => done (false, rxBuf, rxLen)
  | Some _ =>
      let* busy := member _isSynchronize in
      if eqb busy true then
        done (false, rxBuf, rxLen)
      else
        let* _ := stmt (set_isSynchronize true) in
        let* _ := __synchronizeWrite_body txBuf txLen in
        let* _ :=
          stmt (fun self =>
                  set_receiveBuff
                    (for_loop 256 (fun i b => store b i 0xFF) (receiveBuff self)) self) in
        let minRxSize := to_byte (PMX.MinimumLength.Receive - 2) in
        let* n := stmt_of (port_readBytes 0 minRxSize) in
        let firstRxBuffSize := to_byte n in
        if negb (firstRxBuffSize =? minRxSize) then
          let rxLen := 0 in
          let* _ := stmt (set_isSynchronize false) in
          done (false, rxBuf, rxLen)
        else
          let* received := member receiveBuff in
          let allRxSize := load received PMX.BuffPter.Length in
          let secondRxBuffSize := to_byte (allRxSize - minRxSize) in
          let* n := stmt_of (port_readBytes minRxSize secondRxBuffSize) in
          let sBuffSize := to_byte n in
          if negb (secondRxBuffSize =? sBuffSize) then
            let rxLen := minRxSize in
            let* _ := stmt (set_isSynchronize false) in
            done (false, rxBuf, rxLen)
          else
            let rxLen := allRxSize in
            let* received := member receiveBuff in
            let rxBuf := memcpy rxBuf received allRxSize in
            let* _ := stmt (set_isSynchronize false) in
            done (true, rxBuf, rxLen)
  end.

Definition synchronizeVariableRead (txBuf : list Z) (txLen : Z) (rxBuf : list Z)
    (rxLen : Z) (self : t P) : (bool * list Z * Z) * t P :=
  fst (synchronizeVariableRead_body txBuf txLen rxBuf rxLen self).

Definition synchronizeNoRead_body (txBuf : list Z) (txLen : Z) : Stm bool :=
  let* port := member pmxSerial in
  match port with
  | None => done false
  | Some _ =>
      let* busy := member _isSynchronize in
      if eqb busy true then
        done false
      else
        let* _ := stmt (set_isSynchronize true) in
        let* _ := __synchronizeWrite_body txBuf txLen in
        let* _ := stmt (set_isSynchronize false) in
        done true
  end.

Definition synchronizeNoRead (txBuf : list Z) (txLen : Z) (self : t P) : bool * t P :=
  fst (synchronizeNoRead_body txBuf txLen self).

End Methods.

End PmxHardSerial.

(** PmxHardSerial overrides the virtual transport methods of PmxBase. *)
#[export] Instance PmxHardSerial_Transport {P : Type} `{HardwareSerial P}
  : Transport (PmxHardSerial.t P) := {
  synchronize := PmxHardSerial.synchronize;
  synchronizeVariableRead := PmxHardSerial.synchronizeVariableRead
}.

(** ** Test doubles

    A scripted serial port: [fifo] holds stale received bytes, each
    [readBytes] call consumes the next burst of [bursts] (nothing arrives
    once the script is exhausted), and every operation is logged. *)

Inductive PortEvent : Type :=
| PFlush
| PWrite (bytes : list Z)
| PRead
| PReadBytes (length : Z)
| PDigitalWrite (pin : Z) (level : bool).

Record ScriptedPort : Type := mkPort {
  fifo : list Z;
  bursts : list (list Z);
  wire : list PortEvent
}.

#[export] Instance ScriptedPort_HardwareSerial : HardwareSerial ScriptedPort := {
  flush p := mkPort (fifo p) (bursts p) (wire p ++ [PFlush]);
  write buf len p :=
    mkPort (fifo p) (bursts p) (wire p ++ [PWrite (take (Z.to_nat len) buf)]);
  available p := Z.of_nat (length (fifo p));
  read p := mkPort (tail (fifo p)) (bursts p) (wire p ++ [PRead]);
  readBytes len p :=
    match bursts p with
    | [] => ([], mkPort (fifo p) [] (wire p ++ [PReadBytes len]))
    | b :: rest =>
        (take (Z.to_nat len) b, mkPort (fifo p) rest (wire p ++ [PReadBytes len]))
    end;
  digitalWrite pin level p :=
    mkPort (fifo p) (bursts p) (wire p ++ [PDigitalWrite pin level])
}.

(** A transport instance on a scripted port: enable pin 2, idle, buffers of
    256 zero bytes. *)
Definition scripted_serial (incoming : list (list Z)) : PmxHardSerial.t ScriptedPort :=
  PmxHardSerial.mk (Some (mkPort [] incoming [])) 2 (repeat 0 256) (repeat 0 256) false.

(** The world of a driver sitting on that transport, nothing traced yet. *)
Definition scripted_world (incoming : list (list Z)) : World (PmxHardSerial.t ScriptedPort) :=
  mkWorld (scripted_serial incoming) [].

(** A stand-in for the checksum service, used only to run closed examples:
    the 16-bit sum of the bytes before the checksum, stored low byte first
    in the last two bytes of the declared frame length. *)
Definition sum_of (bytes : list Z) : Z := to_uint16 (foldr Z.add 0 bytes).

Definition sumCrc16 : PmxCrc16 := {|
  setCrc16 buf :=
    let len := load buf PMX.BuffPter.Length in
    let c := sum_of (take (Z.to_nat (len - 2)) buf) in
    store (store buf (len - 2) (byte_of c 0)) (len - 1) (byte_of c 1);
  checkCrc16 buf :=
    let len := load buf PMX.BuffPter.Length in
    let c := sum_of (take (Z.to_nat (len - 2)) buf) in
    (load buf (len - 2) =? byte_of c 0) && (load buf (len - 1) =? byte_of c 1)
|}.

(** ** The canonical field layout, as the specification words it

    Field [slot] (0 position, 1 speed, 2 current, 3 torque, 4 PWM, 5 motor
    temperature, 6 CPU temperature, 7 voltage) is present when bit [slot] of
    the mask is set; it then occupies the two payload bytes that follow the
    fields selected before it, low byte first.  Position is signed exactly
    when bit 0 of the control mode is set, voltage is unsigned, the others
    are signed.  An absent field is the sentinel.  These definitions are the
    reference the decoder is compared with. *)

Definition le16 (bytes : list Z) (off : Z) : Z :=
  load bytes off + 256 * load bytes (off + 1).

Definition as_signed16 (w : Z) : Z := if w <? 32768 then w else w - 65536.

Definition field_signed (slot : nat) (controlMode : Z) : bool :=
  match slot with
  | 0%nat => Z.testbit controlMode 0
  | 7%nat => false
  | _ => true
  end.

Definition canonical_field (receiveMode controlMode : Z) (receiveBytes : list Z)
    (slot : nat) : Z :=
  if Z.testbit receiveMode (Z.of_nat slot) then
    let w := le16 receiveBytes (2 * popcount slot receiveMode) in
    if field_signed slot controlMode then as_signed16 w else w
  else 0x7FFFFFFF.

(** The decoder's state [(motorData, arrayCount)] once the blocks of slots
    [0 .. k-1] have run, in terms of the reference. *)
Definition decoded_upto (receiveMode controlMode : Z) (receiveBytes : list Z)
    (k : nat) (st : list Z * Z) : Prop :=
  length (fst st) = 8%nat /\
  snd st = 2 * popcount k receiveMode /\
  forall j : nat, (j < 8)%nat ->
    fst st !!! j =
      if (j <? k)%nat then canonical_field receiveMode controlMode receiveBytes j
      else 0x7FFFFFFF.

(** What a command leaves in the trace: the frame handed to the checksum
    service, the one transport call that carries the checksummed frame, and
    then only events that are not transport calls. *)
Definition sends_once {T : Type} (crc : PmxCrc16) (w w' : World T) (frame : list Z)
    (call : list Z -> Event) : Prop :=
  exists rest,
    trace w' = trace w ++ EvSetCrc16 frame :: call (setCrc16 crc frame) :: rest /\
    Forall (fun e => is_transport_event e = false) rest.

(** * Properties *)

(** ** Codecs *)

Section CodecFacts.

Lemma byte_of_range z i : 0 <= byte_of z i < 256.
Proof.
    unfold byte_of. change 255 with (Z.ones 8).
    rewrite Z.land_ones by lia. apply Z.mod_pos_bound. lia.
Qed.

Ltac bit_cases n :=
    destruct (Z.ltb_spec n 8); destruct (Z.ltb_spec n 16);
    destruct (Z.ltb_spec n 24); destruct (Z.ltb_spec n 32); try lia.

Ltac bit_rewrite :=
    repeat first
      [ rewrite Z.lor_spec
      | rewrite Z.shiftl_spec by lia
      | rewrite (Z.testbit_neg_r (Z.land _ _)) by lia
      | rewrite Z.land_spec
      | rewrite Z.shiftr_spec by lia
      | rewrite Z.testbit_ones_nonneg by lia ].

Ltac bit_close :=
    repeat match goal with
      | |- context [?a <? ?b] => destruct (Z.ltb_spec a b); try lia
      end;
    rewrite ?andb_true_r, ?andb_false_r, ?orb_false_r, ?orb_false_l;
    try reflexivity; try (f_equal; lia).

Lemma le16_join z :
    Z.lor (byte_of z 0) (Z.shiftl (byte_of z 1) 8) = z mod 65536.
Proof.
    unfold byte_of. change 255 with (Z.ones 8).
    change 65536 with (2 ^ 16). rewrite <- Z.land_ones by lia.
    apply Z.bits_inj'. intros n Hn.
    bit_cases n; bit_rewrite; bit_close.
Qed.

Lemma le32_join z :
    Z.lor (byte_of z 0)
      (Z.lor (Z.shiftl (byte_of z 1) 8)
         (Z.lor (Z.shiftl (byte_of z 2) 16) (Z.shiftl (byte_of z 3) 24)))
    = z mod 4294967296.
Proof.
    unfold byte_of. change 255 with (Z.ones 8).
    change 4294967296 with (2 ^ 32). rewrite <- Z.land_ones by lia.
    apply Z.bits_inj'. intros n Hn.
    bit_cases n; bit_rewrite; bit_close.
Qed.

Lemma to_int16_id v : -32768 <= v < 32768 -> to_int16 v = v.
Proof. unfold to_int16. intros H. rewrite Z.mod_small by lia. lia. Qed.

Lemma to_uint16_id v : 0 <= v < 65536 -> to_uint16 v = v.
Proof. unfold to_uint16. intros H. apply Z.mod_small. lia. Qed.

Lemma to_int32_id v : -2147483648 <= v < 2147483648 -> to_int32 v = v.
Proof. unfold to_int32. intros H. rewrite Z.mod_small by lia. lia. Qed.

Lemma to_uint32_id v : 0 <= v < 4294967296 -> to_uint32 v = v.
Proof. unfold to_uint32. intros H. apply Z.mod_small. lia. Qed.

Lemma to_int16_mod v : to_int16 (v mod 65536) = to_int16 v.
Proof.
    unfold to_int16. f_equal.
    rewrite Z.add_mod_idemp_l by lia. reflexivity.
Qed.

Lemma to_int32_mod v : to_int32 (v mod 4294967296) = to_int32 v.
Proof.
    unfold to_int32. f_equal.
    rewrite Z.add_mod_idemp_l by lia. reflexivity.
Qed.

Lemma to_uint16_idem v : to_uint16 (to_uint16 v) = to_uint16 v.
Proof. unfold to_uint16. apply Z.mod_mod. lia. Qed.

Lemma to_uint32_idem v : to_uint32 (to_uint32 v) = to_uint32 v.
Proof. unfold to_uint32. apply Z.mod_mod. lia. Qed.

Lemma to_int16_idem v : to_int16 (to_int16 v) = to_int16 v.
Proof.
    apply to_int16_id. unfold to_int16.
    pose proof (Z.mod_pos_bound (v + 32768) 65536). lia.
Qed.

Lemma to_int32_idem v : to_int32 (to_int32 v) = to_int32 v.
Proof.
    apply to_int32_id. unfold to_int32.
    pose proof (Z.mod_pos_bound (v + 2147483648) 4294967296). lia.
Qed.

  (** Reading back what a serializer stored, whatever the scalar. *)

Lemma bytesToInt16_int16ToBytes v (a b : Z) :
    DataConv.bytesToInt16 (DataConv.int16ToBytes v [a; b]) = to_int16 v.
Proof.
    unfold DataConv.bytesToInt16, DataConv.int16ToBytes. cbn [insert list_insert lookup_total list_lookup_total].
    rewrite le16_join, to_int16_mod. apply to_int16_idem.
Qed.

Lemma bytesToUint16_uint16ToBytes v (a b : Z) :
    DataConv.bytesToUint16 (DataConv.uint16ToBytes v [a; b]) = to_uint16 v.
Proof.
    unfold DataConv.bytesToUint16, DataConv.uint16ToBytes. cbn [insert list_insert lookup_total list_lookup_total].
    rewrite le16_join. fold (to_uint16 (to_uint16 v)).
    rewrite !to_uint16_idem. reflexivity.
Qed.

Lemma bytesToInt32_int32ToBytes v (a b c d : Z) :
    DataConv.bytesToInt32 (DataConv.int32ToBytes v [a; b; c; d]) = to_int32 v.
Proof.
    unfold DataConv.bytesToInt32, DataConv.bytesToUlong, DataConv.int32ToBytes.
    cbn [insert list_insert lookup_total list_lookup_total].
    rewrite le32_join. fold (to_uint32 (to_uint32 (to_int32 v))).
    rewrite !to_uint32_idem. unfold to_uint32 at 1.
    rewrite to_int32_mod. apply to_int32_idem.
Qed.

Lemma bytesToUint32_uint32ToBytes v (a b c d : Z) :
    DataConv.bytesToUint32 (DataConv.uint32ToBytes v [a; b; c; d]) = to_uint32 v.
Proof.
    unfold DataConv.bytesToUint32, DataConv.bytesToUlong, DataConv.uint32ToBytes.
    cbn [insert list_insert lookup_total list_lookup_total].
    rewrite le32_join. fold (to_uint32 (to_uint32 v)).
    rewrite !to_uint32_idem. reflexivity.
Qed.

(** C10: each width's serializer/deserializer pair is a round trip.  The
    serializers write into a caller-supplied array of the matching size. *)
Theorem codec_roundtrip (s16 u16 s32 u32 : Z) (buf2 buf4 : list Z) :
  length buf2 = 2%nat -> length buf4 = 4%nat ->
  -32768 <= s16 < 32768 -> 0 <= u16 < 65536 ->
  -2147483648 <= s32 < 2147483648 -> 0 <= u32 < 4294967296 ->
  DataConv.bytesToInt16 (DataConv.int16ToBytes s16 buf2) = s16 /\
  DataConv.bytesToUint16 (DataConv.uint16ToBytes u16 buf2) = u16 /\
  DataConv.bytesToInt32 (DataConv.int32ToBytes s32 buf4) = s32 /\
  DataConv.bytesToUint32 (DataConv.uint32ToBytes u32 buf4) = u32.
Proof.
  intros L2 L4 Hs16 Hu16 Hs32 Hu32.
  destruct buf2 as [|a [|b [|? ?]]]; try discriminate L2.
  destruct buf4 as [|c [|d [|e [|f [|? ?]]]]]; try discriminate L4.
  rewrite bytesToInt16_int16ToBytes, bytesToUint16_uint16ToBytes,
    bytesToInt32_int32ToBytes, bytesToUint32_uint32ToBytes.
  auto using to_int16_id, to_uint16_id, to_int32_id, to_uint32_id.
Qed.

Lemma codec_roundtrip_witness :
  DataConv.bytesToInt16 (DataConv.int16ToBytes (-1234) [0; 0]) = -1234 /\
  DataConv.bytesToUint16 (DataConv.uint16ToBytes 54321 [0; 0]) = 54321 /\
  DataConv.bytesToInt32 (DataConv.int32ToBytes (-123456789) [0; 0; 0; 0]) = -123456789 /\
  DataConv.bytesToUint32 (DataConv.uint32ToBytes 4000000000 [0; 0; 0; 0]) = 4000000000.
Proof.
  apply (codec_roundtrip (-1234) 54321 (-123456789) 4000000000 [0; 0] [0; 0; 0; 0]);
    first [reflexivity | lia].
Defined.

End CodecFacts.

(** ** Field counting *)

Section ByteCounter.

Lemma popcount_shift n v :
  0 <= v ->
  popcount (S n) v = Z.b2z (Z.testbit v 0) + popcount n (Z.shiftr v 1).
Proof.
  intros Hv. induction n as [|n IH].
  - cbn [popcount]. change (Z.of_nat 0) with 0. lia.
  - change (popcount (S (S n)) v)
      with (popcount (S n) v + Z.b2z (Z.testbit v (Z.of_nat (S n)))).
    rewrite IH. cbn [popcount].
    rewrite Z.shiftr_spec by lia.
    replace (Z.of_nat n + 1) with (Z.of_nat (S n)) by lia. lia.
Qed.

Lemma byteCounter_loop_spec n : forall val cnt,
  0 <= val < 256 ->
  byteCounter_loop n val cnt = cnt + popcount n val.
Proof.
  induction n as [|n IH]; intros val cnt Hval.
  - cbn [byteCounter_loop popcount]. lia.
  - cbn [byteCounter_loop].
    assert (Hhalf : 0 <= Z.shiftr val 1 < 256).
    { rewrite Z.shiftr_div_pow2 by lia. change (2 ^ 1) with 2.
      split; [apply Z.div_pos; lia | apply Z.div_lt_upper_bound; lia]. }
    unfold to_byte. rewrite (Z.mod_small (Z.shiftr val 1)) by lia.
    rewrite IH by exact Hhalf.
    rewrite popcount_shift by lia.
    change 1 with (Z.ones 1) at 1. rewrite Z.land_ones by lia.
    change (2 ^ 1) with 2. rewrite <- Z.bit0_mod.
    destruct (Z.testbit val 0); cbn; lia.
Qed.

Lemma byteCounter_value val :
  0 <= val < 256 -> __byteCounter val = 2 * popcount 8 val.
Proof.
  intros Hval. unfold __byteCounter.
  rewrite byteCounter_loop_spec by exact Hval. lia.
Qed.

(** C8: FieldCount is twice the number of set bits of the 8-bit mask. *)
Theorem byteCounter_popcount (val : Z) :
  0 <= val < 256 ->
  __byteCounter val = 2 * popcount 8 val /\
  __byteCounter 177 = 8 /\ __byteCounter 0 = 0 /\ __byteCounter 255 = 16.
Proof.
  intros Hval. split; [|repeat split; reflexivity].
  apply byteCounter_value, Hval.
Qed.

Lemma byteCounter_popcount_witness :
  __byteCounter 177 = 2 * popcount 8 177 /\
  __byteCounter 177 = 8 /\ __byteCounter 0 = 0 /\ __byteCounter 255 = 16.
Proof. apply (byteCounter_popcount 177). lia. Defined.

End ByteCounter.

(** ** Frame validation *)

Section CheckRecv.

Context {T : Type}.
Variable crc : PmxCrc16.

Lemma checkRecv_header_mismatch rxBuff cmd header (w : World T) :
  load rxBuff 0 <> header \/ load rxBuff 1 <> header ->
  checkRecv crc rxBuff cmd header w =
    (PMX.ComError.ReceiveError, after w (EvPrintln "HeaderError")).
Proof.
  intros Hh. unfold checkRecv.
  destruct (Z.eqb_spec (load rxBuff 0) header) as [E0|N0];
    destruct (Z.eqb_spec (load rxBuff 1) header) as [E1|N1];
    try reflexivity.
  destruct Hh; contradiction.
Qed.

Lemma checkRecv_command_mismatch rxBuff cmd header (w : World T) :
  load rxBuff 0 = header -> load rxBuff 1 = header ->
  load rxBuff PMX.BuffPter.CMD <> Z.land cmd 0x7f ->
  checkRecv crc rxBuff cmd header w =
    (PMX.ComError.ReceiveError, after w (EvPrintln "cmdError")).
Proof.
  intros E0 E1 Nc. unfold checkRecv.
  rewrite (proj2 (Z.eqb_eq _ _) E0), (proj2 (Z.eqb_eq _ _) E1).
  rewrite (proj2 (Z.eqb_neq _ _) Nc). reflexivity.
Qed.

Lemma checkRecv_checksum rxBuff cmd header (w : World T) :
  load rxBuff 0 = header -> load rxBuff 1 = header ->
  load rxBuff PMX.BuffPter.CMD = Z.land cmd 0x7f ->
  checkRecv crc rxBuff cmd header w =
    (if checkCrc16 crc rxBuff then PMX.ComError.OK else PMX.ComError.CrcError,
     after w (EvCheckCrc16 rxBuff)).
Proof.
  intros E0 E1 Ec. unfold checkRecv.
  rewrite (proj2 (Z.eqb_eq _ _) E0), (proj2 (Z.eqb_eq _ _) E1).
  rewrite (proj2 (Z.eqb_eq _ _) Ec).
  cbn [negb orb]. unfold PmxCrc16_checkCrc16, bind, tell, ret, after.
  destruct (checkCrc16 crc rxBuff); reflexivity.
Qed.

(** The verdict alone, as a function of the three inspected bytes and of
    the checksum service's answer. *)
Lemma checkRecv_verdict rxBuff cmd header (w : World T) :
  fst (checkRecv crc rxBuff cmd header w) =
    if negb (load rxBuff 0 =? header) || negb (load rxBuff 1 =? header)
    then PMX.ComError.ReceiveError
    else if negb (load rxBuff PMX.BuffPter.CMD =? Z.land cmd 0x7f)
         then PMX.ComError.ReceiveError
         else if checkCrc16 crc rxBuff then PMX.ComError.OK else PMX.ComError.CrcError.
Proof.
  unfold checkRecv.
  destruct (Z.eqb_spec (load rxBuff 0) header);
    destruct (Z.eqb_spec (load rxBuff 1) header); try reflexivity.
  destruct (Z.eqb_spec (load rxBuff PMX.BuffPter.CMD) (Z.land cmd 0x7f));
    try reflexivity.
  cbn [negb orb]. unfold PmxCrc16_checkCrc16, bind, tell, ret.
  destruct (checkCrc16 crc rxBuff); reflexivity.
Qed.

Lemma checkRecv_verdict_world rxBuff cmd header (w w' : World T) :
  fst (checkRecv crc rxBuff cmd header w) = fst (checkRecv crc rxBuff cmd header w').
Proof. rewrite !checkRecv_verdict. reflexivity. Qed.

End CheckRecv.

(** C1 (as the code has it): the checks run in the order header, command,
    checksum, and each failure ends the validation.  A header mismatch yields
    ReceiveError and the only thing done is the log line "HeaderError",
    whatever the command byte is and whatever the checksum service would
    answer: neither the command test nor the checksum service is reached.
    With matching headers, a received command byte different from the
    expected command masked to 7 bits yields ReceiveError and the only thing
    done is the log line "cmdError": the checksum service is not called.
    With header and command matching, the checksum service is called once,
    nothing is logged, and its answer decides between CrcError and OK. *)
Theorem checkRecv_precedence {T : Type} (crc : PmxCrc16) (rxBuff : list Z)
    (cmd header : Z) (w : World T) :
  let r := checkRecv crc rxBuff cmd header w in
  (load rxBuff 0 <> header \/ load rxBuff 1 <> header ->
     r = (PMX.ComError.ReceiveError, after w (EvPrintln "HeaderError")) /\
     filter is_crc_check_event (trace (snd r)) = filter is_crc_check_event (trace w)) /\
  (load rxBuff 0 = header -> load rxBuff 1 = header ->
   load rxBuff PMX.BuffPter.CMD <> Z.land cmd 0x7f ->
     r = (PMX.ComError.ReceiveError, after w (EvPrintln "cmdError")) /\
     filter is_crc_check_event (trace (snd r)) = filter is_crc_check_event (trace w)) /\
  (load rxBuff 0 = header -> load rxBuff 1 = header ->
   load rxBuff PMX.BuffPter.CMD = Z.land cmd 0x7f ->
   checkCrc16 crc rxBuff = false ->
     r = (PMX.ComError.CrcError, after w (EvCheckCrc16 rxBuff))) /\
  (load rxBuff 0 = header -> load rxBuff 1 = header ->
   load rxBuff PMX.BuffPter.CMD = Z.land cmd 0x7f ->
   checkCrc16 crc rxBuff = true ->
     r = (PMX.ComError.OK, after w (EvCheckCrc16 rxBuff))).
Proof.
  cbv zeta. split; [|split; [|split]].
  - intros Hh. rewrite checkRecv_header_mismatch by assumption.
    split; [reflexivity|]. cbn [snd after trace].
    rewrite filter_app. cbn. apply app_nil_r.
  - intros E0 E1 Nc. rewrite checkRecv_command_mismatch by assumption.
    split; [reflexivity|]. cbn [snd after trace].
    rewrite filter_app. cbn. apply app_nil_r.
  - intros E0 E1 Ec Hc. rewrite checkRecv_checksum by assumption.
    rewrite Hc. reflexivity.
  - intros E0 E1 Ec Hc. rewrite checkRecv_checksum by assumption.
    rewrite Hc. reflexivity.
Qed.

(** Five replies to the command 0xa0: a wrong header with a valid checksum;
    a wrong header together with a wrong command byte, which is reported as
    a header error; a wrong command byte; a wrong checksum; a valid reply. *)
Lemma checkRecv_precedence_witness :
  let w := scripted_world [] in
  (checkRecv sumCrc16 [253; 253; 1; 8; 32; 0; 35; 2] 0xa0 0xfe w =
     (PMX.ComError.ReceiveError, after w (EvPrintln "HeaderError")) /\
   checkCrc16 sumCrc16 [253; 253; 1; 8; 32; 0; 35; 2] = true) /\
  (checkRecv sumCrc16 [253; 253; 1; 8; 33; 0; 36; 2] 0xa0 0xfe w =
     (PMX.ComError.ReceiveError, after w (EvPrintln "HeaderError")) /\
   load [253; 253; 1; 8; 33; 0; 36; 2] PMX.BuffPter.CMD <> Z.land 0xa0 0x7f) /\
  checkRecv sumCrc16 [254; 254; 1; 8; 33; 0; 38; 2] 0xa0 0xfe w =
    (PMX.ComError.ReceiveError, after w (EvPrintln "cmdError")) /\
  checkRecv sumCrc16 [254; 254; 1; 8; 32; 0; 36; 2] 0xa0 0xfe w =
    (PMX.ComError.CrcError, after w (EvCheckCrc16 [254; 254; 1; 8; 32; 0; 36; 2])) /\
  checkRecv sumCrc16 [254; 254; 1; 8; 32; 0; 37; 2] 0xa0 0xfe w =
    (PMX.ComError.OK, after w (EvCheckCrc16 [254; 254; 1; 8; 32; 0; 37; 2])).
Proof.
  intros w. split; [split | split; [split | split; [ | split]]].
  - refine (proj1 (proj1 (checkRecv_precedence sumCrc16 _ 0xa0 0xfe w) _)).
    left. vm_compute. discriminate.
  - reflexivity.
  - refine (proj1 (proj1 (checkRecv_precedence sumCrc16 _ 0xa0 0xfe w) _)).
    left. vm_compute. discriminate.
  - vm_compute. discriminate.
  - refine (proj1 (proj1 (proj2 (checkRecv_precedence sumCrc16 _ 0xa0 0xfe w)) _ _ _));
      vm_compute; first [reflexivity | discriminate].
  - refine (proj1 (proj2 (proj2 (checkRecv_precedence sumCrc16 _ 0xa0 0xfe w))) _ _ _ _);
      reflexivity.
  - refine (proj2 (proj2 (proj2 (checkRecv_precedence sumCrc16 _ 0xa0 0xfe w))) _ _ _ _);
      reflexivity.
Defined.

(** C1 as stated compares the received command byte masked to 7 bits with the
    expected command.  The code masks the other side: a reply [0x20] to the
    command [0xa0] is accepted although [0x20 & 0x7f <> 0xa0], and a reply
    [0xa0], equal to the command up to the reserved bit, is rejected although
    its checksum verifies. *)
Lemma checkRecv_command_mask_counterexample :
  let w := scripted_world [] in
  let reply := [254; 254; 1; 8; 32; 0; 37; 2] in
  let echo := [254; 254; 1; 8; 160; 0; 165; 2] in
  (load reply 0 = 0xfe /\ load reply 1 = 0xfe /\
   Z.land (load reply PMX.BuffPter.CMD) 0x7f <> 0xa0 /\
   fst (checkRecv sumCrc16 reply 0xa0 0xfe w) = PMX.ComError.OK /\
   PMX.ComError.OK <> PMX.ComError.ReceiveError) /\
  (load echo 0 = 0xfe /\ load echo 1 = 0xfe /\
   Z.land (load echo PMX.BuffPter.CMD) 0x7f = Z.land 0xa0 0x7f /\
   checkCrc16 sumCrc16 echo = true /\
   fst (checkRecv sumCrc16 echo 0xa0 0xfe w) = PMX.ComError.ReceiveError).
Proof.
  cbv zeta. repeat split; try reflexivity; vm_compute; discriminate.
Qed.

(** The verdict of checkRecv is OK exactly when both header bytes match, the
    command byte matches and the checksum service accepts the buffer, so two
    buffers that agree on those three bytes and on the checksum verdict get
    the same verdict, whatever their declared length bytes and their sizes. *)
Lemma checkRecv_length_blind {T : Type} (crc : PmxCrc16) (rxBuff rxBuff' : list Z)
    (cmd header : Z) (w : World T) :
  (fst (checkRecv crc rxBuff cmd header w) = PMX.ComError.OK <->
     load rxBuff 0 = header /\ load rxBuff 1 = header /\
     load rxBuff PMX.BuffPter.CMD = Z.land cmd 0x7f /\
     checkCrc16 crc rxBuff = true) /\
  (load rxBuff 0 = load rxBuff' 0 -> load rxBuff 1 = load rxBuff' 1 ->
   load rxBuff PMX.BuffPter.CMD = load rxBuff' PMX.BuffPter.CMD ->
   checkCrc16 crc rxBuff = checkCrc16 crc rxBuff' ->
   fst (checkRecv crc rxBuff cmd header w) = fst (checkRecv crc rxBuff' cmd header w)).
Proof.
  split.
  - rewrite checkRecv_verdict.
    destruct (Z.eqb_spec (load rxBuff 0) header);
      destruct (Z.eqb_spec (load rxBuff 1) header);
      destruct (Z.eqb_spec (load rxBuff PMX.BuffPter.CMD) (Z.land cmd 0x7f));
      destruct (checkCrc16 crc rxBuff); cbn [negb orb];
      (split; [intros E; try discriminate E; auto | intros (? & ? & ? & ?); congruence]).
  - intros E0 E1 E4 Ec. rewrite !checkRecv_verdict, E0, E1, E4, Ec. reflexivity.
Qed.

Lemma checkRecv_length_blind_witness :
  fst (checkRecv sumCrc16 [254; 254; 1; 8; 32; 0; 37; 2] 0xa0 0xfe (scripted_world [])) =
  fst (checkRecv sumCrc16 [254; 254; 1; 8; 32; 0; 37; 2; 170; 187; 204; 221] 0xa0 0xfe
         (scripted_world [])).
Proof.
  apply (proj2 (checkRecv_length_blind sumCrc16 [254; 254; 1; 8; 32; 0; 37; 2]
                  [254; 254; 1; 8; 32; 0; 37; 2; 170; 187; 204; 221] 0xa0 0xfe
                  (scripted_world []))); reflexivity.
Defined.

(** C6 (code bug): checkRecv makes no declared-length check, although its
    description lists the length of the received data among its checks.  For
    every checksum service, buffer, command and header the verdict is a
    function of the two header bytes, the command byte and the checksum
    service's answer alone: the function is given no received size and never
    reads the length byte.  At the failing input, twelve bytes are received
    whose length field declares eight: validation answers OK, and MemREAD of
    four bytes returns status OK with the frame's two checksum bytes and two
    bytes from beyond the declared frame as register data. *)
Theorem checkRecv_declared_length_unchecked :
  (forall (T : Type) (crc : PmxCrc16) (rxBuff : list Z) (cmd header : Z) (w : World T),
     fst (checkRecv crc rxBuff cmd header w) =
       if negb (load rxBuff 0 =? header) || negb (load rxBuff 1 =? header)
       then PMX.ComError.ReceiveError
       else if negb (load rxBuff PMX.BuffPter.CMD =? Z.land cmd 0x7f)
            then PMX.ComError.ReceiveError
            else if checkCrc16 crc rxBuff then PMX.ComError.OK
                 else PMX.ComError.CrcError) /\
  (let reply := [254; 254; 1; 8; 32; 0; 37; 2; 170; 187; 204; 221] in
   length reply = 12%nat /\ load reply PMX.BuffPter.Length = 8 /\
   fst (checkRecv sumCrc16 reply 0xa0 0xfe (scripted_world [])) = PMX.ComError.OK /\
   fst (MemREAD sumCrc16 0 1 0 4 [0; 0; 0; 0] (scripted_world [reply])) =
     (PMX.ComError.OK, [37; 2; 170; 187])).
Proof.
  split.
  - intros T crc rxBuff cmd header w. apply checkRecv_verdict.
  - cbv zeta. repeat split; vm_compute; reflexivity.
Qed.

(** ** Argument preconditions *)

Section FormatError.

Context {T : Type} `{Transport T}.
Variable crc : PmxCrc16.
Variable indeterminate : Z.

Lemma MemREAD_format_error id addr readDataSize rxData (w : World T) :
  readDataSize = 0 \/ readDataSize >= 244 ->
  MemREAD crc indeterminate id addr readDataSize rxData w =
    ((PMX.ComError.FormatError, rxData), w).
Proof.
  intros Hsz. unfold MemREAD.
  destruct (Z.eqb_spec readDataSize 0) as [E|N]; [reflexivity|].
  destruct (Z.geb_spec readDataSize 244) as [G|L]; [reflexivity|].
  lia.
Qed.

Lemma MemWRITE_format_error id addr txDataArray txDataSize writeOpt (w : World T) :
  txDataSize = 0 \/ txDataSize >= 245 ->
  MemWRITE crc indeterminate id addr txDataArray txDataSize writeOpt w =
    (PMX.ComError.FormatError, w).
Proof.
  intros Hsz. unfold MemWRITE.
  destruct (Z.eqb_spec txDataSize 0) as [E|N]; [reflexivity|].
  destruct (Z.geb_spec txDataSize 245) as [G|L]; [reflexivity|].
  lia.
Qed.

Lemma MotorWRITE_format_error id toruqeOnSw receiveMode receiveData controlMode
    (w : World T) :
  toruqeOnSw <> 0x01 -> toruqeOnSw <> 0x02 -> toruqeOnSw <> 0x04 -> toruqeOnSw <> 0x08 ->
  exists receiveData',
    MotorWRITE crc indeterminate id toruqeOnSw receiveMode receiveData controlMode w =
      ((PMX.ComError.FormatError, receiveData'), w).
Proof.
  intros N1 N2 N4 N8. unfold MotorWRITE.
  change PMX.TorqueSwitchType.TorqueOn with 1.
  change PMX.TorqueSwitchType.Free with 2.
  change PMX.TorqueSwitchType.Brake with 4.
  change PMX.TorqueSwitchType.Hold with 8.
  rewrite (proj2 (Z.eqb_neq _ _) N1), (proj2 (Z.eqb_neq _ _) N2),
    (proj2 (Z.eqb_neq _ _) N4), (proj2 (Z.eqb_neq _ _) N8).
  cbn [orb negb]. eexists. reflexivity.
Qed.

End FormatError.

(** C4: a violated argument precondition is answered with FormatError
    (0xFD00) and the world is unchanged: the transport state is the one at
    entry and nothing was appended to the trace, so neither [synchronize] nor
    [synchronizeVariableRead] was called. *)
Theorem format_error_before_transport {T : Type} `{Transport T} (crc : PmxCrc16)
    (indeterminate id addr readDataSize txDataSize writeOpt : Z)
    (rxData txDataArray : list Z)
    (toruqeOnSw receiveMode controlMode : Z) (receiveData : option (list Z))
    (w : World T) :
  PMX.ComError.FormatError = 0xFD00 /\
  (readDataSize = 0 \/ readDataSize >= 244 ->
     MemREAD crc indeterminate id addr readDataSize rxData w =
       ((PMX.ComError.FormatError, rxData), w)) /\
  (txDataSize = 0 \/ txDataSize >= 245 ->
     MemWRITE crc indeterminate id addr txDataArray txDataSize writeOpt w =
       (PMX.ComError.FormatError, w)) /\
  (toruqeOnSw <> 0x01 -> toruqeOnSw <> 0x02 -> toruqeOnSw <> 0x04 -> toruqeOnSw <> 0x08 ->
     fst (fst (MotorWRITE crc indeterminate id toruqeOnSw receiveMode receiveData
                 controlMode w)) = PMX.ComError.FormatError /\
     snd (MotorWRITE crc indeterminate id toruqeOnSw receiveMode receiveData
            controlMode w) = w /\
     MotorWRITE_switch crc indeterminate id toruqeOnSw w = (PMX.ComError.FormatError, w)).
Proof.
  split; [reflexivity|]. split; [|split].
  - apply MemREAD_format_error.
  - apply MemWRITE_format_error.
  - intros N1 N2 N4 N8.
    destruct (MotorWRITE_format_error crc indeterminate id toruqeOnSw receiveMode
                receiveData controlMode w N1 N2 N4 N8) as [d Hd].
    rewrite Hd. split; [reflexivity|]. split; [reflexivity|].
    unfold MotorWRITE_switch, bind.
    destruct (MotorWRITE_format_error crc indeterminate id toruqeOnSw
                PMX.ReceiveDataOption.NoReturn (Some (alloca indeterminate 8)) 1 w
                N1 N2 N4 N8) as [d' Hd'].
    rewrite Hd'. reflexivity.
Qed.

Lemma format_error_before_transport_witness :
  let w := scripted_world [[254; 254; 1; 8; 32; 0; 37; 2]] in
  MemREAD sumCrc16 0 1 0 0 [7] w = ((0xFD00, [7]), w) /\
  MemWRITE sumCrc16 0 1 0 [] 0 0 w = (0xFD00, w) /\
  MotorWRITE_switch sumCrc16 0 1 0x99 w = (0xFD00, w).
Proof.
  intros w.
  pose proof (format_error_before_transport sumCrc16 0 1 0 0 0 0 [7] [] 0x99 0 1 None w)
    as (_ & Hread & Hwrite & Hsw).
  split; [apply Hread; left; reflexivity|].
  split; [apply Hwrite; left; reflexivity|].
  apply Hsw; discriminate.
Defined.

(** ** Typed register reads *)

Section TypedReads.

Context {T : Type} `{Transport T}.
Variable crc : PmxCrc16.
Variable indeterminate : Z.

Ltac typed_read :=
  intros w;
  unfold MemREADToByte, MemREADToInt16, MemREADToUint16, MemREADToInt32,
    MemREADToUint32, bind;
  destruct (MemREAD crc indeterminate _ _ _ _ w) as [[status cell] w'];
  cbn [fst snd ret]; intros Herr;
  rewrite (proj2 (Z.eqb_neq _ _) Herr); reflexivity.

(** Whenever the composite status carries a transport error class, the
    8- and 16-bit wrappers leave their width's sentinel. *)
Lemma MemREADToByte_sentinel id addr byteData : forall w : World T,
  let r := fst (MemREADToByte crc indeterminate id addr byteData w) in
  Z.land (fst r) PMX.ComError.ErrorMask <> 0 -> snd r = 0xFF.
Proof. typed_read. Qed.

Lemma MemREADToInt16_sentinel id addr : forall w : World T,
  let r := fst (MemREADToInt16 crc indeterminate id addr w) in
  Z.land (fst r) PMX.ComError.ErrorMask <> 0 -> snd r = 0x7FFF.
Proof. typed_read. Qed.

Lemma MemREADToUint16_sentinel id addr : forall w : World T,
  let r := fst (MemREADToUint16 crc indeterminate id addr w) in
  Z.land (fst r) PMX.ComError.ErrorMask <> 0 -> snd r = 0x7FFF.
Proof. typed_read. Qed.

(** The 32-bit wrappers store [(short)PMX::ErrorUint32Data]: the constant
    0x7FFFFFFF narrowed to 16 bits is [-1], which widens to [-1] and to
    [0xFFFFFFFF]. *)
Lemma MemREADToInt32_error_value id addr : forall w : World T,
  let r := fst (MemREADToInt32 crc indeterminate id addr w) in
  Z.land (fst r) PMX.ComError.ErrorMask <> 0 -> snd r = -1.
Proof. typed_read. Qed.

Lemma MemREADToUint32_error_value id addr : forall w : World T,
  let r := fst (MemREADToUint32 crc indeterminate id addr w) in
  Z.land (fst r) PMX.ComError.ErrorMask <> 0 -> snd r = 0xFFFFFFFF.
Proof. typed_read. Qed.

End TypedReads.

(** C3 at a timeout (an idle port that never answers; device 1, address 0):
    every wrapper returns TimeOut; the 8- and 16-bit outputs are 0xFF and
    0x7FFF, the 32-bit outputs are [-1] and [0xFFFFFFFF] rather than
    0x7FFFFFFF. *)
Theorem typed_read_timeout_values :
  let w := scripted_world [] in
  fst (MemREADToByte sumCrc16 0 1 0 0 w) = (PMX.ComError.TimeOut, 0xFF) /\
  fst (MemREADToInt16 sumCrc16 0 1 0 w) = (PMX.ComError.TimeOut, 0x7FFF) /\
  fst (MemREADToUint16 sumCrc16 0 1 0 w) = (PMX.ComError.TimeOut, 0x7FFF) /\
  fst (MemREADToInt32 sumCrc16 0 1 0 w) = (PMX.ComError.TimeOut, -1) /\
  fst (MemREADToUint32 sumCrc16 0 1 0 w) = (PMX.ComError.TimeOut, 0xFFFFFFFF) /\
  PMX.ErrorUint32Data = 0x7FFFFFFF.
Proof. cbv zeta. repeat split; vm_compute; reflexivity. Qed.

(** ** Motion commands: size mismatch *)

Section SizeMismatch.

Context {T : Type} `{Transport T}.
Variable crc : PmxCrc16.
Variable indeterminate : Z.

Lemma sentinel_fill (d : list Z) :
  length d = 8%nat ->
  for_loop 8 (fun i d => store d i (to_int32 PMX.ErrorUint32Data)) d = repeat 0x7FFFFFFF 8.
Proof.
  intros L.
  destruct d as [|d0 [|d1 [|d2 [|d3 [|d4 [|d5 [|d6 [|d7 [|? ?]]]]]]]]];
    try discriminate L.
  reflexivity.
Qed.

Lemma status_plus_class status class :
  0 <= status < 256 -> 0 <= class < 65536 -> Z.land class 0xFF = 0 ->
  to_uint16 (status + class) = Z.lor class status.
Proof.
  intros Hs Hc Hlow.
  assert (Hdisj : Z.land class status = 0).
  { apply Z.bits_inj'. intros n Hn. rewrite Z.land_spec, Z.bits_0.
    destruct (Z.ltb_spec n 8).
    - assert (Hb : Z.testbit (Z.land class 0xFF) n = false)
        by (rewrite Hlow; apply Z.bits_0).
      rewrite Z.land_spec in Hb. change 255 with (Z.ones 8) in Hb.
      rewrite Z.testbit_ones_nonneg in Hb by lia.
      rewrite (proj2 (Z.ltb_lt n 8)), andb_true_r in Hb by lia.
      rewrite Hb. reflexivity.
    - rewrite (Z.bits_above_log2 status n), andb_false_r; [reflexivity|lia|].
      destruct (Z.eq_dec status 0) as [->|Hnz]; [cbn; lia|].
      apply Z.log2_lt_pow2; [lia|].
      apply Z.lt_le_trans with (2 ^ 8); [change (2 ^ 8) with 256; lia|].
      apply Z.pow_le_mono_r; lia. }
  rewrite <- Z.lxor_lor by exact Hdisj.
  rewrite <- Z.add_nocarry_lxor by exact Hdisj.
  rewrite Z.add_comm.
  unfold to_uint16.
  assert (Hlt : status + class < 65536).
  { (* class is a multiple of 256 below 65536 *)
    change 255 with (Z.ones 8) in Hlow. rewrite Z.land_ones in Hlow by lia.
    change (2 ^ 8) with 256 in Hlow.
    pose proof (Z.div_mod class 256 ltac:(lia)) as Hdm. rewrite Hlow in Hdm.
    assert (class / 256 < 256) by (apply Z.div_lt_upper_bound; lia).
    lia. }
  apply Z.mod_small. lia.
Qed.



(** The torque-switch form of MotorWRITE under the same circumstances, with
    a mask other than NoReturn: the class added is ReceiveError. *)
Lemma MotorWRITE_size_mismatch_gen id toruqeOnSw receiveMode receiveData controlMode
    (w : World T) rxbuf rxNowSize t' :
  0 < receiveMode < 256 ->
  length receiveData = 8%nat ->
  toruqeOnSw = 0x01 \/ toruqeOnSw = 0x02 \/ toruqeOnSw = 0x04 \/ toruqeOnSw = 0x08 ->
  synchronizeVariableRead
    (setCrc16 crc
       [254; 254; to_byte id; 8; 165; to_byte toruqeOnSw; indeterminate; indeterminate]) 8
    (alloca indeterminate 26) indeterminate
    (transport w) = ((true, rxbuf, rxNowSize), t') ->
  fst (checkRecv crc rxbuf PMX.SendCmd.MotorWRITE default_header w) = PMX.ComError.OK ->
  0 <= load rxbuf PMX.BuffPter.Status < 256 ->
  rxNowSize <> 8 + 1 + 2 * popcount 8 receiveMode ->
  let r := fst (MotorWRITE crc indeterminate id toruqeOnSw receiveMode (Some receiveData)
                  controlMode w) in
  fst r = Z.lor PMX.ComError.ReceiveError (load rxbuf PMX.BuffPter.Status) /\
  snd r = Some (repeat 0x7FFFFFFF 8).
Proof.
  intros Hmode Hlen Hsw Hresp Hok Hst Hsize r. subst r.
  unfold MotorWRITE.
  rewrite (byteCounter_value receiveMode) by lia.
  rewrite sentinel_fill by exact Hlen.
  assert (Hguard :
    negb ((toruqeOnSw =? PMX.TorqueSwitchType.TorqueOn) ||
          (toruqeOnSw =? PMX.TorqueSwitchType.Free) ||
          (toruqeOnSw =? PMX.TorqueSwitchType.Brake) ||
          (toruqeOnSw =? PMX.TorqueSwitchType.Hold)) = false).
  { destruct Hsw as [-> | [-> | [-> | ->]]]; reflexivity. }
  rewrite Hguard.
  cbv [bind this_synchronizeVariableRead run_transport PmxCrc16_setCrc16 tell ret
       logOutputPrint].
  cbn [transport trace].
  match goal with
  | |- context [synchronizeVariableRead ?a ?b ?c ?d ?e] =>
      change (synchronizeVariableRead a b c d e)
        with (synchronizeVariableRead
                (setCrc16 crc
                   [254; 254; to_byte id; 8; 165; to_byte toruqeOnSw;
                    indeterminate; indeterminate])
                8 (alloca indeterminate 26) indeterminate (transport w))
  end.
  rewrite Hresp. cbn [eqb].
  match goal with
  | |- context [checkRecv crc rxbuf ?c ?h ?w1] =>
      pose proof (checkRecv_verdict_world crc rxbuf c h w1 w) as Hv;
      destruct (checkRecv crc rxbuf c h w1) as [errorFlag w2]
  end.
  cbn [fst] in Hv. rewrite Hok in Hv. subst errorFlag.
  cbn [Z.eqb PMX.ComError.OK negb].
  change PMX.ReceiveDataOption.NoReturn with 0.
  rewrite (proj2 (Z.eqb_neq receiveMode 0)) by lia.
  change (PMX.MinimumLength.Receive + 1 + 2 * popcount 8 receiveMode)
    with (8 + 1 + 2 * popcount 8 receiveMode).
  rewrite (proj2 (Z.eqb_neq _ _) Hsize). cbn [negb fst snd].
  split; [|reflexivity].
  apply status_plus_class; [exact Hst|cbv; split; [discriminate|reflexivity]|reflexivity].
Qed.

End SizeMismatch.


(** C7 at a failing input: TorqueOn for device 1 with the position field
    requested, answered by a valid eight-byte frame.  The torque-switch form
    adds ReceiveError (0xFB00); MotorREAD and the target-value form of
    MotorWRITE add MotorREADConvertError (0xFA00) to the same kind of reply.
    No field is decoded in any of them. *)
Theorem MotorWRITE_size_mismatch_class :
  let reply := [[254; 254; 1; 8; 37; 0]; [42; 2]] in
  let sentinels := repeat 0x7FFFFFFF 8 in
  fst (MotorWRITE sumCrc16 0 1 PMX.TorqueSwitchType.TorqueOn PMX.ReceiveDataOption.Position
         (Some (repeat 0 8)) 0x01 (scripted_world reply))
    = (PMX.ComError.ReceiveError, Some sentinels) /\
  fst (MotorWRITE_target sumCrc16 0 1 [100] 1 PMX.ReceiveDataOption.Position
         (Some (repeat 0 8)) 0x01 (scripted_world reply))
    = (PMX.ComError.MotorREADConvertError, Some sentinels) /\
  fst (MotorREAD sumCrc16 0 1 PMX.ReceiveDataOption.Position (repeat 0 8) 0x01 None
         (scripted_world [[254; 254; 1; 8; 36; 0]; [41; 2]]))
    = (PMX.ComError.MotorREADConvertError, sentinels, None) /\
  PMX.ComError.ReceiveError = 0xFB00 /\ PMX.ComError.MotorREADConvertError = 0xFA00.
Proof. cbv zeta. repeat split; vm_compute; reflexivity. Qed.

(** ** Motion decode *)

Section MotionDecode.

Lemma land_pow2_eqb m k :
  0 <= k -> (Z.land m (2 ^ k) =? 2 ^ k) = Z.testbit m k.
Proof.
  intros Hk.
  assert (Hland : Z.land m (2 ^ k) = if Z.testbit m k then 2 ^ k else 0).
  { apply Z.bits_inj'. intros n Hn.
    rewrite Z.land_spec, Z.pow2_bits_eqb by lia.
    destruct (Z.eqb_spec k n) as [->|Hne].
    - destruct (Z.testbit m n) eqn:B.
      + rewrite Z.pow2_bits_true by lia. reflexivity.
      + rewrite Z.bits_0. reflexivity.
    - rewrite andb_false_r. destruct (Z.testbit m k).
      + rewrite Z.pow2_bits_false by lia. reflexivity.
      + rewrite Z.bits_0. reflexivity. }
  rewrite Hland. destruct (Z.testbit m k).
  - apply Z.eqb_refl.
  - apply Z.eqb_neq. pose proof (Z.pow_pos_nonneg 2 k). lia.
Qed.

Lemma popcount_step k m :
  popcount (S k) m = popcount k m + Z.b2z (Z.testbit m (Z.of_nat k)).
Proof. reflexivity. Qed.

Lemma popcount_mono k n m : (k <= n)%nat -> popcount k m <= popcount n m.
Proof.
  induction 1 as [|n Hle IH]; [lia|].
  rewrite popcount_step. destruct (Z.testbit m (Z.of_nat n)); cbn [Z.b2z]; lia.
Qed.

Lemma lor_shiftl8 b0 b1 :
  0 <= b0 < 256 -> 0 <= b1 -> Z.lor b0 (Z.shiftl b1 8) = b0 + 256 * b1.
Proof.
  intros H0 H1.
  assert (Hdisj : Z.land b0 (Z.shiftl b1 8) = 0).
  { apply Z.bits_inj'. intros n Hn. rewrite Z.land_spec, Z.bits_0.
    destruct (Z.ltb_spec n 8).
    - rewrite Z.shiftl_spec_low by lia. apply andb_false_r.
    - rewrite (Z.bits_above_log2 b0 n); [reflexivity|lia|].
      destruct (Z.eq_dec b0 0) as [->|Hnz]; [cbn; lia|].
      apply Z.log2_lt_pow2; [lia|].
      apply Z.lt_le_trans with (2 ^ 8); [change (2 ^ 8) with 256; lia|].
      apply Z.pow_le_mono_r; lia. }
  rewrite <- Z.lxor_lor by exact Hdisj.
  rewrite <- Z.add_nocarry_lxor by exact Hdisj.
  rewrite Z.shiftl_mul_pow2 by lia. change (2 ^ 8) with 256. lia.
Qed.

Variable receiveBytes : list Z.
Hypothesis bytes_range : Forall (fun b => 0 <= b < 256) receiveBytes.

Lemma load_range off :
  0 <= off < Z.of_nat (length receiveBytes) -> 0 <= load receiveBytes off < 256.
Proof.
  intros Hoff. unfold load.
  destruct (lookup_lt_is_Some_2 receiveBytes (Z.to_nat off)) as [b Hb]; [lia|].
  rewrite (list_lookup_total_correct _ _ _ Hb).
  exact (proj1 (Forall_lookup _ _) bytes_range _ _ Hb).
Qed.

Lemma drop_word off :
  0 <= off ->
  Z.lor (drop (Z.to_nat off) receiveBytes !!! 0%nat)
        (Z.shiftl (drop (Z.to_nat off) receiveBytes !!! 1%nat) 8)
  = Z.lor (load receiveBytes off) (Z.shiftl (load receiveBytes (off + 1)) 8).
Proof.
  intros Hoff. unfold load. rewrite !lookup_total_drop.
  replace (Z.to_nat off + 0)%nat with (Z.to_nat off) by lia.
  replace (Z.to_nat off + 1)%nat with (Z.to_nat (off + 1)) by lia.
  reflexivity.
Qed.

Lemma le16_range off :
  0 <= off -> off + 1 < Z.of_nat (length receiveBytes) ->
  0 <= le16 receiveBytes off < 65536.
Proof.
  intros H0 H1. unfold le16.
  pose proof (load_range off ltac:(lia)).
  pose proof (load_range (off + 1) ltac:(lia)). lia.
Qed.

Lemma bytesToUint16_le16 off :
  0 <= off -> off + 1 < Z.of_nat (length receiveBytes) ->
  to_int32 (DataConv.bytesToUint16 (drop (Z.to_nat off) receiveBytes))
  = le16 receiveBytes off.
Proof.
  intros H0 H1. unfold DataConv.bytesToUint16. cbv zeta.
  rewrite drop_word by exact H0.
  pose proof (load_range off ltac:(lia)).
  pose proof (load_range (off + 1) ltac:(lia)).
  rewrite lor_shiftl8 by lia. fold (le16 receiveBytes off).
  pose proof (le16_range off H0 H1).
  rewrite to_uint16_id by lia. apply to_int32_id. lia.
Qed.

Lemma bytesToInt16_le16 off :
  0 <= off -> off + 1 < Z.of_nat (length receiveBytes) ->
  to_int32 (DataConv.bytesToInt16 (drop (Z.to_nat off) receiveBytes))
  = as_signed16 (le16 receiveBytes off).
Proof.
  intros H0 H1. unfold DataConv.bytesToInt16. cbv zeta.
  rewrite drop_word by exact H0.
  pose proof (load_range off ltac:(lia)).
  pose proof (load_range (off + 1) ltac:(lia)).
  rewrite lor_shiftl8 by lia. fold (le16 receiveBytes off).
  pose proof (le16_range off H0 H1) as Hr.
  unfold as_signed16, to_int16.
  destruct (Z.ltb_spec (le16 receiveBytes off) 32768).
  - rewrite Z.mod_small by lia. rewrite to_int32_id by lia. lia.
  - replace (le16 receiveBytes off + 32768)
      with (le16 receiveBytes off - 32768 + 1 * 65536) by lia.
    rewrite Z.mod_add by lia. rewrite Z.mod_small by lia.
    rewrite to_int32_id by lia. lia.
Qed.

Variables receiveMode controlMode : Z.
Hypothesis payload_size :
  Z.of_nat (length receiveBytes) = 2 * popcount 8 receiveMode.

Lemma conv_field_step (k : nat) opt slot decode st :
  (k < 8)%nat -> opt = 2 ^ Z.of_nat k -> slot = Z.of_nat k ->
  (forall off, 0 <= off -> off + 1 < Z.of_nat (length receiveBytes) ->
     to_int32 (decode (drop (Z.to_nat off) receiveBytes)) =
       if field_signed k controlMode
       then as_signed16 (le16 receiveBytes off) else le16 receiveBytes off) ->
  decoded_upto receiveMode controlMode receiveBytes k st ->
  decoded_upto receiveMode controlMode receiveBytes (S k) (conv_field receiveMode opt slot decode receiveBytes st).
Proof.
  intros Hk -> -> Hdec (Hlen & Hcnt & Hslots).
  destruct st as [motorData arrayCount]. cbn [fst snd] in *.
  unfold conv_field. rewrite land_pow2_eqb by lia.
  pose proof (popcount_mono (S k) 8 receiveMode ltac:(lia)) as Hmono.
  rewrite popcount_step in Hmono.
  destruct (Z.testbit receiveMode (Z.of_nat k)) eqn:Hbit; cbn [Z.b2z] in Hmono.
  - assert (Hpc : 0 <= popcount k receiveMode)
      by (apply (popcount_mono 0 k receiveMode); lia).
    split; [|split]; cbn [fst snd].
    + unfold store. rewrite length_insert. exact Hlen.
    + rewrite popcount_step, Hbit. cbn [Z.b2z]. lia.
    + intros j Hj. unfold store. rewrite Nat2Z.id.
      destruct (Nat.eq_dec j k) as [->|Hne].
      * rewrite list_lookup_total_insert_eq by lia.
        rewrite (proj2 (Nat.ltb_lt k (S k))) by lia.
        unfold canonical_field. rewrite Hbit. cbv zeta.
        rewrite Hcnt. apply Hdec; lia.
      * rewrite list_lookup_total_insert_ne by congruence.
        rewrite Hslots by exact Hj.
        destruct (Nat.ltb_spec j k), (Nat.ltb_spec j (S k)); try lia; reflexivity.
  - split; [|split]; cbn [fst snd].
    + exact Hlen.
    + rewrite popcount_step, Hbit. cbn [Z.b2z]. lia.
    + intros j Hj. rewrite Hslots by exact Hj.
      destruct (Nat.eq_dec j k) as [->|Hne].
      * rewrite (proj2 (Nat.ltb_ge k k)) by lia.
        rewrite (proj2 (Nat.ltb_lt k (S k))) by lia.
        unfold canonical_field. rewrite Hbit. reflexivity.
      * destruct (Nat.ltb_spec j k), (Nat.ltb_spec j (S k)); try lia; reflexivity.
Qed.

Lemma position_decode_signedness :
  (Z.land controlMode PMX.ControlMode.Position =? PMX.ControlMode.Position)
  = Z.testbit controlMode 0.
Proof. apply (land_pow2_eqb controlMode 0). lia. Qed.

Lemma convReceiveMotorData_decoded motorData :
  0 <= receiveMode < 256 ->
  length motorData = 8%nat ->
  exists decoded,
    __convReceiveMotorData receiveMode receiveBytes (Z.of_nat (length receiveBytes))
      motorData controlMode = (true, decoded) /\
    decoded_upto receiveMode controlMode receiveBytes 8 (decoded, 2 * popcount 8 receiveMode).
Proof.
  intros Hmode Hlen. unfold __convReceiveMotorData.
  rewrite sentinel_fill by exact Hlen.
  rewrite (byteCounter_value receiveMode Hmode), payload_size, Z.eqb_refl.
  cbn [negb]. cbv zeta.
  assert (H0 : decoded_upto receiveMode controlMode receiveBytes 0 (repeat 0x7FFFFFFF 8, 0)).
  { split; [reflexivity|]. split; [reflexivity|].
    intros j Hj. do 8 (destruct j as [|j]; [reflexivity|]). lia. }
  pose proof (fun off => bytesToInt16_le16 off) as Hs.
  pose proof (fun off => bytesToUint16_le16 off) as Hu.
  eapply (conv_field_step 0 PMX.ReceiveDataOption.Position 0
            (if Z.land controlMode PMX.ControlMode.Position =? PMX.ControlMode.Position
             then DataConv.bytesToInt16 else DataConv.bytesToUint16)) in H0;
    [|lia|reflexivity|reflexivity|].
  2:{ intros off Ho1 Ho2. rewrite position_decode_signedness. cbn [field_signed].
      destruct (Z.testbit controlMode 0); [apply Hs | apply Hu]; assumption. }
  eapply (conv_field_step 1 PMX.ReceiveDataOption.Speed 1 DataConv.bytesToInt16) in H0;
    [|lia|reflexivity|reflexivity|exact Hs].
  eapply (conv_field_step 2 PMX.ReceiveDataOption.Current 2 DataConv.bytesToInt16) in H0;
    [|lia|reflexivity|reflexivity|exact Hs].
  eapply (conv_field_step 3 PMX.ReceiveDataOption.Torque 3 DataConv.bytesToInt16) in H0;
    [|lia|reflexivity|reflexivity|exact Hs].
  eapply (conv_field_step 4 PMX.ReceiveDataOption.Pwm 4 DataConv.bytesToInt16) in H0;
    [|lia|reflexivity|reflexivity|exact Hs].
  eapply (conv_field_step 5 PMX.ReceiveDataOption.MotorTemp 5 DataConv.bytesToInt16) in H0;
    [|lia|reflexivity|reflexivity|exact Hs].
  eapply (conv_field_step 6 PMX.ReceiveDataOption.CpuTemp 6 DataConv.bytesToInt16) in H0;
    [|lia|reflexivity|reflexivity|exact Hs].
  eapply (conv_field_step 7 PMX.ReceiveDataOption.Voltage 7 DataConv.bytesToUint16) in H0;
    [|lia|reflexivity|reflexivity|exact Hu].
  match type of H0 with
  | decoded_upto receiveMode controlMode receiveBytes 8 ?st => exists (fst st); split; [reflexivity|]
  end.
  destruct H0 as (L & C & S8). split; [exact L|]. split; [reflexivity|exact S8].
Qed.

End MotionDecode.

(** C5: for a payload of exactly 2 x popcount(mask) bytes the decode succeeds
    and slot [k] of the sample is the canonical field [k]: the little-endian
    word at offset 2 x (number of selected fields before [k]), signed for
    position under position control and for speed, current, torque, PWM and
    both temperatures, unsigned for position otherwise and for voltage; a slot
    whose bit is clear holds the sentinel 0x7FFFFFFF. *)
Theorem convReceiveMotorData_canonical (receiveMode controlMode : Z)
    (receiveBytes motorData : list Z) :
  0 <= receiveMode < 256 ->
  Forall (fun b => 0 <= b < 256) receiveBytes ->
  Z.of_nat (length receiveBytes) = 2 * popcount 8 receiveMode ->
  length motorData = 8%nat ->
  let r := __convReceiveMotorData receiveMode receiveBytes
             (Z.of_nat (length receiveBytes)) motorData controlMode in
  fst r = true /\
  snd r = map (canonical_field receiveMode controlMode receiveBytes) (seq 0 8).
Proof.
  intros Hmode Hbytes Hsize Hlen r. subst r.
  destruct (convReceiveMotorData_decoded receiveBytes Hbytes receiveMode controlMode
              Hsize motorData Hmode Hlen) as (decoded & -> & L & _ & Hslots).
  cbn [fst snd] in *. split; [reflexivity|].
  destruct decoded as [|d0 [|d1 [|d2 [|d3 [|d4 [|d5 [|d6 [|d7 [|? ?]]]]]]]]];
    try discriminate L.
  pose proof (Hslots 0%nat ltac:(lia)) as S0. pose proof (Hslots 1%nat ltac:(lia)) as S1.
  pose proof (Hslots 2%nat ltac:(lia)) as S2. pose proof (Hslots 3%nat ltac:(lia)) as S3.
  pose proof (Hslots 4%nat ltac:(lia)) as S4. pose proof (Hslots 5%nat ltac:(lia)) as S5.
  pose proof (Hslots 6%nat ltac:(lia)) as S6. pose proof (Hslots 7%nat ltac:(lia)) as S7.
  cbn [lookup_total list_lookup_total Nat.ltb Nat.leb] in S0, S1, S2, S3, S4, S5, S6, S7.
  cbn [map seq]. congruence.
Qed.

(** Speed and voltage selected, velocity control: the four payload bytes are
    speed then voltage. *)
Lemma convReceiveMotorData_canonical_witness :
  __convReceiveMotorData 0x82 [0xFE; 0xFF; 0x10; 0x27] 4 (repeat 0 8) 0x02
  = (true, [0x7FFFFFFF; -2; 0x7FFFFFFF; 0x7FFFFFFF; 0x7FFFFFFF; 0x7FFFFFFF;
            0x7FFFFFFF; 10000]).
Proof.
  destruct (convReceiveMotorData_canonical 0x82 0x02 [0xFE; 0xFF; 0x10; 0x27]
              (repeat 0 8)
              ltac:(lia)
              ltac:(repeat (constructor; [lia|]); constructor)
              eq_refl eq_refl) as [Hflag Hdata].
  apply injective_projections; [exact Hflag | exact Hdata].
Defined.

(** ** The transport operations as functions of the object

    The value and final object of each operation, with the trail dropped. *)

Section TransportEquations.

Context {P : Type} `{HardwareSerial P}.

Ltac statements :=
  cbv [PmxHardSerial.andThen PmxHardSerial.stmt PmxHardSerial.stmt_of
       PmxHardSerial.member PmxHardSerial.done];
  cbn [fst snd].

Lemma synchronizeWrite_eq txBuf txLen (self : PmxHardSerial.t P) :
  PmxHardSerial.__synchronizeWrite txBuf txLen self =
  let self :=
    PmxHardSerial.set_sendBuff (memcpy (PmxHardSerial.sendBuff self) txBuf txLen) self in
  let self := PmxHardSerial.on_port flush self in
  let self := PmxHardSerial.enHigh self in
  let self := PmxHardSerial.on_port (write (PmxHardSerial.sendBuff self) txLen) self in
  let self := PmxHardSerial.on_port flush self in
  let self := PmxHardSerial.on_port PmxHardSerial.drain_all self in
  PmxHardSerial.enLow self.
Proof. reflexivity. Qed.

Lemma synchronizeWrite_body_eq txBuf txLen (self : PmxHardSerial.t P) :
  fst (PmxHardSerial.__synchronizeWrite_body txBuf txLen self) =
  (tt, PmxHardSerial.__synchronizeWrite txBuf txLen self).
Proof. reflexivity. Qed.

Lemma synchronize_eq txBuf txLen rxBuf rxLen (self : PmxHardSerial.t P) :
  PmxHardSerial.synchronize txBuf txLen rxBuf rxLen self =
  match PmxHardSerial.pmxSerial self with
  | None => ((false, rxBuf), self)
  | Some _ =>
      if eqb (PmxHardSerial._isSynchronize self) true then
        ((false, rxBuf), self)
      else
        let self := PmxHardSerial.set_isSynchronize true self in
        let self := PmxHardSerial.__synchronizeWrite txBuf txLen self in
        let self :=
          PmxHardSerial.set_receiveBuff
            (for_loop rxLen (fun i b => store b i 0xFF) (PmxHardSerial.receiveBuff self))
            self in
        let '(rxSize, self) := PmxHardSerial.port_readBytes 0 rxLen self in
        let rxBuf := memcpy rxBuf (PmxHardSerial.receiveBuff self) rxLen in
        let self := PmxHardSerial.set_isSynchronize false self in
        if negb (rxSize =? rxLen) then
          ((false, rxBuf), self)
        else
          ((true, rxBuf), self)
  end.
Proof.
  unfold PmxHardSerial.synchronize, PmxHardSerial.synchronize_body.
  unfold PmxHardSerial.andThen at 1. unfold PmxHardSerial.member at 1.
  destruct (PmxHardSerial.pmxSerial self); [|reflexivity].
  unfold PmxHardSerial.andThen at 1. unfold PmxHardSerial.member at 1.
  destruct (PmxHardSerial._isSynchronize self); [reflexivity|].
  cbn [eqb]. cbv zeta.
  unfold PmxHardSerial.andThen at 1. unfold PmxHardSerial.stmt at 1.
  unfold PmxHardSerial.andThen at 1.
  destruct (PmxHardSerial.__synchronizeWrite_body txBuf txLen
              (PmxHardSerial.set_isSynchronize true self)) as [[[] self1] trail1] eqn:Hw.
  apply (f_equal fst) in Hw. rewrite synchronizeWrite_body_eq in Hw.
  cbn [fst] in Hw. injection Hw as <-.
  statements.
  destruct (PmxHardSerial.port_readBytes 0 rxLen _) as [rxSize self2].
  cbn [fst snd].
  destruct (negb (rxSize =? rxLen)); reflexivity.
Qed.

Lemma synchronizeVariableRead_eq txBuf txLen rxBuf rxLen (self : PmxHardSerial.t P) :
  PmxHardSerial.synchronizeVariableRead txBuf txLen rxBuf rxLen self =
  match PmxHardSerial.pmxSerial self with
  | None => ((false, rxBuf, rxLen), self)
  | Some _ =>
      if eqb (PmxHardSerial._isSynchronize self) true then
        ((false, rxBuf, rxLen), self)
      else
        let self := PmxHardSerial.set_isSynchronize true self in
        let self := PmxHardSerial.__synchronizeWrite txBuf txLen self in
        let self :=
          PmxHardSerial.set_receiveBuff
            (for_loop 256 (fun i b => store b i 0xFF) (PmxHardSerial.receiveBuff self))
            self in
        let minRxSize := to_byte (PMX.MinimumLength.Receive - 2) in
        let '(n, self) := PmxHardSerial.port_readBytes 0 minRxSize self in
        let firstRxBuffSize := to_byte n in
        if negb (firstRxBuffSize =? minRxSize) then
          let rxLen := 0 in
          let self := PmxHardSerial.set_isSynchronize false self in
          ((false, rxBuf, rxLen), self)
        else
          let allRxSize := load (PmxHardSerial.receiveBuff self) PMX.BuffPter.Length in
          let secondRxBuffSize := to_byte (allRxSize - minRxSize) in
          let '(n, self) :=
            PmxHardSerial.port_readBytes minRxSize secondRxBuffSize self in
          let sBuffSize := to_byte n in
          if negb (secondRxBuffSize =? sBuffSize) then
            let rxLen := minRxSize in
            let self := PmxHardSerial.set_isSynchronize false self in
            ((false, rxBuf, rxLen), self)
          else
            let rxLen := allRxSize in
            let rxBuf := memcpy rxBuf (PmxHardSerial.receiveBuff self) allRxSize in
            let self := PmxHardSerial.set_isSynchronize false self in
            ((true, rxBuf, rxLen), self)
  end.
Proof.
  unfold PmxHardSerial.synchronizeVariableRead, PmxHardSerial.synchronizeVariableRead_body.
  unfold PmxHardSerial.andThen at 1. unfold PmxHardSerial.member at 1.
  destruct (PmxHardSerial.pmxSerial self); [|reflexivity].
  unfold PmxHardSerial.andThen at 1. unfold PmxHardSerial.member at 1.
  destruct (PmxHardSerial._isSynchronize self); [reflexivity|].
  cbn [eqb]. cbv zeta.
  unfold PmxHardSerial.andThen at 1. unfold PmxHardSerial.stmt at 1.
  unfold PmxHardSerial.andThen at 1.
  destruct (PmxHardSerial.__synchronizeWrite_body txBuf txLen
              (PmxHardSerial.set_isSynchronize true self)) as [[[] self1] trail1] eqn:Hw.
  apply (f_equal fst) in Hw. rewrite synchronizeWrite_body_eq in Hw.
  cbn [fst] in Hw. injection Hw as <-.
  unfold PmxHardSerial.andThen at 1. unfold PmxHardSerial.stmt at 1.
  unfold PmxHardSerial.andThen at 1. unfold PmxHardSerial.stmt_of at 1.
  destruct (PmxHardSerial.port_readBytes 0 _ _) as [n1 self2].
  destruct (negb (to_byte n1 =? _)); [reflexivity|].
  unfold PmxHardSerial.andThen at 1. unfold PmxHardSerial.member at 1.
  unfold PmxHardSerial.andThen at 1. unfold PmxHardSerial.stmt_of at 1.
  destruct (PmxHardSerial.port_readBytes _ _ self2) as [n2 self3].
  destruct (negb (_ =? to_byte n2)); reflexivity.
Qed.

Lemma synchronizeNoRead_eq txBuf txLen (self : PmxHardSerial.t P) :
  PmxHardSerial.synchronizeNoRead txBuf txLen self =
  match PmxHardSerial.pmxSerial self with
  | None => (false, self)
  | Some _ =>
      if eqb (PmxHardSerial._isSynchronize self) true then
        (false, self)
      else
        let self := PmxHardSerial.set_isSynchronize true self in
        let self := PmxHardSerial.__synchronizeWrite txBuf txLen self in
        let self := PmxHardSerial.set_isSynchronize false self in
        (true, self)
  end.
Proof.
  unfold PmxHardSerial.synchronizeNoRead, PmxHardSerial.synchronizeNoRead_body.
  unfold PmxHardSerial.andThen at 1. unfold PmxHardSerial.member at 1.
  destruct (PmxHardSerial.pmxSerial self); [|reflexivity].
  unfold PmxHardSerial.andThen at 1. unfold PmxHardSerial.member at 1.
  destruct (PmxHardSerial._isSynchronize self); [reflexivity|].
  cbn [eqb]. cbv zeta.
  unfold PmxHardSerial.andThen at 1. unfold PmxHardSerial.stmt at 1.
  unfold PmxHardSerial.andThen at 1.
  destruct (PmxHardSerial.__synchronizeWrite_body txBuf txLen
              (PmxHardSerial.set_isSynchronize true self)) as [[[] self1] trail1] eqn:Hw.
  apply (f_equal fst) in Hw. rewrite synchronizeWrite_body_eq in Hw.
  cbn [fst] in Hw. injection Hw as <-.
  reflexivity.
Qed.

End TransportEquations.

(** ** The busy flag of the transport *)

Section BusyGuard.

Context {P : Type} `{HardwareSerial P}.








(** The budget of [drain_all] is enough: on a port whose [read] takes one
    byte off the receive FIFO, the loop ends with the FIFO empty. *)
Lemma drain_empties (budget : nat) (port : P) :
  (forall p : P, 0 < available p -> available (read p) = available p - 1) ->
  available port <= Z.of_nat budget ->
  available (PmxHardSerial.drain budget port) <= 0.
Proof.
  intros Hread. revert port.
  induction budget as [|budget IH]; intros port Hle; cbn [PmxHardSerial.drain].
  - exact Hle.
  - destruct (Z.gtb_spec (available port) 0) as [Hpos|Hnone]; [|lia].
    apply IH. rewrite Hread by lia. lia.
Qed.

Lemma drain_all_empties (port : P) :
  (forall p : P, 0 < available p -> available (read p) = available p - 1) ->
  available (PmxHardSerial.drain_all port) <= 0.
Proof.
  intros Hread. apply drain_empties; [exact Hread|]. lia.
Qed.













End BusyGuard.



(** * Further properties of the code *)

(** ** Loops over arrays *)

Section ArrayLoops.

Lemma for_loop_from_ext {A : Type} (body body' : Z -> A -> A) n : forall i a,
  (forall j b, body j b = body' j b) ->
  for_loop_from i n body a = for_loop_from i n body' a.
Proof.
  induction n as [|n IH]; intros i a Hext; cbn [for_loop_from]; [reflexivity|].
  rewrite Hext. apply IH, Hext.
Qed.

(** A loop that stores [g i] at index [base + i] for [i = i0 .. i0 + n - 1]. *)
Lemma for_loop_from_store (base : Z) (g : Z -> Z) n : forall i0 (dst : list Z),
  0 <= base + i0 ->
  (Z.to_nat (base + i0) + n <= length dst)%nat ->
  for_loop_from i0 n (fun i d => store d (base + i) (g i)) dst =
    take (Z.to_nat (base + i0)) dst
    ++ ((fun j : nat => g (i0 + Z.of_nat j)) <$> seq 0 n)
    ++ drop (Z.to_nat (base + i0) + n) dst.
Proof.
  induction n as [|n IH]; intros i0 dst Hpos Hlen; cbn [for_loop_from].
  - cbn [seq fmap list_fmap app]. rewrite Nat.add_0_r. symmetry. apply take_drop.
  - rewrite IH; [|lia|unfold store; rewrite length_insert; lia].
    replace (Z.to_nat (base + (i0 + 1))) with (S (Z.to_nat (base + i0))) by lia.
    unfold store.
    set (p := Z.to_nat (base + i0)) in *.
    rewrite drop_insert_lt by lia.
    rewrite take_insert_lt by lia.
    destruct (lookup_lt_is_Some_2 dst p) as [x Hx]; [lia|].
    rewrite (take_S_r dst p x Hx).
    rewrite (insert_app_r_alt (take p dst) _ p) by (rewrite length_take; lia).
    rewrite length_take_le by lia. rewrite Nat.sub_diag. cbn [insert list_insert].
    rewrite <- app_assoc. cbn [app seq fmap list_fmap].
    f_equal. rewrite Z.add_0_r. f_equal.
    replace (S p + n)%nat with (p + S n)%nat by lia.
    f_equal.
    rewrite <- fmap_S_seq, <- list_fmap_compose.
    apply list_fmap_ext. intros _ j _. cbn. f_equal. lia.
Qed.

Lemma for_loop_store (body : Z -> list Z -> list Z) (base : Z) (g : Z -> Z)
    (n : Z) (dst : list Z) :
  (forall i d, body i d = store d (base + i) (g i)) ->
  0 <= base -> 0 <= n ->
  (Z.to_nat base + Z.to_nat n <= length dst)%nat ->
  for_loop n body dst =
    take (Z.to_nat base) dst
    ++ ((fun j : nat => g (Z.of_nat j)) <$> seq 0 (Z.to_nat n))
    ++ drop (Z.to_nat base + Z.to_nat n) dst.
Proof.
  intros Hbody Hbase Hn Hlen. unfold for_loop.
  rewrite (for_loop_from_ext body (fun i d => store d (base + i) (g i))) by exact Hbody.
  rewrite for_loop_from_store; rewrite ?Z.add_0_r; try lia.
  reflexivity.
Qed.

(** Reading [n] consecutive cells of [src] from [off] on. *)
Lemma loads_take_drop (src : list Z) (off : Z) (n : nat) :
  0 <= off -> (Z.to_nat off + n <= length src)%nat ->
  (fun j : nat => load src (off + Z.of_nat j)) <$> seq 0 n =
    take n (drop (Z.to_nat off) src).
Proof.
  intros Hoff Hlen. apply list_eq. intros i.
  rewrite list_lookup_fmap.
  destruct (Nat.lt_ge_cases i n) as [Hi|Hi].
  - rewrite lookup_seq_lt by exact Hi. cbn [fmap option_fmap option_map].
    rewrite lookup_take_lt by exact Hi. rewrite lookup_drop.
    unfold load. rewrite Nat.add_0_l.
    replace (Z.to_nat (off + Z.of_nat i)) with (Z.to_nat off + i)%nat by lia.
    destruct (lookup_lt_is_Some_2 src (Z.to_nat off + i)) as [x Hx]; [lia|].
    rewrite Hx. f_equal. apply list_lookup_total_correct, Hx.
  - rewrite lookup_seq_ge by exact Hi. cbn.
    symmetry. apply lookup_ge_None_2. rewrite length_take. lia.
Qed.

Lemma for_loop_copy (body : Z -> list Z -> list Z) (src : list Z) (doff soff n : Z)
    (dst : list Z) :
  (forall i d, body i d = store d (doff + i) (load src (soff + i))) ->
  0 <= doff -> 0 <= soff -> 0 <= n ->
  (Z.to_nat doff + Z.to_nat n <= length dst)%nat ->
  (Z.to_nat soff + Z.to_nat n <= length src)%nat ->
  for_loop n body dst =
    take (Z.to_nat doff) dst
    ++ take (Z.to_nat n) (drop (Z.to_nat soff) src)
    ++ drop (Z.to_nat doff + Z.to_nat n) dst.
Proof.
  intros Hbody Hd Hs Hn Hld Hls.
  rewrite (for_loop_store body doff (fun i => load src (soff + i))) by assumption.
  rewrite loads_take_drop by assumption. reflexivity.
Qed.

Lemma fmap_const_seq (v : Z) (n : nat) : forall i : nat,
  (fun _ : nat => v) <$> seq i n = repeat v n.
Proof.
  induction n as [|n IH]; intros i; cbn [seq fmap list_fmap repeat]; [reflexivity|].
  f_equal. apply IH.
Qed.

Lemma for_loop_fill (body : Z -> list Z -> list Z) (v n : Z) (dst : list Z) :
  (forall i d, body i d = store d i v) ->
  0 <= n -> (Z.to_nat n <= length dst)%nat ->
  for_loop n body dst = repeat v (Z.to_nat n) ++ drop (Z.to_nat n) dst.
Proof.
  intros Hbody Hn Hlen.
  rewrite (for_loop_store body 0 (fun _ => v)) by first [assumption | lia].
  rewrite fmap_const_seq. reflexivity.
Qed.

Lemma memcpy_take_drop (dst src : list Z) (n : Z) :
  (Z.to_nat n <= length src)%nat ->
  memcpy dst src n = take (Z.to_nat n) src ++ drop (Z.to_nat n) dst.
Proof.
  intros Hs. unfold memcpy. f_equal.
  change (take (Z.to_nat n) src) with (take (Z.to_nat n) (drop (Z.to_nat 0) src)).
  rewrite <- (loads_take_drop src 0 (Z.to_nat n))
    by (change (Z.to_nat 0) with 0%nat; lia).
  apply list_fmap_ext. intros _ j _. unfold load. cbn. f_equal. lia.
Qed.

(** A copy longer than the destination array runs past its end. *)
Lemma memcpy_length (dst src : list Z) (n : Z) :
  length (memcpy dst src n) = Nat.max (Z.to_nat n) (length dst).
Proof.
  unfold memcpy. rewrite length_app, length_fmap, length_seq, length_drop. lia.
Qed.

End ArrayLoops.

(** ** The HardwareSerial transport *)

Section TransportExchange.

Context {P : Type} `{HardwareSerial P}.

Lemma receiveBuff_on_port (op : P -> P) (self : PmxHardSerial.t P) :
  PmxHardSerial.receiveBuff (PmxHardSerial.on_port op self) =
  PmxHardSerial.receiveBuff self.
Proof. unfold PmxHardSerial.on_port. destruct (PmxHardSerial.pmxSerial self); reflexivity. Qed.

Lemma port_on_port (op : P -> P) (self : PmxHardSerial.t P) :
  PmxHardSerial.pmxSerial (PmxHardSerial.on_port op self) =
  op <$> PmxHardSerial.pmxSerial self.
Proof.
  unfold PmxHardSerial.on_port.
  destruct (PmxHardSerial.pmxSerial self) eqn:Hport; [reflexivity|].
  rewrite Hport. reflexivity.
Qed.

Lemma synchronizeWrite_receiveBuff txBuf txLen (self : PmxHardSerial.t P) :
  PmxHardSerial.receiveBuff (PmxHardSerial.__synchronizeWrite txBuf txLen self) =
  PmxHardSerial.receiveBuff self.
Proof.
  rewrite synchronizeWrite_eq. cbv zeta.
  unfold PmxHardSerial.enHigh, PmxHardSerial.enLow.
  rewrite !receiveBuff_on_port. reflexivity.
Qed.

Lemma synchronizeWrite_no_port txBuf txLen (self : PmxHardSerial.t P) :
  PmxHardSerial.pmxSerial self = None ->
  PmxHardSerial.pmxSerial (PmxHardSerial.__synchronizeWrite txBuf txLen self) = None.
Proof.
  intros Hnone. rewrite synchronizeWrite_eq. cbv zeta.
  unfold PmxHardSerial.enHigh, PmxHardSerial.enLow.
  rewrite !port_on_port.
  cbn [PmxHardSerial.set_sendBuff PmxHardSerial.pmxSerial].
  rewrite Hnone. reflexivity.
Qed.

(** X1: without a serial port ([pmxSerial == nullptr]) the three operations
    return false and leave the transport object and the caller's buffers as
    they were. *)
Theorem null_port_rejects (txBuf rxBuf : list Z) (txLen rxLen : Z)
    (self : PmxHardSerial.t P) :
  PmxHardSerial.pmxSerial self = None ->
  PmxHardSerial.synchronize txBuf txLen rxBuf rxLen self = ((false, rxBuf), self) /\
  PmxHardSerial.synchronizeVariableRead txBuf txLen rxBuf rxLen self =
    ((false, rxBuf, rxLen), self) /\
  PmxHardSerial.synchronizeNoRead txBuf txLen self = (false, self).
Proof.
  intros Hnull.
  rewrite synchronize_eq, synchronizeVariableRead_eq, synchronizeNoRead_eq.
  rewrite Hnull. auto.
Qed.

Variable self : PmxHardSerial.t P.
Variables txBuf : list Z.
Variable txLen : Z.
Variable port1 : P.

(** The transport is idle, owns a 256-byte receive buffer, and [port1] is
    the state of its port once the request has been written. *)
Hypothesis idle : PmxHardSerial._isSynchronize self = false.
Hypothesis receiveBuff_size : length (PmxHardSerial.receiveBuff self) = 256%nat.
Hypothesis written :
  PmxHardSerial.pmxSerial
    (PmxHardSerial.__synchronizeWrite txBuf txLen
       (PmxHardSerial.set_isSynchronize true self)) = Some port1.

Lemma has_port : exists port0, PmxHardSerial.pmxSerial self = Some port0.
Proof.
  destruct (PmxHardSerial.pmxSerial self) as [port0|] eqn:Hp; [eauto|].
  exfalso.
  rewrite synchronizeWrite_no_port in written by exact Hp.
  discriminate written.
Qed.

Lemma drop_repeat_app (v : Z) (n k : nat) (tl : list Z) :
  (k <= n)%nat -> drop k (repeat v n ++ tl) = repeat v (n - k) ++ tl.
Proof.
  intros Hk. rewrite drop_app_le by (rewrite repeat_length; lia).
  f_equal. revert k Hk. induction n as [|n IH]; intros [|k] Hk; cbn; try lia; try reflexivity.
  apply IH. lia.
Qed.

(** X2: a fixed-length exchange succeeds exactly when [rxLen] bytes arrived
    before the timeout; the caller's buffer receives the bytes that did
    arrive, padded with 0xFF up to [rxLen], and the transport is idle again. *)
Theorem synchronize_fixed_read (rxBuf got : list Z) (rxLen : Z) (port2 : P) :
  0 <= rxLen < 256 ->
  (Z.to_nat rxLen <= length rxBuf)%nat ->
  readBytes rxLen port1 = (got, port2) ->
  (length got <= Z.to_nat rxLen)%nat ->
  let r := PmxHardSerial.synchronize txBuf txLen rxBuf rxLen self in
  fst (fst r) = (Z.of_nat (length got) =? rxLen) /\
  snd (fst r) =
    got ++ repeat 0xFF (Z.to_nat rxLen - length got) ++ drop (Z.to_nat rxLen) rxBuf /\
  PmxHardSerial._isSynchronize (snd r) = false /\
  PmxHardSerial.pmxSerial (snd r) = Some port2.
Proof.
  intros Hlen Hbuf Hread Hgot r.
  cut (exists s',
         r = ((Z.of_nat (length got) =? rxLen,
               got ++ repeat 0xFF (Z.to_nat rxLen - length got)
                   ++ drop (Z.to_nat rxLen) rxBuf), s') /\
         PmxHardSerial._isSynchronize s' = false /\
         PmxHardSerial.pmxSerial s' = Some port2).
  { intros (s' & -> & Hflag & Hport). auto. }
  subst r.
  destruct has_port as [port0 Hp0].
  rewrite synchronize_eq, Hp0, idle. cbn [eqb].
  pose proof (synchronizeWrite_receiveBuff txBuf txLen
                (PmxHardSerial.set_isSynchronize true self)) as Hrb.
  cbn [PmxHardSerial.set_isSynchronize PmxHardSerial.receiveBuff] in Hrb.
  pose proof written as Hw.
  revert Hrb Hw.
  generalize (PmxHardSerial.__synchronizeWrite txBuf txLen
                (PmxHardSerial.set_isSynchronize true self)).
  intros sW Hrb Hw.
  unfold PmxHardSerial.port_readBytes.
  cbn [PmxHardSerial.set_receiveBuff PmxHardSerial.pmxSerial
       PmxHardSerial._isSynchronize PmxHardSerial.g_enPin
       PmxHardSerial.sendBuff PmxHardSerial.receiveBuff].
  rewrite Hw, Hread, Hrb.
  cbn [PmxHardSerial.set_isSynchronize PmxHardSerial.pmxSerial
       PmxHardSerial._isSynchronize PmxHardSerial.receiveBuff].
  rewrite (for_loop_fill _ 0xFF rxLen) by first [reflexivity | lia].
  change (Z.to_nat 0) with 0%nat.
  unfold stored_at. rewrite take_0. cbn [app Nat.add].
  rewrite drop_repeat_app by exact Hgot.
  rewrite memcpy_take_drop
    by (rewrite !length_app, repeat_length, length_drop; lia).
  assert (Htake :
    take (Z.to_nat rxLen)
      (got ++ repeat 255 (Z.to_nat rxLen - length got)
           ++ drop (Z.to_nat rxLen) (PmxHardSerial.receiveBuff self))
    = got ++ repeat 255 (Z.to_nat rxLen - length got)).
  { rewrite app_assoc. apply take_app_length'.
    rewrite length_app, repeat_length. lia. }
  rewrite Htake, <- app_assoc.
  destruct (Z.of_nat (length got) =? rxLen); cbn [negb];
    eexists; (split; [reflexivity | split; reflexivity]).
Qed.

Lemma receiveBuff_cleared :
  for_loop 256 (fun i b => store b i 0xFF) (PmxHardSerial.receiveBuff self) =
  repeat 0xFF 256.
Proof.
  rewrite (for_loop_fill _ 0xFF 256) by first [reflexivity | lia].
  rewrite drop_ge by (rewrite receiveBuff_size; change (Z.to_nat 256) with 256%nat; lia).
  apply app_nil_r.
Qed.

Ltac enter_variable_read :=
  destruct has_port as [port0 Hp0];
  rewrite synchronizeVariableRead_eq, Hp0, idle; cbn [eqb];
  pose proof (synchronizeWrite_receiveBuff txBuf txLen
                (PmxHardSerial.set_isSynchronize true self)) as Hrb;
  cbn [PmxHardSerial.set_isSynchronize PmxHardSerial.receiveBuff] in Hrb;
  pose proof written as Hw;
  revert Hrb Hw;
  generalize (PmxHardSerial.__synchronizeWrite txBuf txLen
                (PmxHardSerial.set_isSynchronize true self));
  intros sW Hrb Hw;
  cbv zeta;
  change (to_byte (PMX.MinimumLength.Receive - 2)) with 6;
  cbn [PmxHardSerial.set_receiveBuff PmxHardSerial.receiveBuff];
  rewrite Hrb, receiveBuff_cleared;
  unfold PmxHardSerial.port_readBytes at 1;
  cbn [PmxHardSerial.set_receiveBuff PmxHardSerial.pmxSerial
       PmxHardSerial._isSynchronize PmxHardSerial.g_enPin
       PmxHardSerial.sendBuff PmxHardSerial.receiveBuff];
  rewrite Hw.

(** X3: when fewer than the six leading bytes arrive, the variable-length
    exchange fails with [*rxLen = 0]; the caller's buffer is untouched and the
    transport is idle again. *)
Theorem variable_read_no_header (rxBuf got1 : list Z) (rxLen : Z) (port2 : P) :
  readBytes 6 port1 = (got1, port2) ->
  (length got1 < 6)%nat ->
  let r := PmxHardSerial.synchronizeVariableRead txBuf txLen rxBuf rxLen self in
  fst r = (false, rxBuf, 0) /\
  PmxHardSerial._isSynchronize (snd r) = false /\
  PmxHardSerial.pmxSerial (snd r) = Some port2.
Proof.
  intros Hread Hshort r.
  cut (exists s', r = ((false, rxBuf, 0), s') /\
         PmxHardSerial._isSynchronize s' = false /\
         PmxHardSerial.pmxSerial s' = Some port2).
  { intros (s' & -> & Hflag & Hport). auto. }
  subst r. enter_variable_read.
  rewrite Hread.
  assert (Hne : negb (to_byte (Z.of_nat (length got1)) =? 6) = true).
  { apply negb_true_iff, Z.eqb_neq. unfold to_byte.
    rewrite Z.mod_small by lia. lia. }
  rewrite Hne. eexists. split; [reflexivity | split; reflexivity].
Qed.

(** X4: when the six leading bytes arrive but the rest of the declared
    length does not, the exchange fails with [*rxLen = 6]; the caller's
    buffer is untouched and the transport is idle again. *)
Theorem variable_read_short_body (rxBuf got1 got2 : list Z) (rxLen : Z)
    (port2 port3 : P) :
  readBytes 6 port1 = (got1, port2) ->
  length got1 = 6%nat ->
  readBytes (to_byte (got1 !!! 3%nat - 6)) port2 = (got2, port3) ->
  (Z.of_nat (length got2) < to_byte (got1 !!! 3%nat - 6)) ->
  let r := PmxHardSerial.synchronizeVariableRead txBuf txLen rxBuf rxLen self in
  fst r = (false, rxBuf, 6) /\
  PmxHardSerial._isSynchronize (snd r) = false /\
  PmxHardSerial.pmxSerial (snd r) = Some port3.
Proof.
  intros Hread1 Hlen1 Hread2 Hshort r.
  cut (exists s', r = ((false, rxBuf, 6), s') /\
         PmxHardSerial._isSynchronize s' = false /\
         PmxHardSerial.pmxSerial s' = Some port3).
  { intros (s' & -> & Hflag & Hport). auto. }
  subst r. enter_variable_read.
  rewrite Hread1, Hlen1.
  change (negb (to_byte (Z.of_nat 6) =? 6)) with false. cbv iota.
  cbn [PmxHardSerial.receiveBuff].
  change (Z.to_nat 0) with 0%nat.
  assert (Hlen : load (stored_at 0 got1 (repeat 255 256)) PMX.BuffPter.Length
                 = got1 !!! 3%nat).
  { unfold load, stored_at. change (Z.to_nat PMX.BuffPter.Length) with 3%nat.
    rewrite take_0. cbn [app].
    apply lookup_total_app_l. lia. }
  rewrite Hlen.
  unfold PmxHardSerial.port_readBytes.
  cbn [PmxHardSerial.pmxSerial PmxHardSerial._isSynchronize PmxHardSerial.g_enPin
       PmxHardSerial.sendBuff PmxHardSerial.receiveBuff].
  rewrite Hread2.
  assert (Hbyte : 0 <= to_byte (got1 !!! 3%nat - 6) < 256)
    by (apply Z.mod_pos_bound; lia).
  assert (Hne : negb (to_byte (got1 !!! 3%nat - 6)
                      =? to_byte (Z.of_nat (length got2))) = true).
  { apply negb_true_iff, Z.eqb_neq. unfold to_byte at 2.
    rewrite Z.mod_small by lia. lia. }
  rewrite Hne. eexists. split; [reflexivity | split; reflexivity].
Qed.

(** X5: when both reads are complete, the exchange succeeds and [*rxLen]
    is the length byte [L] the reply declares in its fourth byte.  The second
    read asks for [(L - 6) mod 256] bytes: [L - 6] of them for [L >= 6], and
    [250 + L] for a length byte below 6.  [L] cells are copied to the
    caller's buffer, the first [L] bytes received: the whole frame for
    [L >= 6], only its first [L] leading bytes for [L < 6] (nothing at all
    for [L = 0]).  The copy is not bounded by the caller's array: when the
    array has fewer than [L] cells the result has [L], the copy having run
    past its end.  The bytes of the second read are assumed to fit the
    256-byte receive buffer of the transport. *)
Theorem variable_read_frame (rxBuf got1 got2 : list Z) (rxLen : Z)
    (port2 port3 : P) :
  let L := got1 !!! 3%nat in
  readBytes 6 port1 = (got1, port2) ->
  length got1 = 6%nat ->
  0 <= L < 256 ->
  readBytes (to_byte (L - 6)) port2 = (got2, port3) ->
  Z.of_nat (length got2) = to_byte (L - 6) ->
  (6 + length got2 <= 256)%nat ->
  let r := PmxHardSerial.synchronizeVariableRead txBuf txLen rxBuf rxLen self in
  fst r = (true, take (Z.to_nat L) (got1 ++ got2) ++ drop (Z.to_nat L) rxBuf, L) /\
  (6 <= L -> take (Z.to_nat L) (got1 ++ got2) = got1 ++ got2) /\
  (L < 6 -> take (Z.to_nat L) (got1 ++ got2) = take (Z.to_nat L) got1) /\
  length (snd (fst (fst r))) = Nat.max (Z.to_nat L) (length rxBuf) /\
  PmxHardSerial._isSynchronize (snd r) = false /\
  PmxHardSerial.pmxSerial (snd r) = Some port3.
Proof.
  intros L Hread1 Hlen1 Hdecl Hread2 Hlen2 Hfit r. subst L.
  set (L := got1 !!! 3%nat) in *.
  assert (to_byte_id : forall z, 0 <= z < 256 -> to_byte z = z)
    by (intros z Hz; apply Z.mod_small, Hz).
  assert (Hbyte : 0 <= to_byte (L - 6) < 256) by (apply Z.mod_pos_bound; lia).
  assert (Hcover : (Z.to_nat L <= 6 + length got2)%nat).
  { destruct (Z.le_gt_cases 6 L) as [Hge | Hlt].
    - rewrite (to_byte_id (L - 6)) in Hlen2 by lia. lia.
    - lia. }
  cut (exists s',
         r = ((true, take (Z.to_nat L) (got1 ++ got2) ++ drop (Z.to_nat L) rxBuf, L), s') /\
         PmxHardSerial._isSynchronize s' = false /\
         PmxHardSerial.pmxSerial s' = Some port3).
  { intros (s' & -> & Hflag & Hport). cbn [fst snd].
    split; [reflexivity|]. split; [|split; [|split; [|auto]]].
    - intros Hge. apply take_ge. rewrite length_app.
      rewrite (to_byte_id (L - 6)) in Hlen2 by lia. lia.
    - intros Hlt. apply take_app_le. lia.
    - rewrite length_app, length_take, length_drop, length_app. lia. }
  subst r. enter_variable_read.
  rewrite Hread1, Hlen1.
  change (negb (to_byte (Z.of_nat 6) =? 6)) with false. cbv iota.
  cbn [PmxHardSerial.receiveBuff].
  change (Z.to_nat 0) with 0%nat.
  assert (Hst : stored_at 0 got1 (repeat 255 256) = got1 ++ drop 6 (repeat 255 256)).
  { unfold stored_at. rewrite take_0, Hlen1. reflexivity. }
  rewrite ?Hlen1, !Hst.
  assert (Hlen : load (got1 ++ drop 6 (repeat 255 256)) PMX.BuffPter.Length = L).
  { unfold load. change (Z.to_nat PMX.BuffPter.Length) with 3%nat.
    apply lookup_total_app_l. lia. }
  rewrite !Hlen.
  unfold PmxHardSerial.port_readBytes.
  cbn [PmxHardSerial.pmxSerial PmxHardSerial._isSynchronize PmxHardSerial.g_enPin
       PmxHardSerial.sendBuff PmxHardSerial.receiveBuff].
  rewrite Hread2, Hlen2.
  rewrite (to_byte_id (to_byte (L - 6))) by exact Hbyte.
  rewrite Z.eqb_refl. cbn [negb].
  cbn [PmxHardSerial.set_isSynchronize PmxHardSerial.receiveBuff
       PmxHardSerial.pmxSerial PmxHardSerial._isSynchronize fst snd].
  eexists. split.
  - apply (f_equal (fun b => (true, b, L, _))).
    change (Z.to_nat 6) with 6%nat.
    unfold stored_at.
    rewrite take_app_length' by lia.
    rewrite memcpy_take_drop
      by (rewrite !length_app, !length_drop, length_app, length_drop, repeat_length; lia).
    f_equal.
    rewrite (app_assoc got1 got2).
    apply take_app_le. rewrite length_app. lia.
  - split; reflexivity.
Qed.

End TransportExchange.

Lemma null_port_rejects_witness :
  let self := PmxHardSerial.mk (@None ScriptedPort) 2 (repeat 0 256) (repeat 0 256) false in
  PmxHardSerial.synchronize [1; 2; 3] 3 [9; 9] 2 self = ((false, [9; 9]), self) /\
  PmxHardSerial.synchronizeVariableRead [1; 2; 3] 3 [9; 9] 7 self =
    ((false, [9; 9], 7), self) /\
  PmxHardSerial.synchronizeNoRead [1; 2; 3] 3 self = (false, self).
Proof.
  intros self.
  pose proof (null_port_rejects [1; 2; 3] [9; 9] 3 2 self eq_refl) as (Hs & _ & Hn).
  pose proof (null_port_rejects [1; 2; 3] [9; 9] 3 7 self eq_refl) as (_ & Hv & _).
  auto.
Defined.

(** Three of the four requested bytes arrive. *)
Lemma synchronize_fixed_read_witness :
  let r := PmxHardSerial.synchronize [1; 2; 3] 3 [0; 0; 0; 0; 0; 0] 4
             (scripted_serial [[10; 11; 12]]) in
  fst (fst r) = false /\ snd (fst r) = [10; 11; 12; 255; 0; 0] /\
  PmxHardSerial._isSynchronize (snd r) = false.
Proof.
  intros r.
  edestruct (synchronize_fixed_read (scripted_serial [[10; 11; 12]]) [1; 2; 3] 3)
    with (rxBuf := [0; 0; 0; 0; 0; 0]) (got := [10; 11; 12]) (rxLen := 4)
    as (Hflag & Hbuf & Hidle & _).
  - reflexivity.
  - reflexivity.
  - reflexivity.
  - lia.
  - cbn. lia.
  - reflexivity.
  - cbn. lia.
  - split; [exact Hflag | split; [exact Hbuf | exact Hidle]].
Defined.

Lemma variable_read_no_header_witness :
  let r := PmxHardSerial.synchronizeVariableRead [1; 2; 3] 3 [0; 0; 0; 0; 0; 0; 0; 0] 9
             (scripted_serial [[254; 254; 1]]) in
  fst r = (false, [0; 0; 0; 0; 0; 0; 0; 0], 0) /\
  PmxHardSerial._isSynchronize (snd r) = false.
Proof.
  intros r.
  edestruct (variable_read_no_header (scripted_serial [[254; 254; 1]]) [1; 2; 3] 3)
    with (rxBuf := [0; 0; 0; 0; 0; 0; 0; 0]) (got1 := [254; 254; 1]) (rxLen := 9)
    as (Hres & Hidle & _).
  - reflexivity.
  - reflexivity.
  - reflexivity.
  - reflexivity.
  - cbn. lia.
  - split; [exact Hres | exact Hidle].
Defined.

Lemma variable_read_short_body_witness :
  let r := PmxHardSerial.synchronizeVariableRead [1; 2; 3] 3 [0; 0; 0; 0; 0; 0; 0; 0] 9
             (scripted_serial [[254; 254; 1; 8; 36; 0]; [41]]) in
  fst r = (false, [0; 0; 0; 0; 0; 0; 0; 0], 6) /\
  PmxHardSerial._isSynchronize (snd r) = false.
Proof.
  intros r.
  edestruct (variable_read_short_body
               (scripted_serial [[254; 254; 1; 8; 36; 0]; [41]]) [1; 2; 3] 3)
    with (rxBuf := [0; 0; 0; 0; 0; 0; 0; 0]) (got1 := [254; 254; 1; 8; 36; 0])
         (got2 := [41]) (rxLen := 9)
    as (Hres & Hidle & _).
  - reflexivity.
  - reflexivity.
  - reflexivity.
  - reflexivity.
  - reflexivity.
  - reflexivity.
  - reflexivity.
  - split; [exact Hres | exact Hidle].
Defined.

(** A frame of eight bytes; a reply whose length byte is 0, followed by the
    250 bytes the second read then asks for; and a frame of thirteen bytes
    copied into an array of nine cells. *)
Lemma variable_read_frame_witness :
  let r := PmxHardSerial.synchronizeVariableRead [1; 2; 3] 3
             [0; 0; 0; 0; 0; 0; 0; 0; 7; 7] 9
             (scripted_serial [[254; 254; 1; 8; 36; 0]; [41; 2]]) in
  let r0 := PmxHardSerial.synchronizeVariableRead [1; 2; 3] 3
              [0; 0; 0; 0; 0; 0; 0; 0] 9
              (scripted_serial [[254; 254; 1; 0; 36; 0]; repeat 7 250]) in
  let r13 := PmxHardSerial.synchronizeVariableRead [1; 2; 3] 3
               [0; 0; 0; 0; 0; 0; 0; 0; 0] 0
               (scripted_serial [[254; 254; 1; 13; 36; 0]; [1; 254; 255; 16; 39; 99; 4]]) in
  (fst r = (true, [254; 254; 1; 8; 36; 0; 41; 2; 7; 7], 8) /\
   PmxHardSerial._isSynchronize (snd r) = false) /\
  (fst r0 = (true, [0; 0; 0; 0; 0; 0; 0; 0], 0) /\
   PmxHardSerial._isSynchronize (snd r0) = false) /\
  (fst r13 = (true, [254; 254; 1; 13; 36; 0; 1; 254; 255; 16; 39; 99; 4], 13) /\
   length (snd (fst (fst r13))) = 13%nat).
Proof.
  intros r r0 r13. split; [|split].
  - edestruct (variable_read_frame
                 (scripted_serial [[254; 254; 1; 8; 36; 0]; [41; 2]]) [1; 2; 3] 3)
      with (rxBuf := [0; 0; 0; 0; 0; 0; 0; 0; 7; 7]) (got1 := [254; 254; 1; 8; 36; 0])
           (got2 := [41; 2]) (rxLen := 9)
      as (Hres & _ & _ & _ & Hidle & _).
    + reflexivity.
    + reflexivity.
    + reflexivity.
    + reflexivity.
    + reflexivity.
    + cbn. lia.
    + reflexivity.
    + reflexivity.
    + cbn. lia.
    + split; [exact Hres | exact Hidle].
  - edestruct (variable_read_frame
                 (scripted_serial [[254; 254; 1; 0; 36; 0]; repeat 7 250]) [1; 2; 3] 3)
      with (rxBuf := [0; 0; 0; 0; 0; 0; 0; 0]) (got1 := [254; 254; 1; 0; 36; 0])
           (got2 := repeat 7 250) (rxLen := 9)
      as (Hres & _ & _ & _ & Hidle & _).
    + reflexivity.
    + reflexivity.
    + reflexivity.
    + reflexivity.
    + reflexivity.
    + cbn. lia.
    + reflexivity.
    + reflexivity.
    + cbn. lia.
    + split; [exact Hres | exact Hidle].
  - edestruct (variable_read_frame
                 (scripted_serial [[254; 254; 1; 13; 36; 0]; [1; 254; 255; 16; 39; 99; 4]])
                 [1; 2; 3] 3)
      with (rxBuf := [0; 0; 0; 0; 0; 0; 0; 0; 0]) (got1 := [254; 254; 1; 13; 36; 0])
           (got2 := [1; 254; 255; 16; 39; 99; 4]) (rxLen := 0)
      as (Hres & _ & _ & Hlen & _).
    + reflexivity.
    + reflexivity.
    + reflexivity.
    + reflexivity.
    + reflexivity.
    + cbn. lia.
    + reflexivity.
    + reflexivity.
    + cbn. lia.
    + split; [exact Hres | exact Hlen].
Defined.

(** ** The request on the wire *)

Section WireDiscipline.

Lemma scripted_drain (fifo : list Z) : forall (bursts : list (list Z)) (wire : list PortEvent),
  PmxHardSerial.drain (length fifo) (mkPort fifo bursts wire) =
  mkPort [] bursts (wire ++ repeat PRead (length fifo)).
Proof.
  induction fifo as [|x fifo IH]; intros bursts wire; cbn [length PmxHardSerial.drain repeat].
  - rewrite app_nil_r. reflexivity.
  - change (available (mkPort (x :: fifo) bursts wire))
      with (Z.of_nat (S (length fifo))).
    rewrite (proj2 (Z.gtb_gt (Z.of_nat (S (length fifo))) 0)) by lia.
    change (read (mkPort (x :: fifo) bursts wire))
      with (mkPort fifo bursts (wire ++ [PRead])).
    rewrite IH, <- app_assoc. reflexivity.
Qed.

(** The send phase on a transport that has a port, operation by operation. *)
Lemma synchronizeWrite_port {P : Type} `{HardwareSerial P} (txBuf : list Z) (txLen : Z)
    (port : P) (pin : Z) (sendBuff receiveBuff : list Z) (busy : bool) :
  PmxHardSerial.__synchronizeWrite txBuf txLen
    (PmxHardSerial.mk (Some port) pin sendBuff receiveBuff busy) =
  PmxHardSerial.mk
    (Some (digitalWrite pin false
             (PmxHardSerial.drain_all
                (flush (write (memcpy sendBuff txBuf txLen) txLen
                          (digitalWrite pin true (flush port)))))))
    pin (memcpy sendBuff txBuf txLen) receiveBuff busy.
Proof. reflexivity. Qed.

(** X6: on a port that records its operations, an accepted send-only
    exchange performs, in this order: flush, enable pin high, one write of
    exactly the first [txLen] bytes of the caller's frame, flush, one read per
    stale byte of the receive FIFO, enable pin low.  It returns true with the
    FIFO empty and the transport idle. *)
Theorem request_on_the_wire (txBuf : list Z) (txLen : Z) (stale : list Z)
    (script : list (list Z)) (log : list PortEvent) (pin : Z)
    (sendBuff receiveBuff : list Z) :
  0 <= txLen ->
  (Z.to_nat txLen <= length txBuf)%nat ->
  (Z.to_nat txLen <= length sendBuff)%nat ->
  PmxHardSerial.synchronizeNoRead txBuf txLen
    (PmxHardSerial.mk (Some (mkPort stale script log)) pin sendBuff receiveBuff false) =
  (true,
   PmxHardSerial.mk
     (Some (mkPort [] script
              (log ++ [PFlush; PDigitalWrite pin true;
                        PWrite (take (Z.to_nat txLen) txBuf); PFlush]
                    ++ repeat PRead (length stale) ++ [PDigitalWrite pin false])))
     pin (take (Z.to_nat txLen) txBuf ++ drop (Z.to_nat txLen) sendBuff)
     receiveBuff false).
Proof.
  intros Hlen Htx Hsb.
  rewrite synchronizeNoRead_eq.
  cbn [PmxHardSerial.pmxSerial PmxHardSerial._isSynchronize eqb].
  unfold PmxHardSerial.set_isSynchronize at 2.
  cbn [PmxHardSerial.pmxSerial PmxHardSerial._isSynchronize PmxHardSerial.g_enPin
       PmxHardSerial.sendBuff PmxHardSerial.receiveBuff].
  rewrite synchronizeWrite_port.
  unfold PmxHardSerial.set_isSynchronize.
  cbn [PmxHardSerial.pmxSerial PmxHardSerial._isSynchronize PmxHardSerial.g_enPin
       PmxHardSerial.sendBuff PmxHardSerial.receiveBuff].
  rewrite memcpy_take_drop by assumption.
  unfold PmxHardSerial.drain_all.
  cbn [flush write digitalWrite ScriptedPort_HardwareSerial fifo bursts wire].
  change (available (mkPort stale script ?w)) with (Z.of_nat (length stale)).
  rewrite Nat2Z.id, scripted_drain.
  rewrite take_app_length' by (rewrite length_take; lia).
  cbn [fifo bursts wire].
  do 3 f_equal. f_equal.
  rewrite <- !app_assoc. reflexivity.
Qed.

Lemma request_on_the_wire_witness :
  PmxHardSerial.synchronizeNoRead [254; 254; 1; 8; 165; 1; 171; 2; 0; 0] 8
    (PmxHardSerial.mk (Some (mkPort [7; 7] [] [])) 2 (repeat 0 256) (repeat 0 256) false) =
  (true,
   PmxHardSerial.mk
     (Some (mkPort [] []
              [PFlush; PDigitalWrite 2 true; PWrite [254; 254; 1; 8; 165; 1; 171; 2];
               PFlush; PRead; PRead; PDigitalWrite 2 false]))
     2 ([254; 254; 1; 8; 165; 1; 171; 2] ++ repeat 0 248) (repeat 0 256) false).
Proof.
  apply (request_on_the_wire [254; 254; 1; 8; 165; 1; 171; 2; 0; 0] 8 [7; 7] [] [] 2
           (repeat 0 256) (repeat 0 256)).
  - lia.
  - cbn. lia.
  - cbn. lia.
Defined.

End WireDiscipline.

(** ** Bytes of a scalar *)

Section ScalarBytes.

Lemma to_byte_small z : 0 <= z < 256 -> to_byte z = z.
Proof. intros Hz. apply Z.mod_small, Hz. Qed.

Lemma byte_of_arith z i : 0 <= i -> byte_of z i = (z / 2 ^ (8 * i)) mod 256.
Proof.
  intros Hi. unfold byte_of. change 255 with (Z.ones 8).
  rewrite Z.land_ones, Z.shiftr_div_pow2 by lia. reflexivity.
Qed.

Lemma to_byte_byte_of z i : to_byte (byte_of z i) = byte_of z i.
Proof. apply to_byte_small, byte_of_range. Qed.

Lemma low_byte_mask a : to_byte (Z.land a 0x00ff) = byte_of a 0.
Proof.
  unfold byte_of. rewrite Z.shiftr_0_r. apply to_byte_small.
  change 255 with (Z.ones 8). rewrite Z.land_ones by lia. apply Z.mod_pos_bound. lia.
Qed.

Lemma high_byte_mask a : to_byte (Z.shiftr (Z.land a 0xff00) 8) = byte_of a 1.
Proof.
  rewrite Z.shiftr_land. change (Z.shiftr 65280 8) with 255.
  change (Z.land (Z.shiftr a 8) 255) with (byte_of a 1).
  apply to_byte_byte_of.
Qed.

(** Adding a multiple of [2 ^ k] leaves the bytes below bit [k] alone. *)
Lemma byte_of_wrap16 z q i : 0 <= i < 2 -> byte_of (z + 65536 * q) i = byte_of z i.
Proof.
  intros Hi. assert (i = 0 \/ i = 1) as [-> | ->] by lia;
    rewrite !byte_of_arith by lia; cbn [Z.mul Z.pow Z.pow_pos Pos.iter Pos.mul];
    Z.div_mod_to_equations; lia.
Qed.

Lemma byte_of_wrap32 z q i : 0 <= i < 4 -> byte_of (z + 4294967296 * q) i = byte_of z i.
Proof.
  intros Hi. assert (i = 0 \/ i = 1 \/ i = 2 \/ i = 3) as [-> | [-> | [-> | ->]]] by lia;
    rewrite !byte_of_arith by lia; cbn [Z.mul Z.pow Z.pow_pos Pos.iter Pos.mul];
    Z.div_mod_to_equations; lia.
Qed.

Lemma to_uint16_wrap z : exists q, to_uint16 z = z + 65536 * q.
Proof.
  exists (- (z / 65536)). unfold to_uint16.
  pose proof (Z.div_mod z 65536 ltac:(lia)). lia.
Qed.

Lemma to_int16_wrap z : exists q, to_int16 z = z + 65536 * q.
Proof.
  exists (- ((z + 32768) / 65536)). unfold to_int16.
  pose proof (Z.div_mod (z + 32768) 65536 ltac:(lia)). lia.
Qed.

Lemma to_uint32_wrap z : exists q, to_uint32 z = z + 4294967296 * q.
Proof.
  exists (- (z / 4294967296)). unfold to_uint32.
  pose proof (Z.div_mod z 4294967296 ltac:(lia)). lia.
Qed.

Lemma to_int32_wrap z : exists q, to_int32 z = z + 4294967296 * q.
Proof.
  exists (- ((z + 2147483648) / 4294967296)). unfold to_int32.
  pose proof (Z.div_mod (z + 2147483648) 4294967296 ltac:(lia)). lia.
Qed.

Lemma byte_of_to_int16 z i : 0 <= i < 2 -> byte_of (to_int16 z) i = byte_of z i.
Proof. intros Hi. destruct (to_int16_wrap z) as [q ->]. apply byte_of_wrap16, Hi. Qed.

Lemma byte_of_to_uint16 z i : 0 <= i < 2 -> byte_of (to_uint16 z) i = byte_of z i.
Proof. intros Hi. destruct (to_uint16_wrap z) as [q ->]. apply byte_of_wrap16, Hi. Qed.

Lemma byte_of_to_int32 z i : 0 <= i < 4 -> byte_of (to_int32 z) i = byte_of z i.
Proof. intros Hi. destruct (to_int32_wrap z) as [q ->]. apply byte_of_wrap32, Hi. Qed.

Lemma byte_of_to_uint32 z i : 0 <= i < 4 -> byte_of (to_uint32 z) i = byte_of z i.
Proof. intros Hi. destruct (to_uint32_wrap z) as [q ->]. apply byte_of_wrap32, Hi. Qed.

(** What the four serializers store, in terms of the argument itself. *)
Lemma int16ToBytes_bytes v a b tl :
  DataConv.int16ToBytes v (a :: b :: tl) = byte_of v 0 :: byte_of v 1 :: tl.
Proof.
  unfold DataConv.int16ToBytes. cbn [insert list_insert].
  rewrite !byte_of_to_int16 by lia. reflexivity.
Qed.

Lemma uint16ToBytes_bytes v a b tl :
  DataConv.uint16ToBytes v (a :: b :: tl) = byte_of v 0 :: byte_of v 1 :: tl.
Proof.
  unfold DataConv.uint16ToBytes. cbn [insert list_insert].
  rewrite !byte_of_to_uint16 by lia. reflexivity.
Qed.

Lemma int32ToBytes_bytes v a b c d tl :
  DataConv.int32ToBytes v (a :: b :: c :: d :: tl) =
  byte_of v 0 :: byte_of v 1 :: byte_of v 2 :: byte_of v 3 :: tl.
Proof.
  unfold DataConv.int32ToBytes. cbn [insert list_insert].
  rewrite !byte_of_to_uint32, !byte_of_to_int32 by lia. reflexivity.
Qed.

Lemma uint32ToBytes_bytes v a b c d tl :
  DataConv.uint32ToBytes v (a :: b :: c :: d :: tl) =
  byte_of v 0 :: byte_of v 1 :: byte_of v 2 :: byte_of v 3 :: tl.
Proof.
  unfold DataConv.uint32ToBytes. cbn [insert list_insert].
  rewrite !byte_of_to_uint32 by lia. reflexivity.
Qed.

Lemma le32_sum b0 b1 b2 b3 :
  0 <= b0 < 256 -> 0 <= b1 < 256 -> 0 <= b2 < 256 -> 0 <= b3 < 256 ->
  Z.lor b0 (Z.lor (Z.shiftl b1 8) (Z.lor (Z.shiftl b2 16) (Z.shiftl b3 24)))
  = b0 + 256 * b1 + 65536 * b2 + 16777216 * b3.
Proof.
  intros H0 H1 H2 H3.
  replace (Z.shiftl b3 24) with (Z.shiftl (Z.shiftl (Z.shiftl b3 8) 8) 8)
    by (rewrite !Z.shiftl_shiftl by lia; reflexivity).
  replace (Z.shiftl b2 16) with (Z.shiftl (Z.shiftl b2 8) 8)
    by (rewrite !Z.shiftl_shiftl by lia; reflexivity).
  rewrite <- !Z.shiftl_lor.
  rewrite (lor_shiftl8 b2 b3) by lia.
  rewrite (lor_shiftl8 b1) by lia.
  rewrite (lor_shiftl8 b0) by lia.
  lia.
Qed.

(** X7: decoding two or four bytes and serializing the result gives the
    bytes back, at each width and signedness. *)
Theorem codec_bytes_roundtrip (a b c d : Z) (buf2 buf4 : list Z) :
  0 <= a < 256 -> 0 <= b < 256 -> 0 <= c < 256 -> 0 <= d < 256 ->
  length buf2 = 2%nat -> length buf4 = 4%nat ->
  DataConv.int16ToBytes (DataConv.bytesToInt16 [a; b]) buf2 = [a; b] /\
  DataConv.uint16ToBytes (DataConv.bytesToUint16 [a; b]) buf2 = [a; b] /\
  DataConv.int32ToBytes (DataConv.bytesToInt32 [a; b; c; d]) buf4 = [a; b; c; d] /\
  DataConv.uint32ToBytes (DataConv.bytesToUint32 [a; b; c; d]) buf4 = [a; b; c; d].
Proof.
  intros Ha Hb Hc Hd L2 L4.
  destruct buf2 as [|x0 [|x1 [|? ?]]]; try discriminate L2.
  destruct buf4 as [|y0 [|y1 [|y2 [|y3 [|? ?]]]]]; try discriminate L4.
  rewrite int16ToBytes_bytes, uint16ToBytes_bytes, int32ToBytes_bytes,
    uint32ToBytes_bytes.
  unfold DataConv.bytesToInt16, DataConv.bytesToUint16, DataConv.bytesToInt32,
    DataConv.bytesToUint32, DataConv.bytesToUlong.
  cbn [lookup_total list_lookup_total].
  rewrite lor_shiftl8, le32_sum by lia.
  rewrite !byte_of_to_int16, !byte_of_to_uint16, !byte_of_to_int32,
    !byte_of_to_uint32 by lia.
  rewrite !byte_of_arith by lia.
  cbn [Z.mul Z.pow Z.pow_pos Pos.iter Pos.mul].
  repeat split; repeat f_equal; Z.div_mod_to_equations; lia.
Qed.

Lemma codec_bytes_roundtrip_witness :
  DataConv.int16ToBytes (DataConv.bytesToInt16 [0xFE; 0xFF]) [0; 0] = [0xFE; 0xFF] /\
  DataConv.uint16ToBytes (DataConv.bytesToUint16 [0xFE; 0xFF]) [0; 0] = [0xFE; 0xFF] /\
  DataConv.int32ToBytes (DataConv.bytesToInt32 [0xFE; 0xFF; 0x10; 0x80]) [0; 0; 0; 0]
    = [0xFE; 0xFF; 0x10; 0x80] /\
  DataConv.uint32ToBytes (DataConv.bytesToUint32 [0xFE; 0xFF; 0x10; 0x80]) [0; 0; 0; 0]
    = [0xFE; 0xFF; 0x10; 0x80].
Proof.
  apply (codec_bytes_roundtrip 0xFE 0xFF 0x10 0x80 [0; 0] [0; 0; 0; 0]);
    first [lia | reflexivity].
Defined.

End ScalarBytes.

(** ** Register access over the transport *)

Section RegisterExchange.

Context {T : Type} `{Transport T}.
Variable crc : PmxCrc16.
Variable indeterminate : Z.

Ltac enter_exchange :=
  cbv [bind this_synchronize this_synchronizeVariableRead run_transport
       PmxCrc16_setCrc16 tell ret logOutputPrint println];
  cbn [transport trace].

Ltac validated Hok w :=
  match goal with
  | |- context [checkRecv crc ?rx ?c ?h ?w1] =>
      let Hv := fresh "Hv" in
      let errorFlag := fresh "errorFlag" in
      let w2 := fresh "w2" in
      pose proof (checkRecv_verdict_world crc rx c h w1 w) as Hv;
      destruct (checkRecv crc rx c h w1) as [errorFlag w2];
      cbn [fst] in Hv; rewrite Hok in Hv; subst errorFlag
  end.

Variables id addr readDataSize : Z.
Variable w : World T.
Variable rxFlag : bool.
Variable rxbuf : list Z.
Variable t' : T.

Hypothesis size_ok : 0 < readDataSize < 244.
Hypothesis exchange :
  synchronize
    (setCrc16 crc [254; 254; to_byte id; 11; 160; 0; byte_of addr 0; byte_of addr 1;
                   readDataSize; indeterminate; indeterminate]) 11
    (alloca indeterminate (8 + readDataSize)) (8 + readDataSize)
    (transport w) = ((rxFlag, rxbuf), t').

Lemma MemREAD_guard :
  (readDataSize =? 0) || (readDataSize >=? 244) = false.
Proof.
  destruct (Z.eqb_spec readDataSize 0); [lia|].
  destruct (Z.geb_spec readDataSize 244); [lia|reflexivity].
Qed.

Ltac enter_MemREAD :=
  unfold MemREAD; rewrite MemREAD_guard;
  rewrite low_byte_mask, high_byte_mask;
  enter_exchange;
  rewrite (to_byte_small readDataSize), (to_byte_small (8 + readDataSize)) by lia;
  match goal with
  | |- context [synchronize ?a ?b ?c ?d ?e] =>
      change (synchronize a b c d e)
        with (synchronize
                (setCrc16 crc [254; 254; to_byte id; 11; 160; 0; byte_of addr 0;
                               byte_of addr 1; readDataSize; indeterminate; indeterminate])
                11 (alloca indeterminate (8 + readDataSize)) (8 + readDataSize)
                (transport w))
  end;
  rewrite exchange.

(** X8: a validated reply to MemREAD is unpacked as follows: the status is
    byte 5 of the reply, and the first [readDataSize] cells of the caller's
    array receive bytes 6 .. 6 + readDataSize - 1 of the reply; the cells
    beyond are left as they were. *)
Theorem MemREAD_reply_layout (rxData : list Z) :
  rxFlag = true ->
  fst (checkRecv crc rxbuf PMX.SendCmd.MemREAD default_header w) = PMX.ComError.OK ->
  (Z.to_nat readDataSize <= length rxData)%nat ->
  (6 + Z.to_nat readDataSize <= length rxbuf)%nat ->
  fst (MemREAD crc indeterminate id addr readDataSize rxData w) =
    (load rxbuf 5,
     take (Z.to_nat readDataSize) (drop 6 rxbuf) ++ drop (Z.to_nat readDataSize) rxData).
Proof.
  intros Hflag Hok Hdst Hsrc. subst rxFlag.
  enter_MemREAD. cbn [eqb].
  validated Hok w.
  cbn [Z.eqb PMX.ComError.OK negb fst].
  f_equal.
  rewrite (for_loop_copy _ rxbuf 0 6 readDataSize rxData);
    [reflexivity | intros; reflexivity | lia | lia | lia | | ].
  - change (Z.to_nat 0) with 0%nat. lia.
  - change (Z.to_nat 6) with 6%nat. lia.
Qed.

(** X9: when no complete reply arrives, MemREAD answers TimeOut and
    overwrites the first [readDataSize] cells of the caller's array with
    0xFF; when a reply arrives but fails validation, the verdict is returned
    and the caller's array is untouched. *)
Theorem MemREAD_failure (rxData : list Z) :
  (Z.to_nat readDataSize <= length rxData)%nat ->
  (rxFlag = false ->
     fst (MemREAD crc indeterminate id addr readDataSize rxData w) =
       (PMX.ComError.TimeOut,
        repeat 0xFF (Z.to_nat readDataSize) ++ drop (Z.to_nat readDataSize) rxData)) /\
  (rxFlag = true ->
   fst (checkRecv crc rxbuf PMX.SendCmd.MemREAD default_header w) <> PMX.ComError.OK ->
     fst (MemREAD crc indeterminate id addr readDataSize rxData w) =
       (fst (checkRecv crc rxbuf PMX.SendCmd.MemREAD default_header w), rxData)).
Proof.
  intros Hdst. split.
  - intros Hflag. subst rxFlag. enter_MemREAD. cbn [eqb fst].
    f_equal. apply for_loop_fill; [intros; reflexivity | lia | exact Hdst].
  - intros Hflag Hbad. subst rxFlag. enter_MemREAD. cbn [eqb].
    match goal with
    | |- context [checkRecv crc rxbuf ?c ?h ?w1] =>
        rewrite (checkRecv_verdict_world crc rxbuf c h w w1) in *;
        destruct (checkRecv crc rxbuf c h w1) as [errorFlag w2]
    end.
    cbn [fst] in *.
    rewrite (proj2 (Z.eqb_neq _ _) Hbad). reflexivity.
Qed.

End RegisterExchange.

(** A validated, two-byte register read of device 1: the reply carries
    0x34 0x12. *)
Lemma MemREAD_reply_layout_witness :
  fst (MemREAD sumCrc16 0 1 0 2 [0; 0; 9]
         (scripted_world [[254; 254; 1; 10; 32; 0; 52; 18; 109; 2]])) = (0, [52; 18; 9]).
Proof.
  eapply (MemREAD_reply_layout sumCrc16 0 1 0 2
            (scripted_world [[254; 254; 1; 10; 32; 0; 52; 18; 109; 2]]) true
            [254; 254; 1; 10; 32; 0; 52; 18; 109; 2]).
  - lia.
  - vm_compute. reflexivity.
  - reflexivity.
  - reflexivity.
  - cbn. lia.
  - cbn. lia.
Defined.

(** Nothing answers, then a reply with a wrong header. *)
Lemma MemREAD_failure_witness :
  fst (MemREAD sumCrc16 0 1 0 2 [0; 0; 9] (scripted_world [])) =
    (PMX.ComError.TimeOut, [255; 255; 9]) /\
  fst (MemREAD sumCrc16 0 1 0 2 [0; 0; 9]
         (scripted_world [[253; 254; 1; 10; 32; 0; 52; 18; 108; 2]])) =
    (PMX.ComError.ReceiveError, [0; 0; 9]).
Proof.
  split.
  - refine (proj1 (MemREAD_failure sumCrc16 0 1 0 2 (scripted_world []) false
                     (repeat 255 10) _ _ _ [0; 0; 9] _) _);
      [lia | vm_compute; reflexivity | cbn; lia | reflexivity].
  - refine (proj2 (MemREAD_failure sumCrc16 0 1 0 2
                     (scripted_world [[253; 254; 1; 10; 32; 0; 52; 18; 108; 2]]) true
                     [253; 254; 1; 10; 32; 0; 52; 18; 108; 2] _ _ _ [0; 0; 9] _) _ _);
      [lia | vm_compute; reflexivity | cbn; lia | reflexivity | vm_compute; discriminate].
Defined.

(** ** Register writes *)

Section RegisterWrites.

Context {T : Type} `{Transport T}.
Variable crc : PmxCrc16.
Variable indeterminate : Z.

Lemma checkRecv_trace rxBuff cmd header (w : World T) :
  exists e,
    snd (checkRecv crc rxBuff cmd header w) = after w e /\ is_transport_event e = false.
Proof.
  unfold checkRecv.
  destruct (negb (load rxBuff 0 =? header) || negb (load rxBuff 1 =? header));
    [eexists; split; reflexivity|].
  destruct (negb (load rxBuff PMX.BuffPter.CMD =? Z.land cmd 0x7f));
    [eexists; split; reflexivity|].
  unfold PmxCrc16_checkCrc16, bind, tell, ret.
  destruct (eqb false (checkCrc16 crc rxBuff)); eexists; split; reflexivity.
Qed.

Lemma loads_bytes (data : list Z) (n : nat) :
  (n <= length data)%nat ->
  (fun j : nat => to_byte (load data (Z.of_nat j))) <$> seq 0 n = to_byte <$> take n data.
Proof.
  intros Hn.
  change (take n data) with (take n (drop (Z.to_nat 0) data)).
  rewrite <- (loads_take_drop data 0 n) by (change (Z.to_nat 0) with 0%nat; lia).
  rewrite <- list_fmap_compose. apply list_fmap_ext. intros; reflexivity.
Qed.

Lemma MemWRITE_txbuf id addr (txDataArray : list Z) txDataSize writeOpt :
  0 < txDataSize < 245 ->
  (Z.to_nat txDataSize <= length txDataArray)%nat ->
  for_loop txDataSize
    (fun i b => store b (8 + i) (to_byte (load txDataArray i)))
    (store (store (store (store (store (store (store (store
       (alloca indeterminate (PMX.MinimumLength.Send + 2 + txDataSize))
       0 (to_byte 0xFE)) 1 (to_byte 0xFE)) 2 (to_byte id))
       3 (to_byte (PMX.MinimumLength.Send + 2 + txDataSize))) 4 PMX.SendCmd.MemWRITE)
       5 (to_byte writeOpt)) 6 (to_byte (Z.land addr 0x00ff)))
       7 (to_byte (Z.shiftr (Z.land addr 0xff00) 8)))
  = [254; 254; to_byte id; 10 + txDataSize; 161; to_byte writeOpt;
     byte_of addr 0; byte_of addr 1]
    ++ (to_byte <$> take (Z.to_nat txDataSize) txDataArray)
    ++ [indeterminate; indeterminate].
Proof.
  intros Hsz Hlen.
  rewrite low_byte_mask, high_byte_mask.
  change (PMX.MinimumLength.Send + 2 + txDataSize) with (10 + txDataSize).
  rewrite (to_byte_small (10 + txDataSize)) by lia.
  unfold alloca.
  replace (Z.to_nat (10 + txDataSize)) with (10 + Z.to_nat txDataSize)%nat by lia.
  cbn [repeat Nat.add].
  unfold store.
  change (Z.to_nat 0) with 0%nat. change (Z.to_nat 1) with 1%nat.
  change (Z.to_nat 2) with 2%nat. change (Z.to_nat 3) with 3%nat.
  change (Z.to_nat 4) with 4%nat. change (Z.to_nat 5) with 5%nat.
  change (Z.to_nat 6) with 6%nat. change (Z.to_nat 7) with 7%nat.
  cbn [insert list_insert].
  rewrite (for_loop_store _ 8 (fun i => to_byte (load txDataArray i)) txDataSize);
    [ | intros; reflexivity | lia | lia | ].
  2:{ change (Z.to_nat 8) with 8%nat. cbn [length]. rewrite repeat_length. lia. }
  change (Z.to_nat 8) with 8%nat. cbn [take firstn Nat.add drop skipn app].
  rewrite loads_bytes by exact Hlen.
  change (to_byte 254) with 254. change PMX.SendCmd.MemWRITE with 161.
  do 9 f_equal.
  change (indeterminate :: indeterminate :: repeat indeterminate (Z.to_nat txDataSize))
    with (repeat indeterminate (2 + Z.to_nat txDataSize)).
  replace (2 + Z.to_nat txDataSize)%nat with (Z.to_nat txDataSize + 2)%nat by lia.
  rewrite repeat_app.
  rewrite drop_app_length' by (symmetry; apply repeat_length). reflexivity.
Qed.

(** X10: the request MemWRITE puts on the wire.  For 1 .. 244 data bytes the
    frame handed to the checksum service is header 0xFE 0xFE, device id,
    length 10 + n, command 0xA1, the write option, the address low byte then
    high byte, the n data bytes, and two cells left for the checksum; the
    checksummed frame is sent in one exchange that expects an eight-byte
    reply. *)
Theorem MemWRITE_request_frame id addr (txDataArray : list Z) txDataSize writeOpt
    (w : World T) :
  0 < txDataSize < 245 ->
  (Z.to_nat txDataSize <= length txDataArray)%nat ->
  sends_once crc w
    (snd (MemWRITE crc indeterminate id addr txDataArray txDataSize writeOpt w))
    ([254; 254; to_byte id; 10 + txDataSize; 161; to_byte writeOpt;
      byte_of addr 0; byte_of addr 1]
     ++ (to_byte <$> take (Z.to_nat txDataSize) txDataArray)
     ++ [indeterminate; indeterminate])
    (fun frame => EvSynchronize frame (10 + txDataSize) 8).
Proof.
  intros Hsz Hlen.
  set (frame :=
    [254; 254; to_byte id; 10 + txDataSize; 161; to_byte writeOpt;
     byte_of addr 0; byte_of addr 1]
    ++ (to_byte <$> take (Z.to_nat txDataSize) txDataArray)
    ++ [indeterminate; indeterminate]).
  unfold sends_once, MemWRITE.
  assert (Hguard : (txDataSize =? 0) || (txDataSize >=? 245) = false).
  { destruct (Z.eqb_spec txDataSize 0); [lia|].
    destruct (Z.geb_spec txDataSize 245); [lia|reflexivity]. }
  rewrite Hguard. cbv zeta.
  rewrite (MemWRITE_txbuf id addr txDataArray txDataSize writeOpt Hsz Hlen).
  fold frame.
  cbv [bind this_synchronize run_transport PmxCrc16_setCrc16 tell ret logOutputPrint].
  cbn [transport trace].
  change (PMX.MinimumLength.Send + 2 + txDataSize) with (10 + txDataSize).
  rewrite (to_byte_small (10 + txDataSize)) by lia.
  change (to_byte PMX.MinimumLength.Receive) with 8.
  destruct (synchronize _ _ _ _ _) as [[rxFlag rxbuf] t'].
  destruct rxFlag; cbn [eqb].
  - match goal with
    | |- context [checkRecv crc ?rx ?c ?h ?w1] =>
        destruct (checkRecv_trace rx c h w1) as (e & He & Hne);
        destruct (checkRecv crc rx c h w1) as [errorFlag w2]
    end.
    cbn [snd] in He. subst w2.
    destruct (negb (errorFlag =? PMX.ComError.OK)); cbn [snd after trace];
      rewrite <- !app_assoc; cbn [app]; eexists; (split; [reflexivity|]);
      repeat constructor; exact Hne.
  - cbn [snd after trace]. rewrite <- !app_assoc. cbn [app].
    eexists; split; [reflexivity|]. repeat constructor.
Qed.

Lemma bind_ret {A : Type} (c : M T A) (w : World T) :
  bind c (fun x => ret x) w = c w.
Proof. unfold bind, ret. destruct (c w). reflexivity. Qed.

(** X11: the 16- and 32-bit register writers hand MemWRITE the bytes of the
    value low byte first, and the signed and unsigned writers of a width
    send the same bytes: byte [i] is [(v / 2 ^ (8 i)) mod 256], whatever the
    sign or magnitude of [v]. *)
Theorem typed_write_layout id addr v writeOpt (w : World T) :
  let word := [byte_of v 0; byte_of v 1] in
  let dword := [byte_of v 0; byte_of v 1; byte_of v 2; byte_of v 3] in
  MemWRITEToInt16 crc indeterminate id addr v writeOpt w =
    MemWRITE crc indeterminate id addr word 2 writeOpt w /\
  MemWRITEToUint16 crc indeterminate id addr v writeOpt w =
    MemWRITE crc indeterminate id addr word 2 writeOpt w /\
  MemWRITEToInt32 crc indeterminate id addr v writeOpt w =
    MemWRITE crc indeterminate id addr dword 4 writeOpt w /\
  MemWRITEToUint32 crc indeterminate id addr v writeOpt w =
    MemWRITE crc indeterminate id addr dword 4 writeOpt w /\
  (forall i, 0 <= i -> byte_of v i = (v / 2 ^ (8 * i)) mod 256).
Proof.
  cbv zeta.
  unfold MemWRITEToInt16, MemWRITEToUint16, MemWRITEToInt32, MemWRITEToUint32.
  change (alloca indeterminate 2) with [indeterminate; indeterminate].
  change (alloca indeterminate 4)
    with [indeterminate; indeterminate; indeterminate; indeterminate].
  rewrite int16ToBytes_bytes, uint16ToBytes_bytes, int32ToBytes_bytes, uint32ToBytes_bytes.
  rewrite !bind_ret.
  repeat split. apply byte_of_arith.
Qed.

(** X12: the multi-field setters pack their fields in argument order, each
    low byte first: the position limits are three 16-bit fields written at
    address 96, the position gains three 32-bit fields written at address 0,
    and the preset number is repeated in four cells written at address 118. *)
Theorem multi_field_setters_layout id a b c writeOpt (w : World T) :
  setPositionLimit crc indeterminate id a b c writeOpt w =
    MemWRITE crc indeterminate id 96
      [byte_of a 0; byte_of a 1; byte_of b 0; byte_of b 1; byte_of c 0; byte_of c 1]
      6 writeOpt w /\
  setPositionGain crc indeterminate id a b c writeOpt w =
    MemWRITE crc indeterminate id 0
      [byte_of a 0; byte_of a 1; byte_of a 2; byte_of a 3;
       byte_of b 0; byte_of b 1; byte_of b 2; byte_of b 3;
       byte_of c 0; byte_of c 1; byte_of c 2; byte_of c 3]
      12 writeOpt w /\
  setAllPresetNum crc indeterminate id a writeOpt w =
    MemWRITE crc indeterminate id 118 [a; a; a; a] 4 writeOpt w.
Proof.
  split; [|split].
  - unfold setPositionLimit, at_offset.
    change (alloca indeterminate 6)
      with [indeterminate; indeterminate; indeterminate; indeterminate;
            indeterminate; indeterminate].
    rewrite int16ToBytes_bytes.
    change (Z.to_nat 2) with 2%nat. cbn [take firstn drop skipn app].
    rewrite int16ToBytes_bytes.
    change (Z.to_nat 4) with 4%nat. cbn [take firstn drop skipn app].
    rewrite uint16ToBytes_bytes. reflexivity.
  - unfold setPositionGain.
    change (alloca indeterminate 4)
      with [indeterminate; indeterminate; indeterminate; indeterminate].
    rewrite !uint32ToBytes_bytes.
    rewrite bind_ret. reflexivity.
  - unfold setAllPresetNum. rewrite bind_ret. reflexivity.
Qed.

End RegisterWrites.

(** Two bytes written to address 0x0123 of device 1. *)
Lemma MemWRITE_request_frame_witness :
  sends_once sumCrc16 (scripted_world [])
    (snd (MemWRITE sumCrc16 0 1 0x0123 [52; 18] 2 0 (scripted_world [])))
    [254; 254; 1; 12; 161; 0; 35; 1; 52; 18; 0; 0]
    (fun frame => EvSynchronize frame 12 8).
Proof.
  exact (MemWRITE_request_frame sumCrc16 0 1 0x0123 [52; 18] 2 0 (scripted_world [])
           ltac:(lia) ltac:(cbn; lia)).
Defined.

(** ** Proof steps shared by the exchange lemmas *)

Ltac sent :=
  rewrite ?Z.eqb_refl; cbn [snd after trace]; rewrite <- ?app_assoc; cbn [app];
  eexists; (split; [reflexivity|]); repeat constructor; assumption.

Ltac validation :=
  match goal with
  | |- context [checkRecv ?crc ?rx ?c ?h ?w1] =>
      let e := fresh "e" in
      let He := fresh "He" in
      let Hne := fresh "Hne" in
      let errorFlag := fresh "errorFlag" in
      let w2 := fresh "w2" in
      destruct (checkRecv_trace crc rx c h w1) as (e & He & Hne);
      destruct (checkRecv crc rx c h w1) as [errorFlag w2];
      cbn [snd] in He; subst w2;
      destruct (negb (errorFlag =? PMX.ComError.OK))
  end.

Ltac fixed_exchange :=
  cbv [bind this_synchronize run_transport PmxCrc16_setCrc16 tell ret logOutputPrint
       println];
  cbn [transport trace];
  match goal with
  | |- context [synchronize ?a ?b ?c ?d ?e] =>
      let rxFlag := fresh "rxFlag" in
      let rxbuf := fresh "rxbuf" in
      let t' := fresh "t'" in
      destruct (synchronize a b c d e) as [[rxFlag rxbuf] t'];
      destruct rxFlag; cbn [eqb]
  end;
  [validation; sent | sent].

Ltac loads :=
  repeat match goal with
  | |- context [load (?x :: ?l) ?i] =>
      let v := eval cbv [load lookup_total list_lookup_total Z.to_nat Pos.to_nat
                         Pos.iter_op Nat.add] in (load (x :: l) i) in
      change (load (x :: l) i) with v
  end.

(** ** Status classification *)

Section StatusClass.

Context {T : Type} `{Transport T}.
Variable crc : PmxCrc16.
Variable indeterminate : Z.

Lemma checkRecv_verdict_cases rxBuff cmd header (w : World T) :
  fst (checkRecv crc rxBuff cmd header w) = PMX.ComError.OK \/
  fst (checkRecv crc rxBuff cmd header w) = PMX.ComError.ReceiveError \/
  fst (checkRecv crc rxBuff cmd header w) = PMX.ComError.CrcError.
Proof.
  rewrite checkRecv_verdict.
  destruct (negb (load rxBuff 0 =? header) || negb (load rxBuff 1 =? header)); [auto|].
  destruct (negb (load rxBuff PMX.BuffPter.CMD =? Z.land cmd 0x7f)); [auto|].
  destruct (checkCrc16 crc rxBuff); auto.
Qed.

Lemma device_status_class status :
  0 <= status < 256 -> Z.land status PMX.ComError.ErrorMask = 0.
Proof.
  intros Hs. apply Z.bits_inj'. intros n Hn. rewrite Z.land_spec, Z.bits_0.
  destruct (Z.ltb_spec n 8).
  - replace (Z.testbit PMX.ComError.ErrorMask n) with false; [apply andb_false_r|].
    assert (n = 0 \/ n = 1 \/ n = 2 \/ n = 3 \/ n = 4 \/ n = 5 \/ n = 6 \/ n = 7)
      as [-> | [-> | [-> | [-> | [-> | [-> | [-> | ->]]]]]]] by lia; reflexivity.
  - rewrite (Z.bits_above_log2 status n); [reflexivity|lia|].
    destruct (Z.eq_dec status 0) as [->|Hnz]; [cbn; lia|].
    apply Z.log2_lt_pow2; [lia|].
    apply Z.lt_le_trans with (2 ^ 8); [change (2 ^ 8) with 256; lia|].
    apply Z.pow_le_mono_r; lia.
Qed.

(** X13: LOAD and SAVE send the eight-byte frame of their command (0xA2,
    0xA3) and classify the outcome: TimeOut when no complete reply arrives,
    the validation verdict when the reply is rejected, the device's status
    byte otherwise.  The error class of the result is zero exactly when a
    reply arrived and passed validation. *)
Theorem flash_command_status (save : bool) id (w : World T) rxFlag rxbuf t' :
  let cmd := if save then PMX.SendCmd.SAVE else PMX.SendCmd.LOAD in
  synchronize
    (setCrc16 crc [254; 254; to_byte id; 8; cmd; 0; indeterminate; indeterminate]) 8
    (alloca indeterminate 8) 8 (transport w) = ((rxFlag, rxbuf), t') ->
  0 <= load rxbuf PMX.BuffPter.Status < 256 ->
  let verdict := fst (checkRecv crc rxbuf cmd default_header w) in
  let status :=
    fst ((if save then SAVE crc indeterminate id else LOAD crc indeterminate id) w) in
  status =
    (if rxFlag
     then if verdict =? PMX.ComError.OK then load rxbuf PMX.BuffPter.Status else verdict
     else PMX.ComError.TimeOut) /\
  (Z.land status PMX.ComError.ErrorMask = 0 <-> rxFlag = true /\ verdict = PMX.ComError.OK).
Proof.
  intros cmd Hresp Hst verdict status.
  assert (Hstatus :
    status =
      if rxFlag
      then if verdict =? PMX.ComError.OK then load rxbuf PMX.BuffPter.Status else verdict
      else PMX.ComError.TimeOut).
  { subst status verdict cmd. destruct save.
    - unfold SAVE.
      cbv [bind this_synchronize run_transport PmxCrc16_setCrc16 tell ret logOutputPrint
           println].
      cbn [transport trace].
      match goal with
      | |- context [synchronize ?a ?b ?c ?d ?e] =>
          change (synchronize a b c d e)
            with (synchronize
                    (setCrc16 crc [254; 254; to_byte id; 8; PMX.SendCmd.SAVE; 0;
                                   indeterminate; indeterminate])
                    8 (alloca indeterminate 8) 8 (transport w))
      end.
      rewrite Hresp. destruct rxFlag; cbn [eqb]; [|reflexivity].
      match goal with
      | |- context [checkRecv crc rxbuf ?c ?h ?w1] =>
          rewrite (checkRecv_verdict_world crc rxbuf c h w w1);
          destruct (checkRecv crc rxbuf c h w1) as [errorFlag w2]
      end.
      cbn [fst]. destruct (errorFlag =? PMX.ComError.OK); reflexivity.
    - unfold LOAD.
      cbv [bind this_synchronize run_transport PmxCrc16_setCrc16 tell ret logOutputPrint
           println].
      cbn [transport trace].
      match goal with
      | |- context [synchronize ?a ?b ?c ?d ?e] =>
          change (synchronize a b c d e)
            with (synchronize
                    (setCrc16 crc [254; 254; to_byte id; 8; PMX.SendCmd.LOAD; 0;
                                   indeterminate; indeterminate])
                    8 (alloca indeterminate 8) 8 (transport w))
      end.
      rewrite Hresp. destruct rxFlag; cbn [eqb]; [|reflexivity].
      match goal with
      | |- context [checkRecv crc rxbuf ?c ?h ?w1] =>
          rewrite (checkRecv_verdict_world crc rxbuf c h w w1);
          destruct (checkRecv crc rxbuf c h w1) as [errorFlag w2]
      end.
      cbn [fst]. destruct (errorFlag =? PMX.ComError.OK); reflexivity. }
  split; [exact Hstatus|].
  rewrite Hstatus. clear Hstatus status.
  destruct rxFlag.
  - destruct (checkRecv_verdict_cases rxbuf cmd default_header w) as [E | [E | E]];
      fold verdict in E; rewrite E.
    + cbn [Z.eqb PMX.ComError.OK]. rewrite device_status_class by exact Hst. tauto.
    + split; [vm_compute; discriminate | intros [_ Hv]; discriminate Hv].
    + split; [vm_compute; discriminate | intros [_ Hv]; discriminate Hv].
  - split; [vm_compute; discriminate | intros [Hf _]; discriminate Hf].
Qed.

End StatusClass.

(** SAVE on device 1, acknowledged with status 0. *)
Lemma flash_command_status_witness :
  fst (SAVE sumCrc16 0 1 (scripted_world [[254; 254; 1; 8; 35; 0; 40; 2]])) = 0 /\
  (Z.land (fst (SAVE sumCrc16 0 1 (scripted_world [[254; 254; 1; 8; 35; 0; 40; 2]])))
     PMX.ComError.ErrorMask = 0 <->
   true = true /\
   fst (checkRecv sumCrc16 [254; 254; 1; 8; 35; 0; 40; 2] PMX.SendCmd.SAVE default_header
          (scripted_world [[254; 254; 1; 8; 35; 0; 40; 2]])) = PMX.ComError.OK).
Proof.
  refine (flash_command_status sumCrc16 0 true 1
            (scripted_world [[254; 254; 1; 8; 35; 0; 40; 2]]) true
            [254; 254; 1; 8; 35; 0; 40; 2] _ _ _).
  - vm_compute. reflexivity.
  - vm_compute. split; [discriminate | reflexivity].
Defined.

(** ** Motion commands over the transport *)

Section MotionExchange.

Context {T : Type} `{Transport T}.
Variable crc : PmxCrc16.
Variable indeterminate : Z.

Lemma popcount_le k m : popcount k m <= Z.of_nat k.
Proof.
  induction k as [|k IH]; [reflexivity|].
  rewrite popcount_step. destruct (Z.testbit m (Z.of_nat k)); cbn [Z.b2z]; lia.
Qed.

Lemma popcount_nonneg k m : 0 <= popcount k m.
Proof. apply (popcount_mono 0 k m). lia. Qed.

Lemma decoded_upto_all receiveMode controlMode receiveBytes decoded count :
  decoded_upto receiveMode controlMode receiveBytes 8 (decoded, count) ->
  decoded = map (canonical_field receiveMode controlMode receiveBytes) (seq 0 8).
Proof.
  intros (L & _ & Hslots). cbn [fst snd] in *.
  destruct decoded as [|d0 [|d1 [|d2 [|d3 [|d4 [|d5 [|d6 [|d7 [|? ?]]]]]]]]];
    try discriminate L.
  pose proof (Hslots 0%nat ltac:(lia)) as S0. pose proof (Hslots 1%nat ltac:(lia)) as S1.
  pose proof (Hslots 2%nat ltac:(lia)) as S2. pose proof (Hslots 3%nat ltac:(lia)) as S3.
  pose proof (Hslots 4%nat ltac:(lia)) as S4. pose proof (Hslots 5%nat ltac:(lia)) as S5.
  pose proof (Hslots 6%nat ltac:(lia)) as S6. pose proof (Hslots 7%nat ltac:(lia)) as S7.
  cbn [lookup_total list_lookup_total Nat.ltb Nat.leb] in S0, S1, S2, S3, S4, S5, S6, S7.
  cbn [map seq]. congruence.
Qed.

(** X14: a payload whose size differs from 2 x popcount(mask) is not
    decoded at all: the decoder reports failure and every slot of the sample
    holds the sentinel, whatever the payload and the sample held. *)
Theorem convReceiveMotorData_size_mismatch receiveMode receiveBytes receiveBytesSize
    motorData controlMode :
  0 <= receiveMode < 256 ->
  length motorData = 8%nat ->
  receiveBytesSize <> 2 * popcount 8 receiveMode ->
  __convReceiveMotorData receiveMode receiveBytes receiveBytesSize motorData controlMode
  = (false, repeat 0x7FFFFFFF 8).
Proof.
  intros Hmode Hlen Hsize. unfold __convReceiveMotorData.
  rewrite sentinel_fill by exact Hlen.
  rewrite (byteCounter_value receiveMode Hmode).
  rewrite (proj2 (Z.eqb_neq _ _) Hsize). reflexivity.
Qed.

Section MotorREADExchange.

Variables id receiveMode controlMode : Z.
Variable readMotorData : list Z.
Variable torqueSw : option Z.
Variable w : World T.
Variable rxFlag : bool.
Variable rxbuf : list Z.
Variable rxNowSize : Z.
Variable t' : T.

Hypothesis mode_byte : 0 <= receiveMode < 256.
Hypothesis sample_size : length readMotorData = 8%nat.
Hypothesis exchange :
  synchronizeVariableRead
    (setCrc16 crc [254; 254; to_byte id; 8; 164; 0; indeterminate; indeterminate]) 8
    (alloca indeterminate (8 + 1 + 2 * popcount 8 receiveMode)) indeterminate
    (transport w) = ((rxFlag, rxbuf, rxNowSize), t').

Ltac enter_MotorREAD :=
  unfold MotorREAD;
  rewrite (byteCounter_value receiveMode mode_byte);
  rewrite sentinel_fill by exact sample_size;
  cbv [bind this_synchronizeVariableRead run_transport PmxCrc16_setCrc16 tell ret
       logOutputPrint];
  cbn [transport trace];
  match goal with
  | |- context [synchronizeVariableRead ?a ?b ?c ?d ?e] =>
      change (synchronizeVariableRead a b c d e)
        with (synchronizeVariableRead
                (setCrc16 crc [254; 254; to_byte id; 8; 164; 0; indeterminate; indeterminate])
                8 (alloca indeterminate (8 + 1 + 2 * popcount 8 receiveMode))
                indeterminate (transport w))
  end;
  rewrite exchange.

(** X15: a validated reply to MotorREAD of the expected size is unpacked
    as follows: the status is byte 5, the torque switch (when asked for) is
    byte 6, and the sample is the canonical decoding of the 2 x popcount(mask)
    payload bytes that start at byte 7. *)
Theorem MotorREAD_reply_layout :
  rxFlag = true ->
  rxNowSize = 8 + 1 + 2 * popcount 8 receiveMode ->
  fst (checkRecv crc rxbuf PMX.SendCmd.MotorREAD default_header w) = PMX.ComError.OK ->
  Forall (fun b => 0 <= b < 256) rxbuf ->
  (Z.to_nat rxNowSize <= length rxbuf)%nat ->
  let payload := take (Z.to_nat (2 * popcount 8 receiveMode)) (drop 7 rxbuf) in
  fst (MotorREAD crc indeterminate id receiveMode readMotorData controlMode torqueSw w) =
    (load rxbuf 5,
     map (canonical_field receiveMode controlMode payload) (seq 0 8),
     match torqueSw with Some _ => Some (load rxbuf 6) | None => None end).
Proof.
  intros Hflag Hsize Hok Hbytes Hlen payload. subst rxFlag.
  pose proof (popcount_nonneg 8 receiveMode) as Hp0.
  pose proof (popcount_le 8 receiveMode) as Hp8.
  enter_MotorREAD. cbn [eqb].
  match goal with
  | |- context [checkRecv crc rxbuf ?c ?h ?w1] =>
      pose proof (checkRecv_verdict_world crc rxbuf c h w1 w) as Hv;
      destruct (checkRecv crc rxbuf c h w1) as [errorFlag w2]
  end.
  cbn [fst] in Hv. rewrite Hok in Hv. subst errorFlag.
  cbn [Z.eqb PMX.ComError.OK negb].
  change (PMX.MinimumLength.Receive + 1 + 2 * popcount 8 receiveMode)
    with (8 + 1 + 2 * popcount 8 receiveMode).
  rewrite <- Hsize, Z.eqb_refl. cbn [negb].
  rewrite (for_loop_copy _ rxbuf 0 7 (2 * popcount 8 receiveMode)
             (alloca indeterminate (2 * popcount 8 receiveMode)));
    [ | intros; reflexivity | lia | lia | lia | | ].
  2:{ unfold alloca. rewrite repeat_length. change (Z.to_nat 0) with 0%nat. lia. }
  2:{ change (Z.to_nat 7) with 7%nat. lia. }
  change (Z.to_nat 0) with 0%nat. change (Z.to_nat 7) with 7%nat.
  rewrite take_0. cbn [Nat.add app]. fold payload.
  assert (Hpl : length payload = Z.to_nat (2 * popcount 8 receiveMode)).
  { subst payload. rewrite length_take, length_drop. lia. }
  replace (drop (Z.to_nat (2 * popcount 8 receiveMode))
             (alloca indeterminate (2 * popcount 8 receiveMode))) with (@nil Z).
  2:{ symmetry. apply drop_ge. unfold alloca. rewrite repeat_length. lia. }
  rewrite app_nil_r.
  rewrite (to_byte_small (2 * popcount 8 receiveMode)) by lia.
  assert (Hsz : Z.of_nat (length payload) = 2 * popcount 8 receiveMode) by lia.
  assert (Hpb : Forall (fun b => 0 <= b < 256) payload).
  { subst payload. apply Forall_take, Forall_drop, Hbytes. }
  destruct (convReceiveMotorData_decoded payload Hpb receiveMode controlMode Hsz
              (repeat 0x7FFFFFFF 8) mode_byte eq_refl) as (decoded & Hconv & Hdec).
  match goal with
  | |- context [__convReceiveMotorData ?m ?p ?s ?d ?c] =>
      replace (__convReceiveMotorData m p s d c)
        with (__convReceiveMotorData m p (Z.of_nat (length p)) d c)
        by (f_equal; exact Hsz)
  end.
  rewrite Hconv. cbn [eqb fst].
  rewrite (decoded_upto_all _ _ _ _ _ Hdec).
  f_equal.
  destruct torqueSw; [|reflexivity].
  destruct (Z.geb_spec rxNowSize PMX.MinimumLength.Receive) as [_|Hlt]; [reflexivity|].
  change PMX.MinimumLength.Receive with 8 in Hlt. lia.
Qed.

(** X16: when no complete reply arrives, or the reply fails validation,
    MotorREAD returns TimeOut or the validation verdict; every slot of the
    sample holds the sentinel 0x7FFFFFFF and the torque switch (when asked
    for) reads 0xFF. *)
Theorem MotorREAD_failure :
  rxFlag = false \/
  fst (checkRecv crc rxbuf PMX.SendCmd.MotorREAD default_header w) <> PMX.ComError.OK ->
  fst (MotorREAD crc indeterminate id receiveMode readMotorData controlMode torqueSw w) =
    (if rxFlag
     then fst (checkRecv crc rxbuf PMX.SendCmd.MotorREAD default_header w)
     else PMX.ComError.TimeOut,
     repeat 0x7FFFFFFF 8,
     match torqueSw with Some _ => Some 0xFF | None => None end).
Proof.
  intros Hfail. enter_MotorREAD.
  destruct rxFlag; cbn [eqb]; [|reflexivity].
  destruct Hfail as [Hf | Hbad]; [discriminate Hf|].
  match goal with
  | |- context [checkRecv crc rxbuf ?c ?h ?w1] =>
      rewrite (checkRecv_verdict_world crc rxbuf c h w w1) in *;
      destruct (checkRecv crc rxbuf c h w1) as [errorFlag w2]
  end.
  cbn [fst] in *. rewrite (proj2 (Z.eqb_neq _ _) Hbad). reflexivity.
Qed.

End MotorREADExchange.

End MotionExchange.

(** Two fields requested, three payload bytes announced. *)
Lemma convReceiveMotorData_size_mismatch_witness :
  __convReceiveMotorData 0x82 [0xFE; 0xFF; 0x10] 3 (repeat 0 8) 0x02
  = (false, repeat 0x7FFFFFFF 8).
Proof.
  apply convReceiveMotorData_size_mismatch; [lia | reflexivity | vm_compute; discriminate].
Defined.

(** Speed and voltage requested from device 1 together with the torque
    switch; the reply carries switch 1, speed -2 and voltage 10000. *)
Lemma MotorREAD_reply_layout_witness :
  fst (MotorREAD sumCrc16 0 1 0x82 (repeat 0 8) 0x02 (Some 0)
         (scripted_world [[254; 254; 1; 13; 36; 0]; [1; 254; 255; 16; 39; 99; 4]])) =
    (0,
     [0x7FFFFFFF; -2; 0x7FFFFFFF; 0x7FFFFFFF; 0x7FFFFFFF; 0x7FFFFFFF; 0x7FFFFFFF; 10000],
     Some 1).
Proof.
  refine (MotorREAD_reply_layout sumCrc16 0 1 0x82 0x02 (repeat 0 8) (Some 0)
            (scripted_world [[254; 254; 1; 13; 36; 0]; [1; 254; 255; 16; 39; 99; 4]])
            true [254; 254; 1; 13; 36; 0; 1; 254; 255; 16; 39; 99; 4] 13 _
            _ _ _ _ _ _ _ _).
  - lia.
  - reflexivity.
  - vm_compute. reflexivity.
  - reflexivity.
  - reflexivity.
  - reflexivity.
  - repeat (constructor; [lia|]). constructor.
  - cbn. lia.
Defined.

(** Nothing answers device 1. *)
Lemma MotorREAD_failure_witness :
  fst (MotorREAD sumCrc16 0 1 0x82 (repeat 0 8) 0x02 (Some 0) (scripted_world [])) =
    (PMX.ComError.TimeOut, repeat 0x7FFFFFFF 8, Some 0xFF).
Proof.
  refine (MotorREAD_failure sumCrc16 0 1 0x82 0x02 (repeat 0 8) (Some 0)
            (scripted_world []) false _ _ _ _ _ _ _).
  - lia.
  - reflexivity.
  - vm_compute. reflexivity.
  - left. reflexivity.
Defined.

(** ** Request frames *)

Section RequestFrames.

Context {T : Type} `{Transport T}.
Variable crc : PmxCrc16.
Variable indeterminate : Z.

Lemma MotorWRITE_switch_frame id sw (w : World T) :
  sw = 0x01 \/ sw = 0x02 \/ sw = 0x04 \/ sw = 0x08 ->
  sends_once crc w (snd (MotorWRITE_switch crc indeterminate id sw w))
    [254; 254; to_byte id; 8; 165; sw; indeterminate; indeterminate]
    (fun frame => EvSynchronizeVariableRead frame 8).
Proof.
  intros Hsw. unfold sends_once, MotorWRITE_switch, MotorWRITE.
  assert (Hguard :
    negb ((sw =? PMX.TorqueSwitchType.TorqueOn) || (sw =? PMX.TorqueSwitchType.Free) ||
          (sw =? PMX.TorqueSwitchType.Brake) || (sw =? PMX.TorqueSwitchType.Hold)) = false).
  { destruct Hsw as [-> | [-> | [-> | ->]]]; reflexivity. }
  rewrite Hguard.
  assert (Hb : to_byte sw = sw).
  { destruct Hsw as [-> | [-> | [-> | ->]]]; reflexivity. }
  rewrite Hb.
  cbv [bind this_synchronizeVariableRead run_transport PmxCrc16_setCrc16 tell ret
       logOutputPrint].
  cbn [transport trace].
  match goal with
  | |- context [synchronizeVariableRead ?a ?b ?c ?d ?e] =>
      destruct (synchronizeVariableRead a b c d e) as [[[rxFlag rxbuf] rxNowSize] t']
  end.
  destruct rxFlag; cbn [eqb]; [|sent].
  validation; sent.
Qed.

(** X17: each of setMotorTorqueOn, setMotorFree, setMotorBrake and
    setMotorHold makes exactly one transport call, a variable-length
    exchange of the eight-byte MotorWRITE frame (command 0xA5) whose option
    byte is 0x01, 0x02, 0x04 and 0x08 respectively. *)
Theorem torque_switch_requests id (w : World T) :
  let frame sw := [254; 254; to_byte id; 8; 165; sw; indeterminate; indeterminate] in
  let call frame := EvSynchronizeVariableRead frame 8 in
  sends_once crc w (snd (setMotorTorqueOn crc indeterminate id w)) (frame 0x01) call /\
  sends_once crc w (snd (setMotorFree crc indeterminate id w)) (frame 0x02) call /\
  sends_once crc w (snd (setMotorBrake crc indeterminate id w)) (frame 0x04) call /\
  sends_once crc w (snd (setMotorHold crc indeterminate id w)) (frame 0x08) call.
Proof.
  cbv zeta. repeat split; apply MotorWRITE_switch_frame; auto.
Qed.

Lemma word_cells v :
  (if v <? 0
   then DataConv.int16ToBytes (to_int16 v) (alloca indeterminate 2)
   else DataConv.uint16ToBytes (to_int16 v) (alloca indeterminate 2))
  = [byte_of v 0; byte_of v 1].
Proof.
  change (alloca indeterminate 2) with [indeterminate; indeterminate].
  rewrite int16ToBytes_bytes, uint16ToBytes_bytes, !byte_of_to_int16 by lia.
  destruct (v <? 0); reflexivity.
Qed.

Ltac target_frame :=
  unfold sends_once, MotorWRITETriple, MotorWRITEDouble, MotorWRITESingle,
    MotorWRITE_target_noreturn, MotorWRITE_target;
  unfold for_loop;
  change (Z.to_nat 1) with 1%nat; change (Z.to_nat 2) with 2%nat;
  change (Z.to_nat 3) with 3%nat;
  cbn [for_loop_from];
  loads;
  rewrite ?word_cells;
  cbv [bind this_synchronizeVariableRead run_transport PmxCrc16_setCrc16 tell ret
       logOutputPrint];
  cbn [transport trace];
  match goal with
  | |- context [synchronizeVariableRead ?a ?b ?c ?d ?e] =>
      let rxFlag := fresh "rxFlag" in
      let rxbuf := fresh "rxbuf" in
      let rxNowSize := fresh "rxNowSize" in
      let t' := fresh "t'" in
      destruct (synchronizeVariableRead a b c d e) as [[[rxFlag rxbuf] rxNowSize] t'];
      destruct rxFlag; cbn [eqb]
  end;
  [validation; sent | sent].

(** X18: the target-value commands send one MotorWRITE frame with option
    0 and one 16-bit word per target, low byte first; the word is the low 16
    bits of the target, whichever of the two serializers the sign selects. *)
Theorem target_value_requests id v1 v2 v3 (w : World T) :
  let call n frame := EvSynchronizeVariableRead frame n in
  sends_once crc w (snd (MotorWRITESingle crc indeterminate id v1 w))
    [254; 254; to_byte id; 10; 165; 0; byte_of v1 0; byte_of v1 1;
     indeterminate; indeterminate] (call 10) /\
  sends_once crc w (snd (MotorWRITEDouble crc indeterminate id v1 v2 w))
    [254; 254; to_byte id; 12; 165; 0; byte_of v1 0; byte_of v1 1;
     byte_of v2 0; byte_of v2 1; indeterminate; indeterminate] (call 12) /\
  sends_once crc w (snd (MotorWRITETriple crc indeterminate id v1 v2 v3 w))
    [254; 254; to_byte id; 14; 165; 0; byte_of v1 0; byte_of v1 1;
     byte_of v2 0; byte_of v2 1; byte_of v3 0; byte_of v3 1;
     indeterminate; indeterminate] (call 14) /\
  sends_once crc w (snd (setPosition crc indeterminate id v1 w))
    [254; 254; to_byte id; 10; 165; 0; byte_of v1 0; byte_of v1 1;
     indeterminate; indeterminate] (call 10).
Proof.
  cbv zeta. split; [|split; [|split]].
  - target_frame.
  - target_frame.
  - target_frame.
  - replace (byte_of v1 0) with (byte_of (to_int32 (to_int16 v1)) 0)
      by (rewrite byte_of_to_int32, byte_of_to_int16 by lia; reflexivity).
    replace (byte_of v1 1) with (byte_of (to_int32 (to_int16 v1)) 1)
      by (rewrite byte_of_to_int32, byte_of_to_int16 by lia; reflexivity).
    unfold setPosition. generalize (to_int32 (to_int16 v1)). intros v. target_frame.
Qed.

(** X19: ReBoot sends the ten-byte frame of command 0xBD with the reset
    delay as a 16-bit word, low byte first (bits above 15 of the delay are
    dropped); FactoryReset sends the twelve-byte frame of command 0xBE with
    the four serial-number bytes in array order.  Each makes one fixed-length
    exchange that expects an eight-byte reply. *)
Theorem reset_requests id resetTime s0 s1 s2 s3 (w : World T) :
  sends_once crc w (snd (ReBoot crc indeterminate id resetTime w))
    [254; 254; to_byte id; 10; 189; 0; byte_of resetTime 0; byte_of resetTime 1;
     indeterminate; indeterminate]
    (fun frame => EvSynchronize frame 10 8) /\
  sends_once crc w (snd (FactoryReset crc indeterminate id [s0; s1; s2; s3] w))
    [254; 254; to_byte id; 12; 190; 0; to_byte s0; to_byte s1; to_byte s2; to_byte s3;
     indeterminate; indeterminate]
    (fun frame => EvSynchronize frame 12 8).
Proof.
  split.
  - unfold sends_once, ReBoot. rewrite low_byte_mask, high_byte_mask. fixed_exchange.
  - unfold sends_once, FactoryReset. fixed_exchange.
Qed.

End RequestFrames.

(** ** System commands *)

Section SystemCommands.

Context {T : Type} `{Transport T}.
Variable crc : PmxCrc16.
Variable indeterminate : Z.

Ltac reader :=
  intros w;
  unfold getSerialNumber, getSerialNumber_bytes, getModelNum, getVersion,
    getResponseTime, bind;
  destruct (SystemREAD crc indeterminate _ _ w) as [[status sysData] w'];
  destruct (Z.eqb_spec (Z.land status PMX.ComError.ErrorMask) PMX.ComError.OK) as [E|N];
  cbn [negb fst snd ret]; intros Herr; [contradiction | reflexivity].

Lemma getSerialNumber_bytes_sentinel id a b c d : forall w : World T,
  let r := fst (getSerialNumber_bytes crc indeterminate id [a; b; c; d] w) in
  Z.land (fst r) PMX.ComError.ErrorMask <> 0 -> snd r = [0xFF; 0xFF; 0xFF; 0x7F].
Proof. reader. Qed.

Lemma getSerialNumber_sentinel id : forall w : World T,
  let r := fst (getSerialNumber crc indeterminate id w) in
  Z.land (fst r) PMX.ComError.ErrorMask <> 0 -> snd r = 0x7FFFFFFF.
Proof. reader. Qed.

Lemma getModelNum_sentinel id : forall w : World T,
  let r := fst (getModelNum crc indeterminate id w) in
  Z.land (fst (fst r)) PMX.ComError.ErrorMask <> 0 ->
  snd (fst r) = 0x7FFF /\ snd r = 0x7FFF.
Proof.
  intros w. unfold getModelNum, bind.
  destruct (SystemREAD crc indeterminate _ _ w) as [[status sysData] w'].
  destruct (Z.eqb_spec (Z.land status PMX.ComError.ErrorMask) PMX.ComError.OK) as [E|N];
    cbn [negb fst snd ret]; intros Herr; [contradiction | split; reflexivity].
Qed.

Lemma getVersion_sentinel id a b c d : forall w : World T,
  let r := fst (getVersion crc indeterminate id [a; b; c; d] w) in
  Z.land (fst r) PMX.ComError.ErrorMask <> 0 -> snd r = [0xFF; 0xFF; 0xFF; 0xFF].
Proof. reader. Qed.

Lemma getResponseTime_sentinel id : forall w : World T,
  let r := fst (getResponseTime crc indeterminate id w) in
  Z.land (fst r) PMX.ComError.ErrorMask <> 0 -> snd r = 0xFF.
Proof. reader. Qed.

(** X20: whenever the composite status of a system-information reader
    carries an error class, its output holds the sentinel of its width: the
    serial number reads 0x7FFFFFFF (bytes FF FF FF 7F), model and series
    numbers read 0x7FFF, the version bytes and the response time read 0xFF. *)
Theorem system_reader_sentinels id a b c d (w : World T) :
  let failed status := Z.land status PMX.ComError.ErrorMask <> 0 in
  let serialBytes := fst (getSerialNumber_bytes crc indeterminate id [a; b; c; d] w) in
  let serial := fst (getSerialNumber crc indeterminate id w) in
  let model := fst (getModelNum crc indeterminate id w) in
  let version := fst (getVersion crc indeterminate id [a; b; c; d] w) in
  let response := fst (getResponseTime crc indeterminate id w) in
  (failed (fst serialBytes) -> snd serialBytes = [0xFF; 0xFF; 0xFF; 0x7F]) /\
  (failed (fst serial) -> snd serial = PMX.ErrorUint32Data) /\
  (failed (fst (fst model)) ->
     snd (fst model) = PMX.ErrorUint16Data /\ snd model = PMX.ErrorUint16Data) /\
  (failed (fst version) -> snd version = [0xFF; 0xFF; 0xFF; 0xFF]) /\
  (failed (fst response) -> snd response = PMX.ErrorByteData).
Proof.
  cbv zeta. split; [|split; [|split; [|split]]].
  - apply getSerialNumber_bytes_sentinel.
  - apply getSerialNumber_sentinel.
  - apply getModelNum_sentinel.
  - apply getVersion_sentinel.
  - apply getResponseTime_sentinel.
Qed.

(** X21: the setters of the communication parameters check their byte
    argument before anything is sent: a new id above 239, a baud-rate code
    above 7, a parity code above 2 and a response time of 0 are answered with
    FormatError and the world is unchanged; any other value goes to the
    parameter write with option 0x01, 0x02, 0x04 and 0x08 respectively, the
    three other fields being zero. *)
Theorem system_setter_guards id v (w : World T) :
  0 <= v < 256 ->
  setId crc indeterminate id v w =
    (if 239 <? v then (PMX.ComError.FormatError, w)
     else SystemWRITE_auto crc indeterminate id 0x01 v 0 0 0 w) /\
  setBaudrate crc indeterminate id v w =
    (if 7 <? v then (PMX.ComError.FormatError, w)
     else SystemWRITE_auto crc indeterminate id 0x02 0 v 0 0 w) /\
  setParity crc indeterminate id v w =
    (if 2 <? v then (PMX.ComError.FormatError, w)
     else SystemWRITE_auto crc indeterminate id 0x04 0 0 v 0 w) /\
  setResponseTime crc indeterminate id v w =
    (if v =? 0 then (PMX.ComError.FormatError, w)
     else SystemWRITE_auto crc indeterminate id 0x08 0 0 0 v w).
Proof.
  intros Hv. unfold setId, setBaudrate, setParity, setResponseTime.
  rewrite (proj2 (Z.ltb_ge v 0)) by lia. cbn [orb].
  rewrite !Z.gtb_ltb.
  split; [destruct (239 <? v); reflexivity|].
  split; [destruct (7 <? v); reflexivity|].
  split; [destruct (2 <? v); reflexivity|].
  destruct (Z.ltb_spec v 1), (Z.eqb_spec v 0); try lia; reflexivity.
Qed.

Section SystemREADExchange.

Variable id : Z.
Variable w : World T.
Variable rxFlag : bool.
Variable rxbuf : list Z.
Variable t' : T.

Hypothesis exchange :
  synchronize
    (setCrc16 crc [254; 254; to_byte id; 8; 187; 0; indeterminate; indeterminate]) 8
    (alloca indeterminate 21) 21 (transport w) = ((rxFlag, rxbuf), t').

Ltac enter_SystemREAD :=
  unfold SystemREAD;
  cbv [bind this_synchronize run_transport PmxCrc16_setCrc16 tell ret logOutputPrint];
  cbn [transport trace];
  match goal with
  | |- context [synchronize ?a ?b ?c ?d ?e] =>
      change (synchronize a b c d e)
        with (synchronize
                (setCrc16 crc [254; 254; to_byte id; 8; 187; 0; indeterminate; indeterminate])
                8 (alloca indeterminate 21) 21 (transport w))
  end;
  rewrite exchange.

Lemma SystemREAD_reply (rxData : list Z) :
  rxFlag = true ->
  fst (checkRecv crc rxbuf PMX.SendCmd.SystemREAD default_header w) = PMX.ComError.OK ->
  length rxbuf = 21%nat ->
  length rxData = 13%nat ->
  exists w',
    SystemREAD crc indeterminate id rxData w =
      ((load rxbuf 5, take 13 (drop 6 rxbuf)), w') /\
    sends_once crc w w'
      [254; 254; to_byte id; 8; 187; 0; indeterminate; indeterminate]
      (fun frame => EvSynchronize frame 8 21).
Proof.
  intros Hflag Hok Hrx Hdata. subst rxFlag.
  enter_SystemREAD. cbn [eqb].
  match goal with
  | |- context [checkRecv crc rxbuf ?c ?h ?w1] =>
      pose proof (checkRecv_verdict_world crc rxbuf c h w1 w) as Hv;
      destruct (checkRecv_trace crc rxbuf c h w1) as (e & He & Hne);
      destruct (checkRecv crc rxbuf c h w1) as [errorFlag w2]
  end.
  cbn [fst snd] in Hv, He. rewrite Hok in Hv. subst errorFlag w2.
  cbn [Z.eqb PMX.ComError.OK negb].
  eexists. split.
  - f_equal. f_equal.
    rewrite (for_loop_copy _ rxbuf 0 6 13 rxData);
      [ | intros; reflexivity | lia | lia | lia | rewrite Hdata; cbn; lia
        | rewrite Hrx; cbn; lia ].
    change (Z.to_nat 0) with 0%nat. change (Z.to_nat 13) with 13%nat.
    change (Z.to_nat 6) with 6%nat.
    rewrite take_0, (drop_ge rxData) by (cbn [Nat.add]; lia).
    cbn [app]. apply app_nil_r.
  - unfold sends_once. cbn [after trace]. rewrite <- !app_assoc. cbn [app].
    eexists. split; [reflexivity|]. repeat constructor. exact Hne.
Qed.

Lemma SystemREAD_failed (rxData : list Z) :
  rxFlag = false \/
  fst (checkRecv crc rxbuf PMX.SendCmd.SystemREAD default_header w) <> PMX.ComError.OK ->
  exists status w',
    SystemREAD crc indeterminate id rxData w = ((status, rxData), w') /\
    status =
      (if rxFlag
       then fst (checkRecv crc rxbuf PMX.SendCmd.SystemREAD default_header w)
       else PMX.ComError.TimeOut) /\
    Z.land status PMX.ComError.ErrorMask <> 0 /\
    sends_once crc w w'
      [254; 254; to_byte id; 8; 187; 0; indeterminate; indeterminate]
      (fun frame => EvSynchronize frame 8 21).
Proof.
  intros Hfail. enter_SystemREAD.
  destruct rxFlag; cbn [eqb].
  - destruct Hfail as [Hf | Hbad]; [discriminate Hf|].
    pose proof (checkRecv_verdict_cases crc rxbuf PMX.SendCmd.SystemREAD default_header w)
      as Hcases.
    match goal with
    | |- context [checkRecv crc rxbuf ?c ?h ?w1] =>
        rewrite (checkRecv_verdict_world crc rxbuf c h w w1) in *;
        destruct (checkRecv_trace crc rxbuf c h w1) as (e & He & Hne);
        destruct (checkRecv crc rxbuf c h w1) as [errorFlag w2]
    end.
    cbn [fst snd] in *. subst w2.
    rewrite (proj2 (Z.eqb_neq _ _) Hbad). cbn [negb].
    eexists _, _. split; [reflexivity|]. split; [reflexivity|]. split.
    + destruct Hcases as [E | [E | E]]; [contradiction | |]; rewrite E;
        vm_compute; discriminate.
    + unfold sends_once. cbn [after trace]. rewrite <- !app_assoc. cbn [app].
      eexists. split; [reflexivity|]. repeat constructor. exact Hne.
  - eexists _, _. split; [reflexivity|]. split; [reflexivity|]. split.
    + vm_compute. discriminate.
    + unfold sends_once. cbn [after trace]. rewrite <- !app_assoc. cbn [app].
      eexists. split; [reflexivity|]. repeat constructor.
Qed.

Ltac bytes_of Hbytes :=
  repeat match type of Hbytes with
  | Forall _ (_ :: _) =>
      let Hb := fresh "Hb" in
      apply Forall_cons in Hbytes; destruct Hbytes as [Hb Hbytes]
  end.

(** X22: a validated 21-byte reply to SystemREAD is unpacked as follows:
    status byte 5, serial number bytes 6..9 (low byte first as a number),
    model number bytes 10..11, series number bytes 12..13, version bytes
    14..17, response time byte 18. *)
Theorem system_reader_layout (serial version : list Z) :
  rxFlag = true ->
  fst (checkRecv crc rxbuf PMX.SendCmd.SystemREAD default_header w) = PMX.ComError.OK ->
  length rxbuf = 21%nat ->
  Forall (fun b => 0 <= b < 256) rxbuf ->
  length serial = 4%nat ->
  length version = 4%nat ->
  fst (getSerialNumber_bytes crc indeterminate id serial w) =
    (load rxbuf 5, take 4 (drop 6 rxbuf)) /\
  fst (getSerialNumber crc indeterminate id w) =
    (load rxbuf 5,
     load rxbuf 6 + 256 * load rxbuf 7 + 65536 * load rxbuf 8 + 16777216 * load rxbuf 9) /\
  fst (getModelNum crc indeterminate id w) =
    (load rxbuf 5, le16 rxbuf 10, le16 rxbuf 12) /\
  fst (getVersion crc indeterminate id version w) =
    (load rxbuf 5, take 4 (drop 14 rxbuf)) /\
  fst (getResponseTime crc indeterminate id w) = (load rxbuf 5, load rxbuf 18).
Proof.
  intros Hflag Hok Hrx Hbytes Hserial Hversion.
  destruct (SystemREAD_reply (alloca indeterminate 13) Hflag Hok Hrx eq_refl)
    as (w' & Hread & _).
  destruct rxbuf as [|r0 [|r1 [|r2 [|r3 [|r4 [|r5 [|r6 [|r7 [|r8 [|r9 [|r10 [|r11
    [|r12 [|r13 [|r14 [|r15 [|r16 [|r17 [|r18 [|r19 [|r20 [|? ?]]]]]]]]]]]]]]]]]]]]]];
    try discriminate Hrx.
  destruct serial as [|s0 [|s1 [|s2 [|s3 [|? ?]]]]]; try discriminate Hserial.
  destruct version as [|v0 [|v1 [|v2 [|v3 [|? ?]]]]]; try discriminate Hversion.
  bytes_of Hbytes.
  unfold getSerialNumber, getSerialNumber_bytes, getModelNum, getVersion,
    getResponseTime, bind.
  rewrite Hread. unfold le16. loads.
  rewrite (device_status_class r5) by assumption.
  cbn [Z.eqb PMX.ComError.OK negb ret fst snd].
  split; [reflexivity|]. split; [|split; [|split; [reflexivity|reflexivity]]].
  - change (for_loop 4 _ _) with [r6; r7; r8; r9].
    unfold DataConv.bytesToUint32, DataConv.bytesToUlong.
    cbn [lookup_total list_lookup_total].
    rewrite le32_sum by assumption.
    unfold to_uint32. rewrite Z.mod_small by lia. reflexivity.
  - change (take 13 (drop 6 _)) with [r6; r7; r8; r9; r10; r11; r12; r13; r14; r15; r16; r17; r18].
    loads.
    unfold DataConv.bytesToUint16.
    change (alloca indeterminate 2) with [indeterminate; indeterminate].
    unfold store. change (Z.to_nat 0) with 0%nat. change (Z.to_nat 1) with 1%nat.
    cbn [insert list_insert lookup_total list_lookup_total].
    rewrite !lor_shiftl8 by lia.
    unfold to_uint16. rewrite !Z.mod_small by lia. reflexivity.
Qed.

(** X23: when the serial-number read that precedes a parameter write gets
    no valid reply, the write is not sent: the command returns the read's
    TimeOut or validation verdict, and the SystemREAD request is the only
    transport call. *)
Theorem SystemWRITE_auto_read_failure option newId newBaudrateVal newParityVal
    newResponseTime :
  rxFlag = false \/
  fst (checkRecv crc rxbuf PMX.SendCmd.SystemREAD default_header w) <> PMX.ComError.OK ->
  let r := SystemWRITE_auto crc indeterminate id option newId newBaudrateVal newParityVal
             newResponseTime w in
  fst r =
    (if rxFlag
     then fst (checkRecv crc rxbuf PMX.SendCmd.SystemREAD default_header w)
     else PMX.ComError.TimeOut) /\
  sends_once crc w (snd r)
    [254; 254; to_byte id; 8; 187; 0; indeterminate; indeterminate]
    (fun frame => EvSynchronize frame 8 21).
Proof.
  intros Hfail r. subst r.
  destruct (SystemREAD_failed (alloca indeterminate 13) Hfail)
    as (status & w' & Hread & Hst & Herr & Hsent).
  unfold SystemWRITE_auto, getSerialNumber_bytes, bind.
  rewrite Hread.
  change PMX.ComError.OK with 0 in *.
  rewrite (proj2 (Z.eqb_neq _ _) Herr). cbn [negb ret fst snd].
  rewrite (proj2 (Z.eqb_neq _ _) Herr). cbn [negb ret fst snd].
  split; [exact Hst | exact Hsent].
Qed.

(** X24: when the serial-number read succeeds, the parameter write that
    follows carries it: after the SystemREAD request, one SystemWRITE frame
    (command 0xBC, sixteen bytes) is sent whose bytes 6..9 are bytes 6..9 of
    the SystemREAD reply, followed by the new id, baud-rate code, parity code
    and response time. *)
Theorem SystemWRITE_auto_carries_serial option newId newBaudrateVal newParityVal
    newResponseTime :
  rxFlag = true ->
  fst (checkRecv crc rxbuf PMX.SendCmd.SystemREAD default_header w) = PMX.ComError.OK ->
  length rxbuf = 21%nat ->
  Forall (fun b => 0 <= b < 256) rxbuf ->
  let w1 := snd (getSerialNumber_bytes crc indeterminate id (alloca indeterminate 4) w) in
  sends_once crc w w1
    [254; 254; to_byte id; 8; 187; 0; indeterminate; indeterminate]
    (fun frame => EvSynchronize frame 8 21) /\
  sends_once crc w1
    (snd (SystemWRITE_auto crc indeterminate id option newId newBaudrateVal newParityVal
            newResponseTime w))
    ([254; 254; to_byte id; 16; 188; to_byte option] ++ take 4 (drop 6 rxbuf)
     ++ [to_byte newId; to_byte newBaudrateVal; to_byte newParityVal;
         to_byte newResponseTime; indeterminate; indeterminate])
    (fun frame => EvSynchronize frame 16 8).
Proof.
  intros Hflag Hok Hrx Hbytes w1. subst w1.
  destruct (SystemREAD_reply (alloca indeterminate 13) Hflag Hok Hrx eq_refl)
    as (w' & Hread & Hsent).
  destruct rxbuf as [|r0 [|r1 [|r2 [|r3 [|r4 [|r5 [|r6 [|r7 [|r8 [|r9 [|r10 [|r11
    [|r12 [|r13 [|r14 [|r15 [|r16 [|r17 [|r18 [|r19 [|r20 [|? ?]]]]]]]]]]]]]]]]]]]]]];
    try discriminate Hrx.
  bytes_of Hbytes.
  unfold SystemWRITE_auto, getSerialNumber_bytes, bind.
  rewrite Hread. loads.
  rewrite (device_status_class r5) by assumption.
  cbn [Z.eqb PMX.ComError.OK negb ret fst snd].
  rewrite (device_status_class r5) by assumption.
  cbn [Z.eqb PMX.ComError.OK negb ret fst snd].
  split; [exact Hsent|].
  change (for_loop 4 _ _) with [r6; r7; r8; r9].
  change (take 4 (drop 6 _)) with [r6; r7; r8; r9].
  unfold sends_once, SystemWRITE. loads.
  rewrite (to_byte_small r6), (to_byte_small r7), (to_byte_small r8), (to_byte_small r9)
    by assumption.
  fixed_exchange.
Qed.

End SystemREADExchange.

End SystemCommands.

(** Nothing answers device 1: every reader reports its sentinel. *)
Lemma system_reader_sentinels_witness :
  let w := scripted_world [] in
  snd (fst (getSerialNumber_bytes sumCrc16 0 1 [0; 0; 0; 0] w)) = [0xFF; 0xFF; 0xFF; 0x7F] /\
  snd (fst (getSerialNumber sumCrc16 0 1 w)) = 0x7FFFFFFF /\
  (snd (fst (fst (getModelNum sumCrc16 0 1 w))) = 0x7FFF /\
   snd (fst (getModelNum sumCrc16 0 1 w)) = 0x7FFF) /\
  snd (fst (getVersion sumCrc16 0 1 [0; 0; 0; 0] w)) = [0xFF; 0xFF; 0xFF; 0xFF] /\
  snd (fst (getResponseTime sumCrc16 0 1 w)) = 0xFF.
Proof.
  intros w.
  destruct (system_reader_sentinels sumCrc16 0 1 0 0 0 0 w) as (H1 & H2 & H3 & H4 & H5).
  split; [apply H1; vm_compute; discriminate|].
  split; [apply H2; vm_compute; discriminate|].
  split; [apply H3; vm_compute; discriminate|].
  split; [apply H4; vm_compute; discriminate|].
  apply H5; vm_compute; discriminate.
Defined.

(** Id 240 and response time 0 are refused. *)
Lemma system_setter_guards_witness :
  let w := scripted_world [] in
  setId sumCrc16 0 1 240 w = (PMX.ComError.FormatError, w) /\
  setBaudrate sumCrc16 0 1 240 w = (PMX.ComError.FormatError, w) /\
  setParity sumCrc16 0 1 240 w = (PMX.ComError.FormatError, w) /\
  setResponseTime sumCrc16 0 1 0 w = (PMX.ComError.FormatError, w).
Proof.
  intros w.
  destruct (system_setter_guards sumCrc16 0 1 240 w ltac:(lia)) as (H1 & H2 & H3 & _).
  destruct (system_setter_guards sumCrc16 0 1 0 w ltac:(lia)) as (_ & _ & _ & H4).
  split; [exact H1|]. split; [exact H2|]. split; [exact H3|]. exact H4.
Defined.

(** Device 1 reports serial number 0x12345678, model 0x0102, series 3,
    version 1.2.3.4 and response time 5. *)
Lemma system_reader_layout_witness :
  let w := scripted_world
             [[254; 254; 1; 21; 59; 0; 120; 86; 52; 18; 2; 1; 3; 0; 1; 2; 3; 4; 5; 118; 3]] in
  fst (getSerialNumber_bytes sumCrc16 0 1 [0; 0; 0; 0] w) = (0, [120; 86; 52; 18]) /\
  fst (getSerialNumber sumCrc16 0 1 w) = (0, 0x12345678) /\
  fst (getModelNum sumCrc16 0 1 w) = (0, 0x0102, 3) /\
  fst (getVersion sumCrc16 0 1 [0; 0; 0; 0] w) = (0, [1; 2; 3; 4]) /\
  fst (getResponseTime sumCrc16 0 1 w) = (0, 5).
Proof.
  intros w.
  refine (system_reader_layout sumCrc16 0 1 w true
            [254; 254; 1; 21; 59; 0; 120; 86; 52; 18; 2; 1; 3; 0; 1; 2; 3; 4; 5; 118; 3]
            _ _ [0; 0; 0; 0] [0; 0; 0; 0] _ _ _ _ _ _).
  - vm_compute. reflexivity.
  - reflexivity.
  - reflexivity.
  - reflexivity.
  - repeat (constructor; [lia|]). constructor.
  - reflexivity.
  - reflexivity.
Defined.

(** Nothing answers the serial-number read of device 1: setting the id
    stops there. *)
Lemma SystemWRITE_auto_read_failure_witness :
  let w := scripted_world [] in
  let r := SystemWRITE_auto sumCrc16 0 1 0x01 7 0 0 0 w in
  fst r = PMX.ComError.TimeOut /\
  sends_once sumCrc16 w (snd r) [254; 254; 1; 8; 187; 0; 0; 0]
    (fun frame => EvSynchronize frame 8 21).
Proof.
  intros w.
  refine (SystemWRITE_auto_read_failure sumCrc16 0 1 w false _ _ _ 0x01 7 0 0 0 _).
  - vm_compute. reflexivity.
  - left. reflexivity.
Defined.

(** Device 1 reports serial number 0x12345678; the id is then set to 7. *)
Lemma SystemWRITE_auto_carries_serial_witness :
  let w := scripted_world
             [[254; 254; 1; 21; 59; 0; 120; 86; 52; 18; 2; 1; 3; 0; 1; 2; 3; 4; 5; 118; 3]] in
  let w1 := snd (getSerialNumber_bytes sumCrc16 0 1 [0; 0; 0; 0] w) in
  sends_once sumCrc16 w w1 [254; 254; 1; 8; 187; 0; 0; 0]
    (fun frame => EvSynchronize frame 8 21) /\
  sends_once sumCrc16 w1 (snd (SystemWRITE_auto sumCrc16 0 1 0x01 7 0 0 0 w))
    [254; 254; 1; 16; 188; 1; 120; 86; 52; 18; 7; 0; 0; 0; 0; 0]
    (fun frame => EvSynchronize frame 16 8).
Proof.
  intros w.
  refine (SystemWRITE_auto_carries_serial sumCrc16 0 1 w true
            [254; 254; 1; 21; 59; 0; 120; 86; 52; 18; 2; 1; 3; 0; 1; 2; 3; 4; 5; 118; 3]
            _ _ 0x01 7 0 0 0 _ _ _ _).
  - vm_compute. reflexivity.
  - reflexivity.
  - reflexivity.
  - reflexivity.
  - repeat (constructor; [lia|]). constructor.
Defined.
